(** * EvoNEST data-science pipeline: curve trimming, polynomial fit, outlier analysis

    A shallow embedding of the numeric core of
    [src/python/process_mechanical_data.py] (module [Curve]) and of
    [src/python/analyse_outliers.py] (module [Outliers]).

    Numbers.  The Python code computes on IEEE doubles.  The curve side is
    modelled on exact rationals [Q] (every literal of the examples is a
    rational, and no operation of that file leaves the rationals); the only
    non-finite values that the code can produce there come from the division
    in [r_squared], and they are kept explicit in [npfloat].  The statistics
    side needs a square root and is modelled on the real numbers [R].

    Rounding.  Comparisons, maxima, minima, indices and counts are exact in
    the program as they are here.  Sums, products, quotients and square
    roots are rounded in the program: a numeric equation of this file is to
    be read up to that rounding.  Where an outcome turns on comparing a
    computed value (the drop level of the fracture test, the divisor of
    [r_squared], the edges of a sigma band), the statements quantify over
    the value as computed or stored, so that they hold of the program
    whatever the rounding was. *)

From Stdlib Require Import String.
From Stdlib Require Import List Arith ZArith QArith Qabs Lia Bool.
From Stdlib Require Import Permutation Sorted DecimalString.
From Stdlib Require Import Reals Lra.
From Stdlib Require Lqa DecimalNat.
Import ListNotations.

(** ** Python-level plumbing shared by both files *)

(** Exceptions the modelled code can raise or catch. *)
Inductive exn : Type :=
| ValueError
| KeyError
| TypeError.

(** Result of a Python call that either returns or raises. *)
Inductive py (A : Type) : Type :=
| Ret (a : A)
| Raise (e : exn).
Arguments Ret {A} a.
Arguments Raise {A} e.

Definition py_bind {A B : Type} (m : py A) (k : A -> py B) : py B :=
  match m with
  | Ret a => k a
  | Raise e => Raise e
  end.

Notation "x <- m ;; k" := (py_bind m (fun x => k))
  (at level 61, m at next level, right associativity).

(** [l[a:b]] for in-range, non-negative bounds. *)
Definition slice {A : Type} (l : list A) (a b : nat) : list A :=
  skipn a (firstn b l).

(** [range(a, b)] *)
Definition range (a b : nat) : list nat := seq a (b - a).

(** Dictionaries keep insertion order; they are association lists with at
    most one binding per key. *)
Definition dict_get {V : Type} (d : list (string * V)) (k : string) : option V :=
  match find (fun kv => String.eqb (fst kv) k) d with
  | Some kv => Some (snd kv)
  | None => None
  end.

(** [d[k] = v]: an existing key keeps its position, a new one goes last. *)
Fixpoint dict_set {V : Type} (d : list (string * V)) (k : string) (v : V)
  : list (string * V) :=
  match d with
  | [] => [(k, v)]
  | kv :: rest =>
      if String.eqb (fst kv) k then (k, v) :: rest
      else kv :: dict_set rest k v
  end.

Module Curve.

Local Open Scope Q_scope.

Definition Qltb (a b : Q) : bool := negb (Qle_bool b a).

(** *** numpy reductions *)

(** [np.argmax]: index of the first occurrence of the largest value.
    [best_i]/[best] is the running candidate, [i] the index of the head. *)
Fixpoint argmax_from (best_i : nat) (best : Q) (i : nat) (l : list Q) : nat :=
  match l with
  | [] => best_i
  | x :: r =>
      if Qltb best x then argmax_from i x (S i) r
      else argmax_from best_i best (S i) r
  end.

(** [np.argmax] raises [ValueError] on an empty array. *)
Definition argmax (l : list Q) : py nat :=
  match l with
  | [] => Raise ValueError
  | x :: r => Ret (argmax_from 0 x 1 r)
  end.

(** [np.argmin]: index of the first occurrence of the smallest value. *)
Fixpoint argmin_from (best_i : nat) (best : Q) (i : nat) (l : list Q) : nat :=
  match l with
  | [] => best_i
  | x :: r =>
      if Qltb x best then argmin_from i x (S i) r
      else argmin_from best_i best (S i) r
  end.

Definition argmin (l : list Q) : py nat :=
  match l with
  | [] => Raise ValueError
  | x :: r => Ret (argmin_from 0 x 1 r)
  end.

Definition Qmax' (a b : Q) : Q := if Qltb a b then b else a.
Definition Qmin' (a b : Q) : Q := if Qltb b a then b else a.

(** [arr.max()] and [arr.min()]: [ValueError] on a zero-size array. *)
Definition arr_max (l : list Q) : py Q :=
  match l with
  | [] => Raise ValueError
  | x :: r => Ret (fold_left Qmax' r x)
  end.

Definition arr_min (l : list Q) : py Q :=
  match l with
  | [] => Raise ValueError
  | x :: r => Ret (fold_left Qmin' r x)
  end.

Definition Qsum (l : list Q) : Q := fold_left Qplus l 0.

(** [arr.mean()] on a non-empty array. *)
Definition arr_mean (l : list Q) : Q := Qsum l / inject_Z (Z.of_nat (length l)).

(** *** Configuration ([MechanicalDataProcessor.__init__]) *)

Record Config : Type := {
  stop_max_stress : bool;
  drop_threshold : Q;
  min_points : nat;
  polynomial_degree : nat
}.

(** *** [detect_fracture_point] *)

Definition detect_fracture_point (cfg : Config) (strain stress : list Q)
  : py (option nat) :=
  if (length stress <? min_points cfg + 10)%nat then Ret None
  else
    max_stress_idx <- argmax stress ;;
    let max_stress := nth max_stress_idx stress 0 in
    if stop_max_stress cfg then Ret (Some max_stress_idx)
    else
      Ret (find (fun i => Qltb (nth i stress 0)
                               (max_stress * (1 - drop_threshold cfg)))
                (range max_stress_idx (length stress - min_points cfg))).

(** *** [trim_curve_to_fracture] *)

Record TrimInfo : Type := {
  original_points : nat;
  trimmed_points : nat;
  zero_strain_idx : nat;
  fracture_idx : option nat;
  fracture_detected : bool;
  strain_range : Q * Q;
  stress_range : Q * Q;
  max_stress : Q
}.

Definition trim_curve_to_fracture (cfg : Config) (strain stress : list Q)
  : py (option (list Q * list Q * TrimInfo)) :=
  if ((length strain =? 0) || (length stress =? 0))%nat then Ret None
  else
    zero_idx <- argmin (map Qabs strain) ;;
    frac <- detect_fracture_point cfg strain stress ;;
    let end_idx := match frac with
                   | None => length strain
                   | Some i => i
                   end in
    let detected := match frac with None => false | Some _ => true end in
    let trimmed_strain := slice strain zero_idx end_idx in
    let trimmed_stress := slice stress zero_idx end_idx in
    smin <- arr_min trimmed_strain ;;
    smax <- arr_max trimmed_strain ;;
    tmin <- arr_min trimmed_stress ;;
    tmax <- arr_max trimmed_stress ;;
    Ret (Some (trimmed_strain, trimmed_stress,
               {| original_points := length strain;
                  trimmed_points := length trimmed_strain;
                  zero_strain_idx := zero_idx;
                  fracture_idx := frac;
                  fracture_detected := detected;
                  strain_range := (smin, smax);
                  stress_range := (tmin, tmax);
                  max_stress := if (0 <? length trimmed_stress)%nat
                                then tmax else 0 |})).

(** *** [extract_stress_strain_data] *)

(** First element of the optional ancestor chain. *)
Record Taxon : Type := {
  tx_family : option string;
  tx_genus : option string;
  tx_species : option string;
  tx_subsampletype : option string
}.

(** A raw experiment: the two value arrays of [rawData] (JSON [null] is
    [None]), the [name] of [metadata] and the [sampleChain].  The other
    metadata and mechanical-property scalars are copied verbatim into the
    record by the source and take no part in any computation; they are left
    out. *)
Record Experiment : Type := {
  EngineeringStrain : list (option Q);
  EngineeringStress : list (option Q);
  metadata_name : option string;
  sampleChain : list Taxon
}.

(** One turn of the cleaning loop,
    [for i in range(min(len(strain_data), len(stress_data)))]. *)
Definition clean_step (strain_data stress_data : list (option Q))
  (acc : list Q * list Q) (i : nat) : list Q * list Q :=
  match nth i strain_data None, nth i stress_data None with
  | Some a, Some b => (fst acc ++ [a], snd acc ++ [b])
  | _, _ => acc
  end.

Definition clean_pairs (strain_data stress_data : list (option Q))
  : list Q * list Q :=
  fold_left (clean_step strain_data stress_data)
            (range 0 (Nat.min (length strain_data) (length stress_data)))
            ([], []).

(** The [try]/[except (KeyError, TypeError, ValueError)] of the source turns
    every exception of the body into the all-[None] result. *)
Definition extract_stress_strain_data (cfg : Config) (experiment : Experiment)
  : option (list Q * list Q * string * TrimInfo) :=
  let (strain_clean, stress_clean) :=
    clean_pairs (EngineeringStrain experiment) (EngineeringStress experiment) in
  if ((length strain_clean =? 0) || (length stress_clean =? 0))%nat then None
  else
    let sample_name := match metadata_name experiment with
                       | Some n => n
                       | None => "Unknown"%string
                       end in
    match trim_curve_to_fracture cfg strain_clean stress_clean with
    | Ret (Some (strain_trimmed, stress_trimmed, trim_info)) =>
        Some (strain_trimmed, stress_trimmed, sample_name, trim_info)
    | Ret None => None
    | Raise _ => None
    end.

(** *** [numpy.polynomial.Polynomial.fit]

    The library function fits in a scaled variable: the data interval
    [[min x, max x]] (widened by one on both sides when it is a single point)
    is mapped affinely onto the window [[-1, 1]], and the least-squares
    problem is solved for the powers of the mapped abscissa.  The returned
    series keeps domain and window; its [coef] are the coefficients in the
    mapped variable, and calling the series maps its argument first.

    The least-squares solution is computed here from the normal equations by
    Gauss-Jordan elimination on rationals.  When the Vandermonde matrix has
    full column rank this is the unique minimiser numpy returns; in the
    rank-deficient case numpy returns the minimum-norm minimiser whereas the
    elimination below sets the free coefficients to zero (no result of this
    file depends on that case). *)

Definition row : Type := list Q.

Definition scale (c : Q) (r : row) : row := map (fun a => Qred (c * a)) r.

(** [r - c * p] *)
Definition row_sub (r p : row) (c : Q) : row :=
  map (fun ab => Qred (fst ab - c * snd ab)) (combine r p).

Definition elim_col (j : nat) (p r : row) : row := row_sub r p (nth j r 0).

Fixpoint find_pivot (j : nat) (rows : list row) : option (row * list row) :=
  match rows with
  | [] => None
  | r :: rs =>
      if Qeq_bool (nth j r 0) 0 then
        match find_pivot j rs with
        | Some (p, rest) => Some (p, r :: rest)
        | None => None
        end
      else Some (r, rs)
  end.

Fixpoint gauss_jordan (cols : list nat) (done : list (nat * row))
  (todo : list row) : list (nat * row) :=
  match cols with
  | [] => done
  | j :: cs =>
      match find_pivot j todo with
      | None => gauss_jordan cs done todo
      | Some (p, rest) =>
          let p' := scale (/ nth j p 0) p in
          gauss_jordan cs
            ((j, p') :: map (fun kr => (fst kr, elim_col j p' (snd kr))) done)
            (map (elim_col j p') rest)
      end
  end.

(** Solution of the [n] by [n+1] augmented system [aug]. *)
Definition solve (n : nat) (aug : list row) : list Q :=
  let done := gauss_jordan (seq 0 n) [] aug in
  map (fun j => match find (fun kr => (fst kr =? j)%nat) done with
                | Some kr => Qred (nth n (snd kr) 0)
                | None => 0
                end)
      (seq 0 n).

(** [x^k], computed by repeated multiplication. *)
Fixpoint Qpow (x : Q) (k : nat) : Q :=
  match k with
  | O => 1
  | S k' => x * Qpow x k'
  end.

(** Row [j] of the normal equations [(V^T V) c = V^T y] for the Vandermonde
    matrix [V] of [xs] with columns [x^0 .. x^deg]. *)
Definition normal_row (xs ys : list Q) (deg j : nat) : row :=
  map (fun k => Qred (Qsum (map (fun x => Qpow x (j + k)) xs))) (seq 0 (S deg))
  ++ [Qred (Qsum (map (fun xy => snd xy * Qpow (fst xy) j) (combine xs ys)))].

Definition lstsq_poly (xs ys : list Q) (deg : nat) : list Q :=
  solve (S deg) (map (normal_row xs ys deg) (seq 0 (S deg))).

(** A series as [numpy.polynomial.Polynomial] stores it. *)
Record Polynomial : Type := {
  coef : list Q;
  domain : Q * Q;
  window : Q * Q
}.

(** [polyutils.mapparms]: offset and scale of the affine map [old -> new]. *)
Definition mapparms (old new : Q * Q) : Q * Q :=
  let oldlen := snd old - fst old in
  let newlen := snd new - fst new in
  ((snd old * fst new - fst old * snd new) / oldlen, newlen / oldlen).

Definition mapdomain (x : Q) (old new : Q * Q) : Q :=
  let (off, scl) := mapparms old new in Qred (off + scl * x).

Definition Polynomial_fit (x y : list Q) (deg : nat) : py Polynomial :=
  if (length x =? 0)%nat then Raise TypeError
  else if negb (length x =? length y)%nat then Raise TypeError
  else
    lo <- arr_min x ;;
    hi <- arr_max x ;;
    let dom := if Qeq_bool lo hi then (lo - 1, hi + 1) else (lo, hi) in
    let win := (-(1), 1) in
    let xnew := map (fun v => mapdomain v dom win) x in
    Ret {| coef := lstsq_poly xnew y deg; domain := dom; window := win |}.

(** Horner evaluation of ascending coefficients. *)
Definition polyval (c : list Q) (x : Q) : Q :=
  fold_right (fun a acc => a + x * acc) 0 c.

(** [p(x)]: the argument is mapped from the domain to the window first. *)
Definition Polynomial_call (p : Polynomial) (x : Q) : Q :=
  polyval (coef p) (mapdomain x (domain p) (window p)).

(** [p.convert().coef] for a series of degree at most one: the coefficients
    in the unscaled variable. *)
Definition convert_linear (p : Polynomial) : list Q :=
  let (off, scl) := mapparms (domain p) (window p) in
  match coef p with
  | [c0; c1] => [Qred (c0 + c1 * off); Qred (c1 * scl)]
  | c => c
  end.

(** *** Division of numpy scalars

    Dividing [np.float64] values does not raise on a zero divisor: it yields
    [nan] for [0/0] and a signed infinity otherwise (with a warning). *)
Inductive npfloat : Type :=
| Fin (q : Q)
| NaN
| PosInf
| NegInf.

Definition np_div (a b : Q) : npfloat :=
  if Qeq_bool b 0 then
    if Qeq_bool a 0 then NaN
    else if Qltb 0 a then PosInf else NegInf
  else Fin (Qred (a / b)).

(** [1 - v] *)
Definition one_minus (v : npfloat) : npfloat :=
  match v with
  | Fin q => Fin (Qred (1 - q))
  | NaN => NaN
  | PosInf => NegInf
  | NegInf => PosInf
  end.

Definition is_finite (v : npfloat) : bool :=
  match v with Fin _ => true | _ => false end.

(** [np.sum((stress - p(strain))**2)] *)
Definition SSE (p : Polynomial) (strain stress : list Q) : Q :=
  Qsum (map (fun xy => (snd xy - Polynomial_call p (fst xy)) ^ 2)
            (combine strain stress)).

(** [np.sum((stress - stress.mean())**2)] *)
Definition SST (stress : list Q) : Q :=
  Qsum (map (fun y => (y - arr_mean stress) ^ 2) stress).

Definition r_squared_of (p : Polynomial) (strain stress : list Q) : npfloat :=
  one_minus (np_div (SSE p strain stress) (SST stress)).

(** Lines 467-468 and 476 of the source: the fit proper, with the two values
    it contributes to the record. *)
Definition fit (strain stress : list Q) (degree : nat)
  : py (list Q * npfloat) :=
  p <- Polynomial_fit strain stress degree ;;
  Ret (coef p, r_squared_of p strain stress).

(** *** [fit_polynomial_to_experiment] *)

Record ExperimentRecord : Type := {
  experiment_id : string;
  sample_name : string;
  polynomial_coefficients : list Q;
  r_squared : npfloat;
  data_points : nat;
  rec_strain_range : Q * Q;
  rec_stress_range : Q * Q;
  rec_fracture_detected : bool;
  rec_max_stress : Q;
  trim_info : TrimInfo;
  family : option string;
  genus : option string;
  species : option string;
  subsampletype : option string
}.

(** Why a call returned [None].  The source returns a bare [None] on every
    one of these paths; only [Failed] prints a message. *)
Inductive outcome : Type :=
| Produced (r : ExperimentRecord)
| NotFound
| ExtractFailed
| TooFewPoints (n : nat)
| Failed (e : exn).

Definition first_taxon (experiment : Experiment) (f : Taxon -> option string)
  : option string :=
  match sampleChain experiment with
  | [] => None
  | t :: _ => f t
  end.

(** The body of the [try] block once the length guard has passed. *)
Definition build_record (cfg : Config) (experiment : Experiment) (id : string)
  (strain stress : list Q) (name : string) (info : TrimInfo)
  : py ExperimentRecord :=
  cr <- fit strain stress (polynomial_degree cfg) ;;
  smin <- arr_min strain ;;
  smax <- arr_max strain ;;
  tmin <- arr_min stress ;;
  tmax <- arr_max stress ;;
  Ret {| experiment_id := id;
         sample_name := name;
         polynomial_coefficients := fst cr;
         r_squared := snd cr;
         data_points := length strain;
         rec_strain_range := (smin, smax);
         rec_stress_range := (tmin, tmax);
         rec_fracture_detected := fracture_detected info;
         rec_max_stress := max_stress info;
         trim_info := info;
         family := first_taxon experiment tx_family;
         genus := first_taxon experiment tx_genus;
         species := first_taxon experiment tx_species;
         subsampletype := first_taxon experiment tx_subsampletype |}.

Definition fit_polynomial_to_experiment_outcome (cfg : Config)
  (experiments : list (string * Experiment)) (id : string) : outcome :=
  match dict_get experiments id with
  | None => NotFound
  | Some experiment =>
      match extract_stress_strain_data cfg experiment with
      | None => ExtractFailed
      | Some (strain, stress, name, info) =>
          if (length strain <? 10)%nat then TooFewPoints (length strain)
          else
            match build_record cfg experiment id strain stress name info with
            | Raise e => Failed e
            | Ret r => Produced r
            end
      end
  end.

(** The value the Python function returns: a record or [None]. *)
Definition fit_polynomial_to_experiment (cfg : Config)
  (experiments : list (string * Experiment)) (id : string)
  : option ExperimentRecord :=
  match fit_polynomial_to_experiment_outcome cfg experiments id with
  | Produced r => Some r
  | _ => None
  end.

(** *** Vocabulary of the statements *)

(** [i] is the first position of a largest element of [l]. *)
Definition is_first_max (l : list Q) (i : nat) : Prop :=
  (i < length l)%nat
  /\ (forall j, (j < length l)%nat -> nth j l 0 <= nth i l 0)
  /\ (forall j, (j < i)%nat -> nth j l 0 < nth i l 0).

(** The pairs the cleaning loop is meant to keep, index by index: position
    [i] below both lengths contributes when both entries are present. *)
Definition pairs_both_present (strain_data stress_data : list (option Q))
  : list (Q * Q) :=
  flat_map (fun i => match nth i strain_data None, nth i stress_data None with
                     | Some a, Some b => [(a, b)]
                     | _, _ => []
                     end)
           (seq 0 (Nat.min (length strain_data) (length stress_data))).

(** [a] is within [eps] of [b]. *)
Definition approx (eps a b : Q) : Prop := Qabs (a - b) <= eps.

(** *** Example inputs *)

(** Drop-threshold mode with [drop_threshold = 0.5] and the default
    [min_points = 1], degree 1. *)
Definition cfg_drop_half : Config :=
  {| stop_max_stress := false;
     drop_threshold := 0.5;
     min_points := 1;
     polynomial_degree := 1 |}.

Definition cfg_stop_at_max : Config :=
  {| stop_max_stress := true;
     drop_threshold := 0.9;
     min_points := 1;
     polynomial_degree := 1 |}.

Definition strain_e2e : list Q :=
  [0; 0.1; 0.2; 0.3; 0.4; 0.5; 0.6; 0.7; 0.8; 0.9; 1.0].
Definition stress_e2e : list Q :=
  [0; 10; 20; 30; 25; 5; 4; 3; 2; 1; 0].

Definition experiment_of (strain stress : list Q) : Experiment :=
  {| EngineeringStrain := map Some strain;
     EngineeringStress := map Some stress;
     metadata_name := Some "sample"%string;
     sampleChain := [] |}.

Definition experiment_e2e : Experiment := experiment_of strain_e2e stress_e2e.

(** Ten samples of a curve whose stress never moves. *)
Definition strain_flat : list Q := [0; 1; 2; 3; 4; 5; 6; 7; 8; 9].
Definition stress_flat : list Q := [5; 5; 5; 5; 5; 5; 5; 5; 5; 5].
Definition experiment_flat : Experiment := experiment_of strain_flat stress_flat.

(** The line [stress = 2 * strain]: the four samples of the fitting example
    and ten samples of the same line. *)
Definition experiment_line4 : Experiment :=
  experiment_of [0; 1; 2; 3] [0; 2; 4; 6].
Definition experiment_line10 : Experiment :=
  experiment_of [0; 1; 2; 3; 4; 5; 6; 7; 8; 9]
                [0; 2; 4; 6; 8; 10; 12; 14; 16; 18].

(** Eleven samples with the largest stress at index 7. *)
Definition stress_peak : list Q := [0; 1; 2; 3; 4; 5; 6; 9; 9; 3; 1].

(** *** [process_all_experiments]

    The loop over the experiment ids with its two counters.  Saving the
    plots is output only and is left out. *)
Record Batch : Type := {
  results : list ExperimentRecord;
  processed : nat;
  failed : nat
}.

Definition process_one (cfg : Config) (experiments : list (string * Experiment))
  (acc : Batch) (exp_id : string) : Batch :=
  match fit_polynomial_to_experiment cfg experiments exp_id with
  | Some result =>
      {| results := results acc ++ [result];
         processed := processed acc + 1;
         failed := failed acc |}
  | None =>
      {| results := results acc;
         processed := processed acc;
         failed := failed acc + 1 |}
  end.

(** [experiment_ids[:max_exp]] is taken [if max_exp:], that is when the cap
    is neither [None] nor zero.  The cap is [None] or the integer that the
    prompt stores unchecked; a negative one makes the slice drop that many
    ids from the end. *)
Definition capped_ids (max_experiments : option Z) (ids : list string)
  : list string :=
  match max_experiments with
  | Some (Zpos p) => firstn (Pos.to_nat p) ids
  | Some (Zneg p) => firstn (length ids - Pos.to_nat p) ids
  | _ => ids
  end.

Definition process_all_experiments (cfg : Config) (max_experiments : option Z)
  (experiments : list (string * Experiment)) : Batch :=
  fold_left (process_one cfg experiments)
            (capped_ids max_experiments (map fst experiments))
            {| results := []; processed := 0; failed := 0 |}.

(** *** [save_results]: the data handed to [json.dump] *)
Record OutputData : Type := {
  total_experiments : nat;
  out_polynomial_degree : nat;
  out_stop_max_stress : bool;
  out_drop_threshold : Q;
  out_min_points : nat;
  out_experiments : list (string * ExperimentRecord)
}.

Definition save_results (cfg : Config) (rs : list ExperimentRecord) : OutputData :=
  {| total_experiments := length rs;
     out_polynomial_degree := polynomial_degree cfg;
     out_stop_max_stress := stop_max_stress cfg;
     out_drop_threshold := drop_threshold cfg;
     out_min_points := min_points cfg;
     out_experiments := fold_left (fun d r => dict_set d (experiment_id r) r) rs [] |}.

(** *** More vocabulary *)

(** [i] is the first position of a smallest element of [l]. *)
Definition is_first_min (l : list Q) (i : nat) : Prop :=
  (i < length l)%nat
  /\ (forall j, (j < length l)%nat -> nth i l 0 <= nth j l 0)
  /\ (forall j, (j < i)%nat -> nth i l 0 < nth j l 0).

(** The stress level under which a sample counts as fractured. *)
Definition drop_level (cfg : Config) (max_stress : Q) : Q :=
  max_stress * (1 - drop_threshold cfg).

(** The drop test as the program computes it.  The level
    [max_stress * (1 - self.drop_threshold)] is evaluated in floating point,
    so the value the samples are compared with is the exact product up to
    rounding.  [detect_fracture_point_with level_of] is
    [detect_fracture_point] with that value taken as
    [level_of max_stress drop_threshold], whatever the evaluation gives;
    [detect_fracture_point] is its instance at the exact product. *)
Definition detect_fracture_point_with (level_of : Q -> Q -> Q) (cfg : Config)
  (strain stress : list Q) : py (option nat) :=
  if (length stress <? min_points cfg + 10)%nat then Ret None
  else
    max_stress_idx <- argmax stress ;;
    let max_stress := nth max_stress_idx stress 0 in
    if stop_max_stress cfg then Ret (Some max_stress_idx)
    else
      Ret (find (fun i => Qltb (nth i stress 0)
                               (level_of max_stress (drop_threshold cfg)))
                (range max_stress_idx (length stress - min_points cfg))).

(** [lo] and [hi] are the smallest and the largest element of [l]. *)
Definition is_range (l : list Q) (lo hi : Q) : Prop :=
  In lo l /\ In hi l /\ forall x, In x l -> lo <= x /\ x <= hi.

(** The ids of a list that give a record, and those records. *)
Definition has_record (cfg : Config) (experiments : list (string * Experiment))
  (id : string) : bool :=
  match fit_polynomial_to_experiment cfg experiments id with
  | Some _ => true
  | None => false
  end.

Definition records_of (cfg : Config) (experiments : list (string * Experiment))
  (ids : list string) : list ExperimentRecord :=
  flat_map (fun id => match fit_polynomial_to_experiment cfg experiments id with
                      | Some r => [r]
                      | None => []
                      end) ids.

(** The fit quality as the program computes it.  The two sums of
    [r_squared] are evaluated in floating point, so the dividend and the
    divisor of the quotient are the exact sums up to rounding.
    [sums p strain stress] stands for the pair of values the evaluation
    gives, whatever they are; the functions below are [fit], [build_record]
    and [fit_polynomial_to_experiment_outcome] with the quotient formed from
    that pair, and the functions above are their instances at the exact
    sums [(SSE p strain stress, SST stress)]. *)
Definition fit_with (sums : Polynomial -> list Q -> list Q -> Q * Q)
  (strain stress : list Q) (degree : nat) : py (list Q * npfloat) :=
  p <- Polynomial_fit strain stress degree ;;
  Ret (coef p,
       one_minus (np_div (fst (sums p strain stress))
                         (snd (sums p strain stress)))).

Definition build_record_with (sums : Polynomial -> list Q -> list Q -> Q * Q)
  (cfg : Config) (experiment : Experiment) (id : string)
  (strain stress : list Q) (name : string) (info : TrimInfo)
  : py ExperimentRecord :=
  cr <- fit_with sums strain stress (polynomial_degree cfg) ;;
  smin <- arr_min strain ;;
  smax <- arr_max strain ;;
  tmin <- arr_min stress ;;
  tmax <- arr_max stress ;;
  Ret {| experiment_id := id;
         sample_name := name;
         polynomial_coefficients := fst cr;
         r_squared := snd cr;
         data_points := length strain;
         rec_strain_range := (smin, smax);
         rec_stress_range := (tmin, tmax);
         rec_fracture_detected := fracture_detected info;
         rec_max_stress := max_stress info;
         trim_info := info;
         family := first_taxon experiment tx_family;
         genus := first_taxon experiment tx_genus;
         species := first_taxon experiment tx_species;
         subsampletype := first_taxon experiment tx_subsampletype |}.

Definition fit_polynomial_to_experiment_outcome_with
  (sums : Polynomial -> list Q -> list Q -> Q * Q) (cfg : Config)
  (experiments : list (string * Experiment)) (id : string) : outcome :=
  match dict_get experiments id with
  | None => NotFound
  | Some experiment =>
      match extract_stress_strain_data cfg experiment with
      | None => ExtractFailed
      | Some (strain, stress, name, info) =>
          if (length strain <? 10)%nat then TooFewPoints (length strain)
          else
            match build_record_with sums cfg experiment id strain stress name info with
            | Raise e => Failed e
            | Ret r => Produced r
            end
      end
  end.

(** The exact sums. *)
Definition exact_sums (p : Polynomial) (strain stress : list Q) : Q * Q :=
  (SSE p strain stress, SST stress).

End Curve.


Module Outliers.

Local Open Scope R_scope.

(** *** Numbers of the data frame

    A cell is a real number or missing ([NaN]/[None]), here [None].
    Comparisons with a missing operand are false, arithmetic with a missing
    operand is missing.  Arithmetic is that of [R]: a value computed by the
    program is the value computed here up to rounding, and the statements
    that turn on a comparison are made about the values that are stored
    (the band edges of a [Stats], the [abs_deviation] of a row), not about
    the exact formulas.  An infinite value (a deviation over a standard
    deviation that has underflowed to zero) is outside this model. *)
Definition fl : Type := option R.

Definition Rltb (a b : R) : bool := if Rlt_dec a b then true else false.
Definition Rleb (a b : R) : bool := if Rle_dec a b then true else false.

Definition fl_lt (a b : fl) : bool :=
  match a, b with
  | Some x, Some y => Rltb x y
  | _, _ => false
  end.

Definition notna (a : fl) : bool :=
  match a with Some _ => true | None => false end.

Definition fl_abs (a : fl) : fl := option_map Rabs a.

(** Order used by a descending sort with [na_position='last']. *)
Definition fl_ge (a b : fl) : Prop :=
  match a, b with
  | Some x, Some y => y <= x
  | _, None => True
  | None, Some _ => False
  end.

(** *** The experiments frame *)

Record Row : Type := {
  experiment_id : string;
  sample_name : option string;
  family : option string;
  name : string;
  subsampletype : option string;
  cells : list (string * fl)
}.

Record DataFrame : Type := {
  df_columns : list string;
  df_rows : list Row
}.

(** [row[column]]; a key absent from the record is [NaN] in the frame. *)
Definition cell (r : Row) (column : string) : fl :=
  match dict_get (cells r) column with
  | Some v => v
  | None => None
  end.

(** [series.dropna()] *)
Definition dropna (l : list fl) : list R :=
  flat_map (fun c => match c with Some v => [v] | None => [] end) l.

Definition Rsum (l : list R) : R := fold_right Rplus 0 l.

Definition series_mean (l : list R) : R := Rsum l / INR (length l).

(** [Series.std()]: sample standard deviation ([ddof=1]), [NaN] when a
    single value is left. *)
Definition series_std (l : list R) : fl :=
  if (length l <=? 1)%nat then None
  else Some (sqrt (Rsum (map (fun x => Rsqr (x - series_mean l)) l)
                   / INR (length l - 1))).

Definition series_min (l : list R) : fl :=
  match l with
  | [] => None
  | x :: r => Some (fold_left Rmin r x)
  end.

Definition series_max (l : list R) : fl :=
  match l with
  | [] => None
  | x :: r => Some (fold_left Rmax r x)
  end.

Fixpoint Rinsert (x : R) (l : list R) : list R :=
  match l with
  | [] => [x]
  | y :: r => if Rle_dec x y then x :: l else y :: Rinsert x r
  end.

Definition Rsort (l : list R) : list R := fold_right Rinsert [] l.

Definition series_median (l : list R) : fl :=
  let s := Rsort l in
  let n := length l in
  if (n =? 0)%nat then None
  else if Nat.even n
       then Some ((nth (n / 2 - 1) s 0 + nth (n / 2) s 0) / 2)
       else Some (nth (n / 2) s 0).

(** *** [calculate_statistics_for_group] *)

Record Stats : Type := {
  column : string;
  count : nat;
  mean : R;
  std : fl;
  min : fl;
  max : fl;
  median : fl;
  sigma_1_low : fl;
  sigma_1_high : fl;
  sigma_2_low : fl;
  sigma_2_high : fl;
  sigma_3_low : fl;
  sigma_3_high : fl
}.

(** [mean - k*std] and [mean + k*std] *)
Definition band_low (m : R) (k : R) (s : fl) : fl :=
  option_map (fun sd => m - k * sd) s.
Definition band_high (m : R) (k : R) (s : fl) : fl :=
  option_map (fun sd => m + k * sd) s.

Definition calculate_statistics_for_group (group_df : list Row)
  (col : string) : option Stats :=
  let values := dropna (map (fun r => cell r col) group_df) in
  if (length values =? 0)%nat then None
  else
    let m := series_mean values in
    let s := series_std values in
    Some {| column := col;
            count := length values;
            mean := m;
            std := s;
            min := series_min values;
            max := series_max values;
            median := series_median values;
            sigma_1_low := band_low m 1 s;
            sigma_1_high := band_high m 1 s;
            sigma_2_low := band_low m 2 s;
            sigma_2_high := band_high m 2 s;
            sigma_3_low := band_low m 3 s;
            sigma_3_high := band_high m 3 s |}.

(** *** [find_outliers_in_group] *)

(** The sigma levels for which the statistics carry a band. *)
Inductive sigma_level : Type :=
| sigma1
| sigma2
| sigma3.

Definition sigma_mult (k : sigma_level) : R :=
  match k with sigma1 => 1 | sigma2 => 2 | sigma3 => 3 end.

(** [stats[f'sigma_{sigma_level}_low']] *)
Definition sigma_low (st : Stats) (k : sigma_level) : fl :=
  match k with
  | sigma1 => sigma_1_low st
  | sigma2 => sigma_2_low st
  | sigma3 => sigma_3_low st
  end.

Definition sigma_high (st : Stats) (k : sigma_level) : fl :=
  match k with
  | sigma1 => sigma_1_high st
  | sigma2 => sigma_2_high st
  | sigma3 => sigma_3_high st
  end.

(** A row of the returned frame. *)
Record OutlierRow : Type := {
  o_experiment_id : string;
  o_sample_name : option string;
  o_family : option string;
  o_name : string;
  o_subsampletype : option string;
  value : R;
  deviation : fl
}.

Definition is_outlier (col : string) (low high : fl) (r : Row) : bool :=
  notna (cell r col) && (fl_lt (cell r col) low || fl_lt high (cell r col)).

Definition cell_value (r : Row) (col : string) : R :=
  match cell r col with Some v => v | None => 0 end.

Definition outlier_row (st : Stats) (col : string) (r : Row) : OutlierRow :=
  let v := cell_value r col in
  {| o_experiment_id := experiment_id r;
     o_sample_name := sample_name r;
     o_family := family r;
     o_name := name r;
     o_subsampletype := subsampletype r;
     value := v;
     deviation := option_map (fun sd => (v - mean st) / sd) (std st) |}.

(** [abs_deviation], the sort key. *)
Definition abs_deviation (o : OutlierRow) : fl := fl_abs (deviation o).

(** The rows that pass the mask, in frame order. *)
Definition outlier_mask (group_df : list Row) (col : string) (st : Stats)
  (k : sigma_level) : list Row :=
  filter (is_outlier col (sigma_low st k) (sigma_high st k)) group_df.

Section WithSort.

(** [DataFrame.sort_values(key, ascending=False)] with its default
    [kind='quicksort'].  pandas documents that only [mergesort] and [stable]
    keep the order of equal keys; which permutation of tied rows comes out
    of the default is decided inside the library.  The sort is therefore a
    parameter; what is known of it is [sort_contract] below. *)
Variable sort_values : forall A : Type, (A -> fl) -> list A -> list A.

Definition find_outliers_in_group (group_df : list Row) (col : string)
  (stats : option Stats) (k : sigma_level) : list OutlierRow :=
  match stats with
  | None => []
  | Some st =>
      let outliers := outlier_mask group_df col st k in
      if (length outliers =? 0)%nat then []
      else sort_values OutlierRow abs_deviation
             (map (outlier_row st col) outliers)
  end.

(** *** [analyze_all_traits] *)

Record TraitAnalysis : Type := {
  statistics : Stats;
  outliers_1sigma : list OutlierRow;
  outliers_2sigma : list OutlierRow;
  outliers_3sigma : list OutlierRow
}.

Record GroupData : Type := {
  g_family : option string;
  g_name : string;
  g_subsampletype : option string;
  sample_count : nat;
  traits : list (string * TraitAnalysis)
}.

Definition group_key : Type := (option string * string * option string)%type.

Definition key_of (r : Row) : group_key := (family r, name r, subsampletype r).

Definition opt_eqb (a b : option string) : bool :=
  match a, b with
  | Some x, Some y => String.eqb x y
  | None, None => true
  | _, _ => false
  end.

Definition key_eqb (a b : group_key) : bool :=
  opt_eqb (fst (fst a)) (fst (fst b))
  && String.eqb (snd (fst a)) (snd (fst b))
  && opt_eqb (snd a) (snd b).

Fixpoint groupby_add (r : Row) (gs : list (group_key * list Row))
  : list (group_key * list Row) :=
  match gs with
  | [] => [(key_of r, [r])]
  | g :: rest =>
      if key_eqb (fst g) (key_of r) then (fst g, snd g ++ [r]) :: rest
      else g :: groupby_add r rest
  end.

(** [df.groupby(['family', 'name', 'subsampletype'], dropna=False)]: rows
    keep their frame order inside a group.  Groups are listed here by first
    occurrence; pandas lists them by key, which permutes the entries of the
    resulting dictionary and nothing else. *)
Definition groupby (rows : list Row) : list (group_key * list Row) :=
  fold_left (fun gs r => groupby_add r gs) rows [].

(** How an f-string prints a key component. *)
Definition show_opt (o : option string) : string :=
  match o with Some x => x | None => "nan"%string end.

Definition group_key_string (k : group_key) : string :=
  (show_opt (fst (fst k)) ++ "_" ++ snd (fst k) ++ "_" ++ show_opt (snd k))%string.

Definition coeff_name (i : nat) : string :=
  ("coeff_" ++ NilEmpty.string_of_uint (Nat.to_uint i))%string.

Definition has_column (columns : list string) (c : string) : bool :=
  existsb (String.eqb c) columns.

Definition traits_to_analyze (columns : list string) (poly_degree : nat)
  : list string :=
  (if has_column columns "r_squared" then ["r_squared"%string] else [])
  ++ filter (has_column columns) (map coeff_name (range 0 (poly_degree + 1)))
  ++ filter (String.prefix "trait_") columns.

Definition analyze_trait (columns : list string) (group_df : list Row)
  (ts : list (string * TraitAnalysis)) (trait : string)
  : list (string * TraitAnalysis) :=
  if negb (has_column columns trait) then ts
  else
    match calculate_statistics_for_group group_df trait with
    | None => ts
    | Some st =>
        if (count st <? 2)%nat then ts
        else dict_set ts trait
               {| statistics := st;
                  outliers_1sigma :=
                    find_outliers_in_group group_df trait (Some st) sigma1;
                  outliers_2sigma :=
                    find_outliers_in_group group_df trait (Some st) sigma2;
                  outliers_3sigma :=
                    find_outliers_in_group group_df trait (Some st) sigma3 |}
    end.

Definition analyze_group (columns trait_names : list string)
  (results : list (string * GroupData)) (g : group_key * list Row)
  : list (string * GroupData) :=
  let group_df := snd g in
  if (length group_df <? 2)%nat then results
  else dict_set results (group_key_string (fst g))
         {| g_family := fst (fst (fst g));
            g_name := snd (fst (fst g));
            g_subsampletype := snd (fst g);
            sample_count := length group_df;
            traits := fold_left (analyze_trait columns group_df)
                                trait_names [] |}.

Definition analyze_all_traits (df : DataFrame) (poly_degree : nat)
  : list (string * GroupData) :=
  fold_left (analyze_group (df_columns df)
                           (traits_to_analyze (df_columns df) poly_degree))
            (groupby (df_rows df)) [].

(** *** [identify_outlier_experiments] *)

Record Entry : Type := {
  e_count : nat;
  e_sample_name : option string;
  e_family : option string;
  e_name : string;
  e_subsampletype : option string;
  e_outlier_trait_list : list string
}.

Record OutlierExperiment : Type := {
  oe_experiment_id : string;
  oe_sample_name : option string;
  oe_family : option string;
  oe_name : string;
  oe_subsampletype : option string;
  outlier_traits : nat;
  total_traits : nat;
  outlier_percentage : R;
  oe_sigma_level : sigma_level;
  outlier_trait_list : string
}.

(** [analysis[f'outliers_{sigma_level}sigma']] *)
Definition outliers_at (k : sigma_level) (a : TraitAnalysis) : list OutlierRow :=
  match k with
  | sigma1 => outliers_1sigma a
  | sigma2 => outliers_2sigma a
  | sigma3 => outliers_3sigma a
  end.

(** One turn of [for _, row in outliers.iterrows()]. *)
Definition count_row (g : GroupData) (trait : string)
  (d : list (string * Entry)) (row : OutlierRow) : list (string * Entry) :=
  let id := o_experiment_id row in
  let e := match dict_get d id with
           | Some e => e
           | None => {| e_count := 0;
                        e_sample_name := o_sample_name row;
                        e_family := g_family g;
                        e_name := g_name g;
                        e_subsampletype := g_subsampletype g;
                        e_outlier_trait_list := [] |}
           end in
  dict_set d id
    {| e_count := e_count e + 1;
       e_sample_name := e_sample_name e;
       e_family := e_family e;
       e_name := e_name e;
       e_subsampletype := e_subsampletype e;
       e_outlier_trait_list := e_outlier_trait_list e ++ [trait] |}.

Definition experiment_outlier_count (k : sigma_level) (g : GroupData)
  : list (string * Entry) :=
  fold_left (fun d ta => fold_left (count_row g (fst ta))
                                   (outliers_at k (snd ta)) d)
            (traits g) [].

Definition outlier_experiment (k : sigma_level) (total : nat)
  (ie : string * Entry) : OutlierExperiment :=
  {| oe_experiment_id := fst ie;
     oe_sample_name := e_sample_name (snd ie);
     oe_family := e_family (snd ie);
     oe_name := e_name (snd ie);
     oe_subsampletype := e_subsampletype (snd ie);
     outlier_traits := e_count (snd ie);
     total_traits := total;
     outlier_percentage := INR (e_count (snd ie)) / INR total;
     oe_sigma_level := k;
     outlier_trait_list := String.concat ", " (e_outlier_trait_list (snd ie)) |}.

(** The body of the loop over groups. *)
Definition group_outlier_experiments (outlier_trait_threshold : R)
  (k : sigma_level) (g : GroupData) : list OutlierExperiment :=
  let total := length (traits g) in
  if (total =? 0)%nat then []
  else
    map (outlier_experiment k total)
        (filter (fun ie => Rleb outlier_trait_threshold
                                (INR (e_count (snd ie)) / INR total))
                (experiment_outlier_count k g)).

Definition identify_outlier_experiments (outlier_trait_threshold : R)
  (results : list (string * GroupData)) (k : sigma_level)
  : list OutlierExperiment :=
  let outlier_experiments :=
    flat_map (fun kg => group_outlier_experiments outlier_trait_threshold k (snd kg))
             results in
  if (0 <? length outlier_experiments)%nat
  then sort_values OutlierExperiment
         (fun o => Some (outlier_percentage o)) outlier_experiments
  else outlier_experiments.

End WithSort.

(** What every sorting algorithm behind [sort_values] guarantees: the rows
    are rearranged, and come out in descending key order with missing keys
    last. *)
Definition sort_contract
  (sort_values : forall A : Type, (A -> fl) -> list A -> list A) : Prop :=
  forall (A : Type) (key : A -> fl) (l : list A),
    Permutation (sort_values A key l) l
    /\ StronglySorted (fun a b => fl_ge (key a) (key b)) (sort_values A key l).

(** *** A sorting algorithm within the contract

    Insertion sort by descending key.  It is one of the algorithms
    [sort_contract] admits and serves to run the examples; it is not the
    algorithm of the library. *)
Definition fl_geb (a b : fl) : bool :=
  match a, b with
  | Some x, Some y => Rleb y x
  | _, None => true
  | None, Some _ => false
  end.

Fixpoint insert_desc {A : Type} (key : A -> fl) (x : A) (l : list A) : list A :=
  match l with
  | [] => [x]
  | y :: r =>
      if fl_geb (key y) (key x) then y :: insert_desc key x r
      else x :: l
  end.

Definition insertion_sort_desc (A : Type) (key : A -> fl) (l : list A) : list A :=
  fold_right (insert_desc key) [] l.

(** *** Vocabulary of the statements *)

(** Number of traits of the group on which experiment [id] is listed as an
    outlier at level [k]. *)
Definition listed (id : string) (l : list OutlierRow) : bool :=
  existsb (fun o => String.eqb (o_experiment_id o) id) l.

Definition flagged_traits (id : string) (k : sigma_level) (g : GroupData) : nat :=
  length (filter (fun ta => listed id (outliers_at k (snd ta))) (traits g)).

(** An experiment has one row in the frame, hence at most one row in a
    frame of outliers. *)
Definition one_row_per_experiment (k : sigma_level) (g : GroupData) : Prop :=
  forall ta, In ta (traits g) ->
             NoDup (map o_experiment_id (outliers_at k (snd ta))).

(** Some returned row is about experiment [id]. *)
Definition reported (id : string) (l : list OutlierExperiment) : Prop :=
  exists oe, In oe l /\ oe_experiment_id oe = id.

(** The groups of a frame: keys are distinct, and a group holds, in frame
    order, the rows that carry its key. *)
Definition grouped (rows : list Row) (gs : list (group_key * list Row)) : Prop :=
  NoDup (map fst gs)
  /\ (forall g, In g gs ->
        snd g = filter (fun r => key_eqb (fst g) (key_of r)) rows)
  /\ (forall r, In r rows -> In (key_of r) (map fst gs)).

(** What [analyze_trait] stores for a trait of a group. *)
Definition trait_of_group
  (sort_values : forall A : Type, (A -> fl) -> list A -> list A)
  (group_df : list Row) (trait : string) (a : TraitAnalysis) : Prop :=
  calculate_statistics_for_group group_df trait = Some (statistics a)
  /\ (2 <= count (statistics a))%nat
  /\ forall k, outliers_at k a
               = find_outliers_in_group sort_values group_df trait
                   (Some (statistics a)) k.

(** What [analyze_group] stores for a group. *)
Definition entry_of_group
  (sort_values : forall A : Type, (A -> fl) -> list A -> list A)
  (g : group_key * list Row) (key : string) (gd : GroupData) : Prop :=
  key = group_key_string (fst g)
  /\ g_family gd = fst (fst (fst g))
  /\ g_name gd = snd (fst (fst g))
  /\ g_subsampletype gd = snd (fst g)
  /\ sample_count gd = length (snd g)
  /\ (2 <= length (snd g))%nat
  /\ forall t a, In (t, a) (traits gd) -> trait_of_group sort_values (snd g) t a.

(** The rows counted for a group: every row of every frame of outliers at
    level [k], with the trait it belongs to. *)
Definition flagged_rows (k : sigma_level) (g : GroupData)
  : list (string * OutlierRow) :=
  flat_map (fun ta => map (fun row => (fst ta, row)) (outliers_at k (snd ta)))
           (traits g).

Definition occurrences (id : string) (ps : list (string * OutlierRow)) : nat :=
  length (filter (fun p => String.eqb (o_experiment_id (snd p)) id) ps).

Definition counted (d : list (string * Entry)) (id : string) : nat :=
  match dict_get d id with
  | Some e => e_count e
  | None => 0
  end.

(** *** Example inputs *)

(** A row of the group ("F", "g s", "t") with one numeric column ["c"]. *)
Definition row_c (id : string) (v : fl) : Row :=
  {| experiment_id := id;
     sample_name := Some id;
     family := Some "F"%string;
     name := "g s"%string;
     subsampletype := Some "t"%string;
     cells := [("c"%string, v)] |}.

(** Values -1, 0, 1: mean 0 and standard deviation 1. *)
Definition rows_edge : list Row :=
  [row_c "a" (Some (-1)); row_c "b" (Some 0); row_c "c" (Some 1)].

(** Values 2, -2 and seven zeros: mean 0 and standard deviation 1. *)
Definition rows_tie : list Row :=
  [row_c "e1" (Some 2); row_c "e2" (Some (-2));
   row_c "e3" (Some 0); row_c "e4" (Some 0); row_c "e5" (Some 0);
   row_c "e6" (Some 0); row_c "e7" (Some 0); row_c "e8" (Some 0);
   row_c "e9" (Some 0)].

Definition vals_tie : list R := [2; -2; 0; 0; 0; 0; 0; 0; 0].

Definition stats_tie : Stats :=
  {| column := "c";
     count := 9;
     mean := 0;
     std := Some 1;
     min := series_min vals_tie;
     max := series_max vals_tie;
     median := series_median vals_tie;
     sigma_1_low := Some (-1);
     sigma_1_high := Some 1;
     sigma_2_low := Some (-2);
     sigma_2_high := Some 2;
     sigma_3_low := Some (-3);
     sigma_3_high := Some 3 |}.

Definition vals_edge : list R := [-1; 0; 1].

Definition stats_edge : Stats :=
  {| column := "c";
     count := 3;
     mean := 0;
     std := Some 1;
     min := series_min vals_edge;
     max := series_max vals_edge;
     median := series_median vals_edge;
     sigma_1_low := Some (-1);
     sigma_1_high := Some 1;
     sigma_2_low := Some (-2);
     sigma_2_high := Some 2;
     sigma_3_low := Some (-3);
     sigma_3_high := Some 3 |}.

(** A frame with a group of two rows and a group of one row, and the fit
    quality as its only numeric column. *)
Definition row_r2 (id : string) (fam : option string) (v : fl) : Row :=
  {| experiment_id := id;
     sample_name := Some id;
     family := fam;
     name := "g s"%string;
     subsampletype := Some "t"%string;
     cells := [("r_squared"%string, v)] |}.

Definition df_small : DataFrame :=
  {| df_columns := ["experiment_id"; "sample_name"; "family"; "name";
                    "subsampletype"; "r_squared"]%string;
     df_rows := [row_r2 "p" (Some "F"%string) (Some 1);
                 row_r2 "lonely" None (Some 7);
                 row_r2 "q" (Some "F"%string) (Some 3)] |}.

(** A frame of one group of nine rows whose fit qualities are the values of
    [vals_tie]. *)
Definition rows_r2_tie : list Row :=
  [row_r2 "e1" (Some "F"%string) (Some 2);
   row_r2 "e2" (Some "F"%string) (Some (-2));
   row_r2 "e3" (Some "F"%string) (Some 0);
   row_r2 "e4" (Some "F"%string) (Some 0);
   row_r2 "e5" (Some "F"%string) (Some 0);
   row_r2 "e6" (Some "F"%string) (Some 0);
   row_r2 "e7" (Some "F"%string) (Some 0);
   row_r2 "e8" (Some "F"%string) (Some 0);
   row_r2 "e9" (Some "F"%string) (Some 0)].

Definition df_tie : DataFrame :=
  {| df_columns := ["experiment_id"; "sample_name"; "family"; "name";
                    "subsampletype"; "r_squared"]%string;
     df_rows := rows_r2_tie |}.

Definition stats_r2_tie : Stats :=
  {| column := "r_squared";
     count := 9;
     mean := 0;
     std := Some 1;
     min := series_min vals_tie;
     max := series_max vals_tie;
     median := series_median vals_tie;
     sigma_1_low := Some (-1);
     sigma_1_high := Some 1;
     sigma_2_low := Some (-2);
     sigma_2_high := Some 2;
     sigma_3_low := Some (-3);
     sigma_3_high := Some 3 |}.

Definition outlier_of (id : string) : OutlierRow :=
  {| o_experiment_id := id;
     o_sample_name := Some id;
     o_family := Some "F"%string;
     o_name := "g s"%string;
     o_subsampletype := Some "t"%string;
     value := 5;
     deviation := Some 5 |}.

(** An analysed trait whose 2-sigma frame lists the experiments [ids]. *)
Definition trait_listing (ids : list string) : TraitAnalysis :=
  {| statistics := stats_tie;
     outliers_1sigma := map outlier_of ids;
     outliers_2sigma := map outlier_of ids;
     outliers_3sigma := [] |}.

(** Ten traits; experiment "x" is an outlier on exactly three of them. *)
Definition group_ten_traits : GroupData :=
  {| g_family := Some "F"%string;
     g_name := "g s"%string;
     g_subsampletype := Some "t"%string;
     sample_count := 5;
     traits := [("t0", trait_listing ["x"]); ("t1", trait_listing []);
                ("t2", trait_listing ["y"; "x"]); ("t3", trait_listing []);
                ("t4", trait_listing []); ("t5", trait_listing ["x"]);
                ("t6", trait_listing []); ("t7", trait_listing ["y"]);
                ("t8", trait_listing []); ("t9", trait_listing [])]%string |}.

(** One trait; "e1" is listed at one sigma but not at two. *)
Definition group_one_trait : GroupData :=
  {| g_family := Some "F"%string;
     g_name := "g s"%string;
     g_subsampletype := Some "t"%string;
     sample_count := 4;
     traits := [("t0"%string,
                 {| statistics := stats_tie;
                    outliers_1sigma := [outlier_of "e1"];
                    outliers_2sigma := [];
                    outliers_3sigma := [] |})] |}.

(** *** The summary of [print_analysis_report] and [main] *)

(** [any(len(trait[f'outliers_{k}sigma']) > 0 for trait in traits.values())] *)
Definition has_outliers (k : sigma_level) (g : GroupData) : bool :=
  existsb (fun ta => (0 <? length (outliers_at k (snd ta)))%nat) (traits g).

(** [groups_with_ksigma]: the groups with an outlier at level [k]. *)
Definition groups_with_outliers (k : sigma_level)
  (results : list (string * GroupData)) : nat :=
  length (filter (fun kg => has_outliers k (snd kg)) results).

(** [total_samples = sum(group['sample_count'] for group in results.values())] *)
Definition total_samples (results : list (string * GroupData)) : nat :=
  fold_right (fun kg n => (sample_count (snd kg) + n)%nat) 0%nat results.

(** *** [run_analysis]: the analysis, then the outlier experiments *)
Definition run_analysis
  (sort_values : forall A : Type, (A -> fl) -> list A -> list A)
  (df : DataFrame) (poly_degree : nat) (outlier_trait_threshold : R)
  (k : sigma_level)
  : list (string * GroupData) * list OutlierExperiment :=
  let results := analyze_all_traits sort_values df poly_degree in
  (results,
   identify_outlier_experiments sort_values outlier_trait_threshold results k).

(** *** [prepare_dataframe]

    An experiment as [json.load] returns it from the file of processed
    experiments.  [get] answers [None] for an absent key and for [null]
    alike.  The numeric values are finite or [NaN], as everywhere in this
    module.  The string columns ['genus'], ['species'] and ['type'] of the
    record take part in no computation and are kept in the list of columns
    only. *)
Inductive measurement : Type :=
| MNull
| MNumber (v : fl)
| MBool (b : bool)
| MString (s : string)
| MContainer.

Record Trait : Type := {
  trait_type : option string;
  trait_measurement : measurement
}.

Record ExperimentData : Type := {
  x_sample_name : option string;
  x_family : option string;
  x_genus : option string;
  x_species : option string;
  x_subsampletype : option string;
  x_polynomial_coefficients : list fl;
  x_r_squared : fl;
  x_associatedTraits : list Trait
}.

Section WithFloat.

(** [float(s)] on a string: [None] stands for the [ValueError] of a string
    that is not a number, [Some None] for a string that spells [nan]. *)
Variable float : string -> option fl.

(** [float(measurement)] under [except (ValueError, TypeError)]. *)
Definition numeric_val (m : measurement) : fl :=
  match m with
  | MNull => None
  | MNumber v => v
  | MBool b => Some (if b then 1 else 0)
  | MString s => match float s with Some v => v | None => None end
  | MContainer => None
  end.

Definition is_null (m : measurement) : bool :=
  match m with MNull => true | _ => false end.

(** Truth value of [exp_data.get(key)] for a string or [None]. *)
Definition truthy (o : option string) : bool :=
  match o with
  | Some s => negb (String.eqb s "")
  | None => false
  end.

(** One turn of [for trait in traits]. *)
Definition collect_trait (traits_dict : list (string * list fl)) (trait : Trait)
  : list (string * list fl) :=
  match trait_type trait with
  | Some ty =>
      if negb (String.eqb ty "") && negb (is_null (trait_measurement trait))
      then dict_set traits_dict ty
             (match dict_get traits_dict ty with
              | Some l => l
              | None => []
              end ++ [numeric_val (trait_measurement trait)])
      else traits_dict
  | None => traits_dict
  end.

(** [np.mean(valid_measurements)], or [np.nan] when none is valid. *)
Definition valid_mean (measurements : list fl) : fl :=
  let valid_measurements := dropna measurements in
  if (length valid_measurements =? 0)%nat then None
  else Some (series_mean valid_measurements).

Definition store_trait (record : list (string * fl)) (kv : string * list fl)
  : list (string * fl) :=
  dict_set record ("trait_" ++ fst kv)%string (valid_mean (snd kv)).

Definition store_coeff (record : list (string * fl)) (ic : nat * fl)
  : list (string * fl) :=
  dict_set record (coeff_name (fst ic)) (snd ic).

Definition enumerate {A : Type} (l : list A) : list (nat * A) :=
  combine (seq 0 (length l)) l.

(** The record of one experiment: the identity columns as fields, the
    numeric columns as [cells] in the order in which the source sets them. *)
Definition prepare_record (exp_id : string) (exp_data : ExperimentData) : Row :=
  let record := fold_left store_coeff
                          (enumerate (x_polynomial_coefficients exp_data)) [] in
  let record := dict_set record "r_squared" (x_r_squared exp_data) in
  let traits_dict := fold_left collect_trait (x_associatedTraits exp_data) [] in
  {| experiment_id := exp_id;
     sample_name := x_sample_name exp_data;
     family := x_family exp_data;
     name := match x_genus exp_data, x_species exp_data with
             | Some g, Some sp =>
                 if truthy (Some g) && truthy (Some sp)
                 then (g ++ " " ++ sp)%string else ""%string
             | _, _ => ""%string
             end;
     subsampletype := x_subsampletype exp_data;
     cells := fold_left store_trait traits_dict record |}.

(** The columns of [pd.DataFrame(records)]: the keys of the records in the
    order of their first appearance. *)
Definition add_columns (columns keys : list string) : list string :=
  fold_left (fun cols k => if has_column cols k then cols else cols ++ [k])
            keys columns.

Definition record_keys (r : Row) : list string :=
  ["experiment_id"; "sample_name"; "family"; "genus"; "species"; "name";
   "subsampletype"; "type"]%string ++ map fst (cells r).

Definition prepare_dataframe (experiments : list (string * ExperimentData))
  : DataFrame :=
  let records := map (fun kv => prepare_record (fst kv) (snd kv)) experiments in
  {| df_columns := fold_left add_columns (map record_keys records) [];
     df_rows := records |}.

(** The measurements the loop collects for a trait type, in the order of
    the entries. *)
Definition collected (ty : string) (trait : Trait) : bool :=
  match trait_type trait with
  | Some ty' =>
      String.eqb ty' ty && negb (String.eqb ty' "")
      && negb (is_null (trait_measurement trait))
  | None => false
  end.

Definition measurements_of (ty : string) (traits : list Trait) : list fl :=
  map (fun t => numeric_val (trait_measurement t)) (filter (collected ty) traits).

End WithFloat.

(** An experiment with other trait entries. *)
Definition with_traits (exp_data : ExperimentData) (traits : list Trait)
  : ExperimentData :=
  {| x_sample_name := x_sample_name exp_data;
     x_family := x_family exp_data;
     x_genus := x_genus exp_data;
     x_species := x_species exp_data;
     x_subsampletype := x_subsampletype exp_data;
     x_polynomial_coefficients := x_polynomial_coefficients exp_data;
     x_r_squared := x_r_squared exp_data;
     x_associatedTraits := traits |}.

(** A parser for the examples: the strings ["1.5"] and ["nan"]. *)
Definition float_example (s : string) : option fl :=
  if String.eqb s "1.5" then Some (Some (3 / 2))
  else if String.eqb s "nan" then Some None
  else None.

(** Two diameters (a number and a string), a string that is no number, an
    entry without measurement and an entry without type. *)
Definition traits_example : list Trait :=
  [{| trait_type := Some "diameter"%string; trait_measurement := MNumber (Some (5 / 2)) |};
   {| trait_type := Some "mass"%string; trait_measurement := MString "heavy" |};
   {| trait_type := Some "diameter"%string; trait_measurement := MString "1.5" |};
   {| trait_type := Some "length"%string; trait_measurement := MNull |};
   {| trait_type := None; trait_measurement := MNumber (Some 1) |}].

Definition experiment_data_example : ExperimentData :=
  {| x_sample_name := Some "s1"%string;
     x_family := Some "F"%string;
     x_genus := Some "g"%string;
     x_species := Some "s"%string;
     x_subsampletype := Some "t"%string;
     x_polynomial_coefficients := [Some 1; Some 2];
     x_r_squared := Some 1;
     x_associatedTraits := traits_example |}.

(** Nine experiments of one group without coefficients and traits, whose
    records are the rows of [rows_r2_tie]. *)
Definition experiment_data_r2 (id : string) (v : fl) : ExperimentData :=
  {| x_sample_name := Some id;
     x_family := Some "F"%string;
     x_genus := Some "g"%string;
     x_species := Some "s"%string;
     x_subsampletype := Some "t"%string;
     x_polynomial_coefficients := [];
     x_r_squared := v;
     x_associatedTraits := [] |}.

Definition experiments_tie : list (string * ExperimentData) :=
  map (fun iv => (fst iv, experiment_data_r2 (fst iv) (snd iv)))
      [("e1"%string, Some 2); ("e2"%string, Some (-2)); ("e3"%string, Some 0);
       ("e4"%string, Some 0); ("e5"%string, Some 0); ("e6"%string, Some 0);
       ("e7"%string, Some 0); ("e8"%string, Some 0); ("e9"%string, Some 0)].

(** The sigma level as a natural number. *)
Definition sigma_nat (k : sigma_level) : nat :=
  match k with sigma1 => 1 | sigma2 => 2 | sigma3 => 3 end.

(** The non-missing values of a column in a group. *)
Definition column_values (group_df : list Row) (col : string) : list R :=
  dropna (map (fun r => cell r col) group_df).

End Outliers.

Module Configuration.

(** A value as [json.load] returns it. *)
#[warnings="-register-all"]
Inductive json : Type :=
| JNull
| JBool (b : bool)
| JNumber (q : Q)
| JString (s : string)
| JList (l : list json)
| JDict (d : list (string * json)).

(** [ConfigManager._merge_configs], the same in both scripts: the saved
    file is laid over the defaults key by key, and two dictionaries under
    the same key are merged recursively.  [merged_value value old] is what
    the loop stores under a key whose saved value is [value] and whose
    current value is [old] ([None] when the key is not in [result]); the
    recursion descends into the saved value. *)
Fixpoint merged_value (value : json) (old : option json) {struct value} : json :=
  match value, old with
  | JDict s, Some (JDict d) =>
      JDict (fold_left
               (fun result kv =>
                  dict_set result (fst kv)
                           (merged_value (snd kv) (dict_get result (fst kv))))
               s d)
  | _, _ => value
  end.

Definition _merge_configs (default saved : list (string * json))
  : list (string * json) :=
  fold_left (fun result kv =>
               dict_set result (fst kv)
                        (merged_value (snd kv) (dict_get result (fst kv))))
            saved default.

(** What every value of [json.load] satisfies: no dictionary in it, at any
    depth under dictionaries, binds a key twice. *)
Fixpoint no_repeated_keys (j : json) : Prop :=
  match j with
  | JDict d =>
      NoDup (map fst d)
      /\ fold_right (fun kv rest => no_repeated_keys (snd kv) /\ rest) True d
  | _ => True
  end.

(** [config[section][key]]; [None] stands for the [KeyError] or [TypeError]
    of a failed subscript. *)
Definition subscript2 (config : list (string * json)) (section key : string)
  : option json :=
  match dict_get config section with
  | Some (JDict d) => dict_get d key
  | _ => None
  end.

(** [DEFAULT_CONFIG] of the processing script. *)
Definition DEFAULT_CONFIG : list (string * json) :=
  [("fracture_detection"%string,
    JDict [("stop_max_stress"%string, JBool false);
           ("drop_threshold"%string, JNumber 0.9);
           ("min_points"%string, JNumber 1)]);
   ("processing"%string,
    JDict [("polynomial_degree"%string, JNumber 1);
           ("show_plots"%string, JBool false);
           ("save_plots"%string, JBool false);
           ("max_experiments"%string, JNull)]);
   ("output"%string,
    JDict [("output_dir"%string, JString "processed_data")])].

(** A saved file that sets one option of one section. *)
Definition saved_example : list (string * json) :=
  [("fracture_detection"%string, JDict [("drop_threshold"%string, JNumber 0.5)])].

End Configuration.

(** * Properties of the curve side *)

Section CurveFacts.

Import Curve.
Local Open Scope Q_scope.

Lemma Qltb_lt (a b : Q) : Qltb a b = true <-> a < b.
Proof.
  unfold Qltb. rewrite negb_true_iff.
  split; intro H.
  - apply Qnot_le_lt. intro Hle. apply Qle_bool_iff in Hle. congruence.
  - destruct (Qle_bool b a) eqn:E; [|reflexivity].
    apply Qle_bool_iff in E. exfalso. exact (Qlt_not_le _ _ H E).
Qed.

Lemma Qltb_ge (a b : Q) : Qltb a b = false <-> b <= a.
Proof.
  unfold Qltb. rewrite negb_false_iff. apply Qle_bool_iff.
Qed.

Lemma nth_snoc_last (pre : list Q) (a : Q) :
  nth (length pre) (pre ++ [a]) 0 = a.
Proof. rewrite app_nth2, Nat.sub_diag; [reflexivity | lia]. Qed.

Lemma first_max_snoc_new (pre : list Q) (bi : nat) (a : Q) :
  is_first_max pre bi -> nth bi pre 0 < a ->
  is_first_max (pre ++ [a]) (length pre).
Proof.
  intros (Hlt & Hmax & Hfirst) Ha.
  unfold is_first_max. rewrite length_app, nth_snoc_last. simpl.
  split; [lia | split].
  - intros j Hj. destruct (Nat.eq_dec j (length pre)) as [->|Hne].
    + rewrite nth_snoc_last. apply Qle_refl.
    + rewrite app_nth1 by lia. apply Qlt_le_weak.
      apply Qle_lt_trans with (nth bi pre 0); [apply Hmax; lia | exact Ha].
  - intros j Hj. rewrite app_nth1 by lia.
    apply Qle_lt_trans with (nth bi pre 0); [apply Hmax; lia | exact Ha].
Qed.

Lemma first_max_snoc_keep (pre : list Q) (bi : nat) (a : Q) :
  is_first_max pre bi -> a <= nth bi pre 0 ->
  is_first_max (pre ++ [a]) bi.
Proof.
  intros (Hlt & Hmax & Hfirst) Ha.
  unfold is_first_max. rewrite length_app. simpl.
  rewrite (app_nth1 pre [a] 0 Hlt).
  split; [lia | split].
  - intros j Hj. destruct (Nat.eq_dec j (length pre)) as [->|Hne].
    + rewrite nth_snoc_last. exact Ha.
    + rewrite app_nth1 by lia. apply Hmax. lia.
  - intros j Hj. rewrite app_nth1 by lia. apply Hfirst. exact Hj.
Qed.

Lemma argmax_from_first_max (l pre : list Q) (bi : nat) :
  is_first_max pre bi ->
  is_first_max (pre ++ l) (argmax_from bi (nth bi pre 0) (length pre) l).
Proof.
  revert pre bi. induction l as [|a l IH]; intros pre bi H.
  - simpl. rewrite app_nil_r. exact H.
  - simpl. destruct (Qltb (nth bi pre 0) a) eqn:E.
    + apply Qltb_lt in E.
      pose proof (IH (pre ++ [a]) (length pre) (first_max_snoc_new pre bi a H E)) as IH'.
      rewrite nth_snoc_last, length_app, <- app_assoc in IH'. simpl in IH'.
      rewrite Nat.add_1_r in IH'. exact IH'.
    + apply Qltb_ge in E.
      pose proof (IH (pre ++ [a]) bi (first_max_snoc_keep pre bi a H E)) as IH'.
      destruct H as (Hlt & _).
      rewrite (app_nth1 pre [a] 0 Hlt), length_app, <- app_assoc in IH'.
      simpl in IH'. rewrite Nat.add_1_r in IH'. exact IH'.
Qed.

Lemma argmax_first_max (x : Q) (r : list Q) :
  is_first_max (x :: r) (argmax_from 0 x 1 r).
Proof.
  apply (argmax_from_first_max r [x] 0).
  unfold is_first_max. simpl. split; [lia | split].
  - intros j Hj. assert (j = 0)%nat as -> by lia. apply Qle_refl.
  - intros j Hj. lia.
Qed.

(** ** Fracture detection *)

(** C6, as amended: in stop-at-max mode, a curve with at least
    [min_points + 10] samples gets the index of its largest stress value,
    the first one when the largest value occurs more than once. *)
Theorem stop_at_max_returns_first_max (cfg : Config) (strain stress : list Q) :
  stop_max_stress cfg = true ->
  (min_points cfg + 10 <= length stress)%nat ->
  exists i, detect_fracture_point cfg strain stress = Ret (Some i)
            /\ is_first_max stress i.
Proof.
  intros Hstop Hlen. unfold detect_fracture_point.
  destruct (Nat.ltb_spec (length stress) (min_points cfg + 10)) as [Hlt|_]; [lia|].
  destruct stress as [|x r]; [simpl in Hlen; lia|].
  simpl. rewrite Hstop.
  exists (argmax_from 0 x 1 r). split; [reflexivity | apply argmax_first_max].
Qed.

Lemma stop_at_max_returns_first_max_witness :
  exists i, detect_fracture_point cfg_stop_at_max strain_e2e stress_peak = Ret (Some i)
            /\ is_first_max stress_peak i.
Proof.
  apply stop_at_max_returns_first_max.
  - reflexivity.
  - simpl. lia.
Defined.

(** C6, as stated, fails on a short curve: the length guard answers first
    and no index is returned, in stop-at-max mode too. *)
Lemma stop_at_max_short_curve_none :
  detect_fracture_point cfg_stop_at_max [0; 1; 2] [1; 3; 2] = Ret None
  /\ ~ (exists i, detect_fracture_point cfg_stop_at_max [0; 1; 2] [1; 3; 2]
                  = Ret (Some i)
                  /\ is_first_max [1; 3; 2] i).
Proof.
  split; [reflexivity|].
  intros (i & H & _). discriminate H.
Qed.

(** C2, as amended: on the end-to-end curve the fracture is found at index 5
    and the trimmed curve is the half-open slice from index 0 to index 5,
    that is the five points at indices 0 to 4. *)
Theorem e2e_fracture_at_5_trim_excludes_it :
  detect_fracture_point cfg_drop_half strain_e2e stress_e2e = Ret (Some 5%nat)
  /\ exists info,
       trim_curve_to_fracture cfg_drop_half strain_e2e stress_e2e
       = Ret (Some (firstn 5 strain_e2e, firstn 5 stress_e2e, info))
       /\ zero_strain_idx info = 0%nat
       /\ fracture_idx info = Some 5%nat
       /\ fracture_detected info = true
       /\ trimmed_points info = 5%nat.
Proof.
  split; [reflexivity|].
  eexists. split; [vm_compute; reflexivity|].
  repeat split.
Qed.

(** C2, as stated, fails: the point at index 5 is not part of the trimmed
    curve. *)
Lemma e2e_trim_is_not_indices_0_to_5 :
  ~ (exists info,
       trim_curve_to_fracture cfg_drop_half strain_e2e stress_e2e
       = Ret (Some (firstn 6 strain_e2e, firstn 6 stress_e2e, info))).
Proof.
  intros (info & H). vm_compute in H. discriminate H.
Qed.

(** ** The fit *)

(** C1, as amended: the degree-1 fit of stress [0,2,4,6] against strain
    [0,1,2,3] reports the coefficients [3, 3] of the series in numpy's
    scaled variable (strain interval [0,3] mapped onto [-1,1]); converted to
    the strain variable they are [0, 2]; [r_squared] is 1. *)
Theorem fit_line_reports_scaled_coefficients :
  fit [0; 1; 2; 3] [0; 2; 4; 6] 1 = Ret ([3; 3], Fin 1)
  /\ (p <- Polynomial_fit [0; 1; 2; 3] [0; 2; 4; 6] 1 ;; Ret (convert_linear p))
     = Ret [0; 2].
Proof.
  split; vm_compute; reflexivity.
Qed.

(** C1, as stated, fails: the reported coefficients are not near [0, 2],
    not even within one half. *)
Lemma fit_line_coefficients_not_0_2 :
  ~ (exists c r, fit [0; 1; 2; 3] [0; 2; 4; 6] 1 = Ret (c, r)
                 /\ Forall2 (approx (1 # 2)) c [0; 2]).
Proof.
  intros (c & r & H & Hc).
  vm_compute in H. injection H as <- <-.
  inversion Hc as [|a b la lb Hab _]; subst.
  unfold approx in Hab. apply Qle_bool_iff in Hab.
  vm_compute in Hab. discriminate Hab.
Qed.

(** Through the whole function: four samples are below the ten-point floor
    and give no record; ten samples of the same line give a record whose
    stored coefficients are again those of the scaled series, here [9, 9]
    for the strain interval [0, 9]. *)
Lemma line_records :
  fit_polynomial_to_experiment_outcome cfg_drop_half
    [("line"%string, experiment_line4)] "line" = TooFewPoints 4
  /\ exists r,
       fit_polynomial_to_experiment cfg_drop_half
         [("line"%string, experiment_line10)] "line" = Some r
       /\ polynomial_coefficients r = [9; 9]
       /\ r_squared r = Fin 1.
Proof.
  split; [vm_compute; reflexivity|].
  eexists. split; [vm_compute; reflexivity|].
  split; reflexivity.
Qed.

(** Whatever record is produced stores the coefficients and [r_squared] of
    the fit of the trimmed curve. *)
Lemma record_stores_fit (cfg : Config) (experiments : list (string * Experiment))
  (id : string) (r : ExperimentRecord) :
  fit_polynomial_to_experiment_outcome cfg experiments id = Produced r ->
  exists experiment strain stress name info,
    dict_get experiments id = Some experiment
    /\ extract_stress_strain_data cfg experiment = Some (strain, stress, name, info)
    /\ (10 <= length strain)%nat
    /\ fit strain stress (polynomial_degree cfg)
       = Ret (polynomial_coefficients r, r_squared r)
    /\ data_points r = length strain
    /\ trim_info r = info.
Proof.
  unfold fit_polynomial_to_experiment_outcome.
  destruct (dict_get experiments id) as [experiment|]; [|discriminate].
  destruct (extract_stress_strain_data cfg experiment)
    as [[[[strain stress] name] info]|] eqn:Hex; [|discriminate].
  destruct (Nat.ltb_spec (length strain) 10) as [|Hlen]; [discriminate|].
  unfold build_record.
  destruct (fit strain stress (polynomial_degree cfg)) as [[c r2]|] eqn:Hfit;
    simpl; [|discriminate].
  destruct (arr_min strain); simpl; [|discriminate].
  destruct (arr_max strain); simpl; [|discriminate].
  destruct (arr_min stress); simpl; [|discriminate].
  destruct (arr_max stress); simpl; [|discriminate].
  intros H. injection H as <-. simpl.
  exists experiment, strain, stress, name, info. repeat split; auto.
Qed.

(** ** Cleaning *)

Lemma clean_fold (sd td : list (option Q)) (idx : list nat) (acc : list Q * list Q) :
  let keep := fun i => match nth i sd None, nth i td None with
                       | Some a, Some b => [(a, b)]
                       | _, _ => []
                       end in
  fold_left (clean_step sd td) idx acc
  = (fst acc ++ map fst (flat_map keep idx), snd acc ++ map snd (flat_map keep idx)).
Proof.
  intros keep. revert acc.
  induction idx as [|i idx IH]; intros [s t]; simpl.
  - rewrite !app_nil_r. reflexivity.
  - rewrite IH. unfold clean_step, keep.
    destruct (nth i sd None), (nth i td None); simpl;
      rewrite <- ?app_assoc; reflexivity.
Qed.

Lemma clean_pairs_both_present (sd td : list (option Q)) :
  clean_pairs sd td
  = (map fst (pairs_both_present sd td), map snd (pairs_both_present sd td)).
Proof.
  unfold clean_pairs, range, pairs_both_present.
  rewrite Nat.sub_0_r. apply clean_fold.
Qed.

Lemma clean_pairs_same_length (sd td : list (option Q)) :
  length (fst (clean_pairs sd td)) = length (snd (clean_pairs sd td)).
Proof.
  rewrite clean_pairs_both_present. simpl. rewrite !length_map. reflexivity.
Qed.

Lemma pairs_both_present_firstn (sd td : list (option Q)) :
  let m := Nat.min (length sd) (length td) in
  pairs_both_present (firstn m sd) (firstn m td) = pairs_both_present sd td.
Proof.
  intros m. unfold pairs_both_present.
  rewrite !length_firstn.
  replace (Nat.min (Nat.min m (length sd)) (Nat.min m (length td))) with m
    by (unfold m; lia).
  fold m. rewrite !flat_map_concat_map. f_equal.
  apply map_ext_in. intros i Hi. apply in_seq in Hi.
  rewrite !nth_firstn.
  destruct (Nat.ltb_spec i m); [reflexivity | lia].
Qed.

(** C10: the cleaning loop looks at the indices below the shorter length,
    keeps the positions where both entries are present, returns arrays of
    equal length, and is unaffected by what the longer array holds beyond
    the shorter one.  ([clean_pairs] is a total function: there is no index
    error to raise.) *)
Theorem cleaning_pairs_up_to_shorter_length (strain_data stress_data : list (option Q)) :
  let m := Nat.min (length strain_data) (length stress_data) in
  clean_pairs strain_data stress_data
  = (map fst (pairs_both_present strain_data stress_data),
     map snd (pairs_both_present strain_data stress_data))
  /\ (forall a b,
        In (a, b) (pairs_both_present strain_data stress_data)
        <-> exists i, (i < m)%nat /\ nth i strain_data None = Some a
                      /\ nth i stress_data None = Some b)
  /\ length (fst (clean_pairs strain_data stress_data))
     = length (snd (clean_pairs strain_data stress_data))
  /\ clean_pairs strain_data stress_data
     = clean_pairs (firstn m strain_data) (firstn m stress_data)
  /\ (forall extra,
        (length stress_data <= length strain_data)%nat ->
        clean_pairs (strain_data ++ extra) stress_data
        = clean_pairs strain_data stress_data)
  /\ (forall extra,
        (length strain_data <= length stress_data)%nat ->
        clean_pairs strain_data (stress_data ++ extra)
        = clean_pairs strain_data stress_data).
Proof.
  intros m.
  assert (Hfirstn : forall sd td,
            clean_pairs sd td
            = clean_pairs (firstn (Nat.min (length sd) (length td)) sd)
                          (firstn (Nat.min (length sd) (length td)) td)).
  { intros sd td.
    rewrite (clean_pairs_both_present (firstn _ sd)), pairs_both_present_firstn.
    apply clean_pairs_both_present. }
  split; [apply clean_pairs_both_present|].
  split.
  { intros a b. unfold pairs_both_present. fold m. rewrite in_flat_map. split.
    - intros (i & Hi & Hin). apply in_seq in Hi. exists i.
      destruct (nth i strain_data None) as [a'|], (nth i stress_data None) as [b'|];
        simpl in Hin; try contradiction.
      destruct Hin as [Heq|[]]. injection Heq as -> ->.
      split; [lia | split; reflexivity].
    - intros (i & Hi & Ha & Hb). exists i. split; [apply in_seq; lia|].
      rewrite Ha, Hb. left. reflexivity. }
  split; [apply clean_pairs_same_length|].
  split; [apply Hfirstn|].
  split; intros extra Hle.
  - rewrite (Hfirstn (strain_data ++ extra)), (Hfirstn strain_data stress_data).
    rewrite length_app.
    replace (Nat.min (length strain_data + length extra) (length stress_data))
      with (length stress_data) by lia.
    replace (Nat.min (length strain_data) (length stress_data))
      with (length stress_data) by lia.
    rewrite firstn_app.
    replace (length stress_data - length strain_data)%nat with 0%nat by lia.
    simpl. rewrite app_nil_r. reflexivity.
  - rewrite (Hfirstn strain_data (stress_data ++ extra)), (Hfirstn strain_data stress_data).
    rewrite length_app.
    replace (Nat.min (length strain_data) (length stress_data + length extra))
      with (length strain_data) by lia.
    replace (Nat.min (length strain_data) (length stress_data))
      with (length strain_data) by lia.
    rewrite firstn_app.
    replace (length strain_data - length stress_data)%nat with 0%nat by lia.
    simpl. rewrite app_nil_r. reflexivity.
Qed.

(** ** From extraction to the record *)

Lemma length_slice {A : Type} (l : list A) (a b : nat) :
  length (slice l a b) = (Nat.min b (length l) - a)%nat.
Proof. unfold slice. rewrite length_skipn, length_firstn. reflexivity. Qed.

Lemma trim_lengths (cfg : Config) (strain stress ts tt : list Q) (info : TrimInfo) :
  length strain = length stress ->
  trim_curve_to_fracture cfg strain stress = Ret (Some (ts, tt, info)) ->
  length ts = length tt
  /\ (length ts <= length strain)%nat
  /\ trimmed_points info = length ts.
Proof.
  intros Hlen. unfold trim_curve_to_fracture.
  destruct ((length strain =? 0)%nat || (length stress =? 0)%nat); [discriminate|].
  destruct (argmin (map Qabs strain)) as [z|]; simpl; [|discriminate].
  destruct (detect_fracture_point cfg strain stress) as [frac|]; simpl; [|discriminate].
  set (e := match frac with None => length strain | Some i => i end).
  destruct (arr_min (slice strain z e)); simpl; [|discriminate].
  destruct (arr_max (slice strain z e)); simpl; [|discriminate].
  destruct (arr_min (slice stress z e)); simpl; [|discriminate].
  destruct (arr_max (slice stress z e)); simpl; [|discriminate].
  intros H. injection H as <- <- <-. simpl.
  rewrite !length_slice, Hlen. repeat split; lia.
Qed.

Lemma extract_lengths (cfg : Config) (experiment : Experiment)
  (strain stress : list Q) (name : string) (info : TrimInfo) :
  extract_stress_strain_data cfg experiment = Some (strain, stress, name, info) ->
  length strain = length stress
  /\ (length strain
      <= length (fst (clean_pairs (EngineeringStrain experiment)
                                  (EngineeringStress experiment))))%nat
  /\ trimmed_points info = length strain.
Proof.
  unfold extract_stress_strain_data.
  pose proof (clean_pairs_same_length (EngineeringStrain experiment)
                                      (EngineeringStress experiment)) as Hsame.
  destruct (clean_pairs (EngineeringStrain experiment) (EngineeringStress experiment))
    as [sc tc]. simpl in Hsame |- *.
  destruct ((length sc =? 0)%nat || (length tc =? 0)%nat); [discriminate|].
  destruct (trim_curve_to_fracture cfg sc tc) as [[[[ts tt] i]|]|] eqn:Htrim;
    try discriminate.
  intros H. injection H as <- <- _ <-.
  exact (trim_lengths cfg sc tc ts tt i Hsame Htrim).
Qed.

Lemma Polynomial_fit_returns (x y : list Q) (deg : nat) :
  length x <> 0%nat -> length x = length y ->
  exists p, Polynomial_fit x y deg = Ret p.
Proof.
  intros Hne Hlen. unfold Polynomial_fit.
  destruct x as [|a x]; [contradiction|].
  replace (length (a :: x) =? 0)%nat with false by reflexivity.
  rewrite <- Hlen, Nat.eqb_refl.
  cbn [negb arr_min arr_max py_bind]. eexists. reflexivity.
Qed.

Lemma build_record_returns (cfg : Config) (experiment : Experiment) (id : string)
  (strain stress : list Q) (name : string) (info : TrimInfo) :
  length strain <> 0%nat -> length strain = length stress ->
  exists p r,
    Polynomial_fit strain stress (polynomial_degree cfg) = Ret p
    /\ build_record cfg experiment id strain stress name info = Ret r
    /\ polynomial_coefficients r = coef p
    /\ r_squared r = r_squared_of p strain stress
    /\ data_points r = length strain
    /\ trim_info r = info.
Proof.
  intros Hne Hlen.
  destruct (Polynomial_fit_returns strain stress (polynomial_degree cfg) Hne Hlen)
    as (p & Hp).
  unfold build_record, fit. rewrite Hp.
  destruct strain as [|a strain]; [contradiction|].
  destruct stress as [|b stress]; [discriminate|].
  cbn [arr_min arr_max py_bind fst snd].
  eexists. eexists. split; [reflexivity|]. split; [reflexivity|].
  repeat split.
Qed.

(** The functions on the exact sums are instances of the functions on the
    computed sums. *)
Lemma outcome_at_exact_sums (cfg : Config)
  (experiments : list (string * Experiment)) (id : string) :
  fit_polynomial_to_experiment_outcome cfg experiments id
  = fit_polynomial_to_experiment_outcome_with exact_sums cfg experiments id.
Proof. reflexivity. Qed.

(** C3, as amended: no curve is rejected for a degenerate fit.  Whatever
    values [sse] and [sst] the two sums of [r_squared] evaluate to in the
    program, a trimmed curve of ten or more points gives a record, and the
    [r_squared] of the record is [1 - sse/sst], formed without a test of the
    divisor: the division does not raise; a divisor that is zero gives [nan]
    or an infinity, so the [r_squared] of the record is not finite, and any
    other divisor gives a finite one. *)
Theorem zero_variance_curve_still_recorded
  (sums : Polynomial -> list Q -> list Q -> Q * Q)
  (cfg : Config) (experiments : list (string * Experiment)) (id : string)
  (experiment : Experiment) (strain stress : list Q) (name : string)
  (info : TrimInfo) :
  dict_get experiments id = Some experiment ->
  extract_stress_strain_data cfg experiment = Some (strain, stress, name, info) ->
  (10 <= length strain)%nat ->
  exists p r,
    let sse := fst (sums p strain stress) in
    let sst := snd (sums p strain stress) in
    Polynomial_fit strain stress (polynomial_degree cfg) = Ret p
    /\ fit_polynomial_to_experiment_outcome_with sums cfg experiments id
       = Produced r
    /\ r_squared r = one_minus (np_div sse sst)
    /\ (sst == 0 -> is_finite (r_squared r) = false)
    /\ (~ sst == 0 -> is_finite (r_squared r) = true).
Proof.
  intros Hget Hex Hlen.
  destruct (extract_lengths cfg experiment strain stress name info Hex) as (Heq & _).
  destruct (Polynomial_fit_returns strain stress (polynomial_degree cfg))
    as (p & Hp); [lia | exact Heq |].
  destruct strain as [|a strain]; [simpl in Hlen; lia|].
  destruct stress as [|b stress]; [discriminate Heq|].
  eexists p, _. cbv zeta. split; [exact Hp|]. split.
  - unfold fit_polynomial_to_experiment_outcome_with. rewrite Hget, Hex.
    destruct (Nat.ltb_spec (length (a :: strain)) 10); [lia|].
    unfold build_record_with, fit_with. rewrite Hp.
    cbn [arr_min arr_max py_bind fst snd]. reflexivity.
  - cbn [r_squared]. split; [reflexivity|].
    unfold np_div. split; intros H.
    + apply Qeq_bool_iff in H. rewrite H.
      destruct (Qeq_bool (fst (sums p (a :: strain) (b :: stress))) 0);
        [reflexivity|].
      destruct (Qltb 0 (fst (sums p (a :: strain) (b :: stress)))); reflexivity.
    + destruct (Qeq_bool (snd (sums p (a :: strain) (b :: stress))) 0) eqn:E;
        [|reflexivity].
      exfalso. apply H. apply Qeq_bool_iff. exact E.
Qed.

Lemma zero_variance_curve_still_recorded_witness :
  exists p r,
    Polynomial_fit strain_flat stress_flat 1 = Ret p
    /\ fit_polynomial_to_experiment_outcome_with exact_sums cfg_drop_half
         [("flat"%string, experiment_flat)] "flat" = Produced r
    /\ r_squared r = one_minus (np_div (SSE p strain_flat stress_flat)
                                       (SST stress_flat)).
Proof.
  destruct (zero_variance_curve_still_recorded exact_sums cfg_drop_half
              [("flat"%string, experiment_flat)] "flat" experiment_flat
              strain_flat stress_flat "sample"
              {| original_points := 10; trimmed_points := 10;
                 zero_strain_idx := 0; fracture_idx := None;
                 fracture_detected := false; strain_range := (0, 9);
                 stress_range := (5, 5); max_stress := 5 |})
    as (p & r & Hp & Hr & Hr2 & _).
  - reflexivity.
  - vm_compute. reflexivity.
  - simpl. lia.
  - exists p, r. split; [exact Hp|]. split; [exact Hr | exact Hr2].
Defined.

(** C3, as stated, fails: the ten-point curve with constant stress 5 has
    zero total sum of squares, yet no error is raised and a record comes
    out, with [r_squared] equal to [nan]. *)
Lemma flat_curve_is_recorded_with_nan :
  SST stress_flat == 0
  /\ (exists r,
        fit_polynomial_to_experiment cfg_drop_half
          [("flat"%string, experiment_flat)] "flat" = Some r
        /\ r_squared r = NaN)
  /\ ~ (exists e,
          fit_polynomial_to_experiment_outcome cfg_drop_half
            [("flat"%string, experiment_flat)] "flat" = Failed e).
Proof.
  split; [vm_compute; reflexivity|]. split.
  - eexists. split; vm_compute; reflexivity.
  - intros (e & H). vm_compute in H. discriminate H.
Qed.

(** C7, as amended: the ten-point floor is applied to the trimmed curve.  A
    record carries at least ten trimmed points (hence at least ten valid
    pairs); fewer than ten valid pairs never give a record; and once
    extraction has succeeded the experiment is dropped for lack of points
    exactly when fewer than ten points are left after trimming, a record
    being produced otherwise. *)
Theorem ten_point_floor_is_after_trimming
  (cfg : Config) (experiments : list (string * Experiment)) (id : string)
  (experiment : Experiment) :
  dict_get experiments id = Some experiment ->
  let valid_pairs :=
    length (fst (clean_pairs (EngineeringStrain experiment)
                             (EngineeringStress experiment))) in
  (forall r, fit_polynomial_to_experiment cfg experiments id = Some r ->
             (10 <= data_points r)%nat
             /\ (data_points r <= valid_pairs)%nat
             /\ data_points r = trimmed_points (trim_info r))
  /\ ((valid_pairs < 10)%nat ->
      fit_polynomial_to_experiment cfg experiments id = None)
  /\ (forall strain stress name info,
        extract_stress_strain_data cfg experiment = Some (strain, stress, name, info) ->
        ((length strain < 10)%nat ->
         fit_polynomial_to_experiment_outcome cfg experiments id
         = TooFewPoints (length strain))
        /\ ((10 <= length strain)%nat ->
            exists r, fit_polynomial_to_experiment_outcome cfg experiments id
                      = Produced r)).
Proof.
  intros Hget valid_pairs.
  assert (Hthird : forall strain stress name info,
    extract_stress_strain_data cfg experiment = Some (strain, stress, name, info) ->
    ((length strain < 10)%nat ->
     fit_polynomial_to_experiment_outcome cfg experiments id
     = TooFewPoints (length strain))
    /\ ((10 <= length strain)%nat ->
        exists r, fit_polynomial_to_experiment_outcome cfg experiments id
                  = Produced r)).
  { intros strain stress name info Hex.
    unfold fit_polynomial_to_experiment_outcome. rewrite Hget, Hex.
    destruct (Nat.ltb_spec (length strain) 10) as [Hlt|Hge]; split; intros H;
      try lia; try reflexivity.
    destruct (extract_lengths cfg experiment strain stress name info Hex) as (Heq & _).
    destruct (build_record_returns cfg experiment id strain stress name info)
      as (p & r & _ & Hr & _); [lia | exact Heq |].
    rewrite Hr. exists r. reflexivity. }
  split; [|split; [|exact Hthird]].
  - intros r Hr. unfold fit_polynomial_to_experiment in Hr.
    destruct (fit_polynomial_to_experiment_outcome cfg experiments id) as [r'| | | |] eqn:Hout;
      try discriminate.
    injection Hr as ->.
    destruct (record_stores_fit cfg experiments id r Hout)
      as (e' & strain & stress & name & info & Hget' & Hex & Hlen & _ & Hdp & Hti).
    rewrite Hget in Hget'. injection Hget' as <-.
    destruct (extract_lengths cfg experiment strain stress name info Hex)
      as (_ & Hle & Htp).
    rewrite Hdp, Hti, Htp. fold valid_pairs in Hle. lia.
  - intros Hlt. unfold fit_polynomial_to_experiment, fit_polynomial_to_experiment_outcome.
    rewrite Hget.
    destruct (extract_stress_strain_data cfg experiment)
      as [[[[strain stress] name] info]|] eqn:Hex; [|reflexivity].
    destruct (extract_lengths cfg experiment strain stress name info Hex)
      as (_ & Hle & _). fold valid_pairs in Hle.
    destruct (Nat.ltb_spec (length strain) 10); [reflexivity | lia].
Qed.

Lemma ten_point_floor_is_after_trimming_witness :
  let experiments := [("flat"%string, experiment_flat)] in
  dict_get experiments "flat" = Some experiment_flat
  /\ (forall r,
        fit_polynomial_to_experiment cfg_drop_half experiments "flat" = Some r ->
        (10 <= data_points r)%nat)
  /\ (exists r, fit_polynomial_to_experiment_outcome cfg_drop_half experiments "flat"
                = Produced r).
Proof.
  intros experiments.
  pose proof (ten_point_floor_is_after_trimming cfg_drop_half experiments
                "flat" experiment_flat eq_refl) as (Hrec & _ & Hcut).
  split; [reflexivity|]. split.
  - intros r Hr. apply (Hrec r Hr).
  - destruct (Hcut strain_flat stress_flat "sample"%string
                {| original_points := 10;
                   trimmed_points := 10;
                   zero_strain_idx := 0;
                   fracture_idx := None;
                   fracture_detected := false;
                   strain_range := (0, 9);
                   stress_range := (5, 5);
                   max_stress := 5 |}) as (_ & Hge).
    + vm_compute. reflexivity.
    + apply Hge. simpl. lia.
Defined.

(** C7, as stated, fails: the end-to-end experiment keeps eleven valid pairs
    after cleaning and is nevertheless dropped by the ten-point check,
    because only five points are left after trimming. *)
Lemma eleven_valid_pairs_dropped_as_too_few :
  length (fst (clean_pairs (EngineeringStrain experiment_e2e)
                           (EngineeringStress experiment_e2e))) = 11%nat
  /\ fit_polynomial_to_experiment_outcome cfg_drop_half
       [("e2e"%string, experiment_e2e)] "e2e" = TooFewPoints 5
  /\ fit_polynomial_to_experiment cfg_drop_half
       [("e2e"%string, experiment_e2e)] "e2e" = None.
Proof.
  repeat split; vm_compute; reflexivity.
Qed.

End CurveFacts.

(** * Properties of the outlier analysis *)

Section OutlierFacts.

Import Outliers.
Local Open Scope R_scope.

Lemma Rltb_true (a b : R) : Rltb a b = true <-> a < b.
Proof.
  unfold Rltb. destruct (Rlt_dec a b); split; intros H;
    try reflexivity; try assumption; try discriminate; contradiction.
Qed.

Lemma Rltb_false (a b : R) : Rltb a b = false <-> b <= a.
Proof.
  unfold Rltb. destruct (Rlt_dec a b) as [H|H]; split; intros H';
    try reflexivity; try discriminate; lra.
Qed.

Lemma Rleb_true (a b : R) : Rleb a b = true <-> a <= b.
Proof.
  unfold Rleb. destruct (Rle_dec a b); split; intros H;
    try reflexivity; try assumption; try discriminate; contradiction.
Qed.

Lemma Rleb_false (a b : R) : Rleb a b = false <-> b < a.
Proof.
  unfold Rleb. destruct (Rle_dec a b) as [H|H]; split; intros H';
    try reflexivity; try discriminate; lra.
Qed.

(** ** The order of a descending sort *)

Lemma fl_geb_ge (a b : fl) : fl_geb a b = true <-> fl_ge a b.
Proof.
  destruct a as [x|], b as [y|]; simpl; try tauto.
  - apply Rleb_true.
  - split; [discriminate | contradiction].
Qed.

Lemma fl_ge_total (a b : fl) : fl_ge a b \/ fl_ge b a.
Proof.
  destruct a as [x|], b as [y|]; simpl; auto.
  destruct (Rle_dec x y); [right | left]; lra.
Qed.

Lemma fl_ge_trans (a b c : fl) : fl_ge a b -> fl_ge b c -> fl_ge a c.
Proof.
  destruct a as [x|], b as [y|], c as [z|]; simpl; try tauto. lra.
Qed.

Lemma fl_geb_false (a b : fl) : fl_geb a b = false -> fl_ge b a.
Proof.
  intros H. destruct (fl_ge_total a b) as [Hab|Hba]; [|exact Hba].
  apply fl_geb_ge in Hab. congruence.
Qed.

Lemma insert_desc_perm {A : Type} (key : A -> fl) (x : A) (l : list A) :
  Permutation (insert_desc key x l) (x :: l).
Proof.
  induction l as [|y r IH]; simpl.
  - apply Permutation_refl.
  - destruct (fl_geb (key y) (key x)).
    + apply Permutation_trans with (y :: x :: r).
      * apply perm_skip. exact IH.
      * apply perm_swap.
    + apply Permutation_refl.
Qed.

Lemma insert_desc_sorted {A : Type} (key : A -> fl) (x : A) (l : list A) :
  StronglySorted (fun a b => fl_ge (key a) (key b)) l ->
  StronglySorted (fun a b => fl_ge (key a) (key b)) (insert_desc key x l).
Proof.
  induction l as [|y r IH]; intros Hs; simpl.
  - constructor; constructor.
  - inversion Hs as [|y' r' Hr Hall]; subst.
    destruct (fl_geb (key y) (key x)) eqn:E.
    + constructor; [apply IH; exact Hr|].
      apply fl_geb_ge in E.
      rewrite Forall_forall in *. intros z Hz.
      apply (Permutation_in _ (insert_desc_perm key x r)) in Hz.
      destruct Hz as [<-|Hz]; [exact E | apply Hall; exact Hz].
    + apply fl_geb_false in E.
      constructor; [exact Hs|].
      constructor; [exact E|].
      rewrite Forall_forall in *. intros z Hz.
      apply fl_ge_trans with (key y); [exact E | apply Hall; exact Hz].
Qed.

Lemma insertion_sort_desc_contract : sort_contract insertion_sort_desc.
Proof.
  intros A key l. unfold insertion_sort_desc.
  induction l as [|x l [IHp IHs]]; simpl.
  - split; constructor.
  - split.
    + apply Permutation_trans with (x :: fold_right (insert_desc key) [] l).
      * apply insert_desc_perm.
      * apply perm_skip. exact IHp.
    + apply insert_desc_sorted. exact IHs.
Qed.

(** ** The frame of outliers *)

Section AnySort.

Variable sort_values : forall A : Type, (A -> fl) -> list A -> list A.
Hypothesis sort_ok : sort_contract sort_values.

Lemma find_outliers_perm (group_df : list Row) (col : string) (st : Stats)
  (k : sigma_level) :
  Permutation (find_outliers_in_group sort_values group_df col (Some st) k)
              (map (outlier_row st col) (outlier_mask group_df col st k)).
Proof.
  unfold find_outliers_in_group.
  destruct (outlier_mask group_df col st k) as [|r rs] eqn:E; simpl.
  - constructor.
  - apply (sort_ok OutlierRow abs_deviation).
Qed.

Lemma in_find_outliers (group_df : list Row) (col : string) (st : Stats)
  (k : sigma_level) (o : OutlierRow) :
  In o (find_outliers_in_group sort_values group_df col (Some st) k)
  <-> exists r, In r group_df
                /\ is_outlier col (sigma_low st k) (sigma_high st k) r = true
                /\ o = outlier_row st col r.
Proof.
  split.
  - intros H. apply (Permutation_in _ (find_outliers_perm group_df col st k)) in H.
    apply in_map_iff in H. destruct H as (r & <- & Hr).
    apply filter_In in Hr. exists r. tauto.
  - intros (r & Hin & Hout & ->).
    apply (Permutation_in _ (Permutation_sym (find_outliers_perm group_df col st k))).
    apply in_map. apply filter_In. tauto.
Qed.

Lemma calculate_bands (group_df : list Row) (col : string) (st : Stats)
  (k : sigma_level) :
  calculate_statistics_for_group group_df col = Some st ->
  sigma_low st k = band_low (mean st) (sigma_mult k) (std st)
  /\ sigma_high st k = band_high (mean st) (sigma_mult k) (std st).
Proof.
  unfold calculate_statistics_for_group.
  destruct (length (dropna (map (fun r => cell r col) group_df)) =? 0)%nat;
    [discriminate|].
  intros H. injection H as <-. destruct k; simpl; split; reflexivity.
Qed.

Lemma calculate_std_nonneg (group_df : list Row) (col : string) (st : Stats)
  (s : R) :
  calculate_statistics_for_group group_df col = Some st ->
  std st = Some s -> 0 <= s.
Proof.
  unfold calculate_statistics_for_group.
  destruct (length (dropna (map (fun r => cell r col) group_df)) =? 0)%nat;
    [discriminate|].
  intros H. injection H as <-. simpl. unfold series_std.
  destruct (length (dropna (map (fun r => cell r col) group_df)) <=? 1)%nat;
    [discriminate|].
  intros H. injection H as <-. apply sqrt_pos.
Qed.

(** C5: the test is against the band edges that the statistics store,
    whatever rounding went into them.  With stored edges [lo <= hi] for
    level [k], a value equal to an edge is not an outlier at that level, a
    value greater than [hi] or smaller than [lo] is; being an outlier is
    being strictly outside the stored band. *)
Theorem band_edge_is_not_an_outlier
  (group_df : list Row) (col : string) (st : Stats) (lo hi : R)
  (k : sigma_level) (r : Row) (v : R) :
  sigma_low st k = Some lo ->
  sigma_high st k = Some hi ->
  lo <= hi ->
  In r group_df ->
  cell r col = Some v ->
  let out := find_outliers_in_group sort_values group_df col (Some st) k in
  let flagged := In (outlier_row st col r) out in
  ((v = hi \/ v = lo) -> ~ flagged)
  /\ ((hi < v \/ v < lo) -> flagged)
  /\ (flagged <-> v < lo \/ hi < v).
Proof.
  intros Hlow Hhigh Hle Hin Hcell out flagged.
  assert (Hiff : flagged <-> v < lo \/ hi < v).
  { unfold flagged, out. rewrite in_find_outliers. rewrite Hlow, Hhigh. split.
    - intros (r' & _ & Hout & Heq).
      apply (f_equal value) in Heq. simpl in Heq.
      unfold cell_value in Heq. rewrite Hcell in Heq.
      unfold is_outlier in Hout.
      destruct (cell r' col) as [v'|]; simpl in Hout; [|discriminate].
      subst v'. apply orb_true_iff in Hout.
      destruct Hout as [H|H]; apply Rltb_true in H; [left | right]; exact H.
    - intros H. exists r. split; [exact Hin|]. split; [|reflexivity].
      unfold is_outlier. rewrite Hcell. simpl. apply orb_true_iff.
      destruct H as [H|H]; [left | right]; apply Rltb_true; exact H. }
  split; [|split; [|exact Hiff]].
  - intros Hedge Hfl. apply Hiff in Hfl. lra.
  - intros Hout. apply Hiff. lra.
Qed.

(** X30: for any sort within the contract of the library, the returned
    rows come in descending order of the [abs_deviation] they carry (missing
    deviations last); they are, rearranged, the rows of the frame that pass
    the mask against the stored band, and each carries the deviation
    [(value - mean)/std] formed from the stored mean and a stored standard
    deviation other than zero.  Nothing is said of the order among rows of
    equal absolute deviation, which the library's sort decides. *)
Theorem outliers_sorted_by_descending_abs_deviation
  (group_df : list Row) (col : string) (stats : option Stats) (k : sigma_level) :
  let out := find_outliers_in_group sort_values group_df col stats k in
  StronglySorted (fun a b => fl_ge (abs_deviation a) (abs_deviation b)) out
  /\ (forall st, stats = Some st ->
        Permutation out (map (outlier_row st col) (outlier_mask group_df col st k)))
  /\ (forall st o sd, stats = Some st -> In o out ->
        std st = Some sd -> sd <> 0 ->
        deviation o = Some ((value o - mean st) / sd)).
Proof.
  intros out. split; [|split].
  - unfold out, find_outliers_in_group. destruct stats as [st|]; [|constructor].
    destruct (length (outlier_mask group_df col st k) =? 0)%nat; [constructor|].
    apply (sort_ok OutlierRow abs_deviation).
  - intros st ->. apply find_outliers_perm.
  - intros st o sd -> Ho Hstd _. unfold out in Ho. apply in_find_outliers in Ho.
    destruct Ho as (r & _ & _ & ->). simpl. rewrite Hstd. reflexivity.
Qed.

End AnySort.

(** ** Group statistics *)

Lemma calculate_fields (group_df : list Row) (col : string) (st : Stats) :
  calculate_statistics_for_group group_df col = Some st ->
  let values := dropna (map (fun r => cell r col) group_df) in
  count st = length values
  /\ mean st = series_mean values
  /\ std st = series_std values
  /\ (0 < length values)%nat.
Proof.
  unfold calculate_statistics_for_group.
  destruct (Nat.eqb_spec (length (dropna (map (fun r => cell r col) group_df))) 0)
    as [|Hne]; [discriminate|].
  intros H. injection H as <-. simpl. repeat split. lia.
Qed.

Lemma Rsum_sqr_nonneg (m : R) (l : list R) :
  0 <= Rsum (map (fun x => Rsqr (x - m)) l).
Proof.
  induction l as [|a l IH]; simpl; [lra|].
  pose proof (Rle_0_sqr (a - m)). lra.
Qed.

Lemma Rsum_sqr_zero (m : R) (l : list R) :
  Rsum (map (fun x => Rsqr (x - m)) l) = 0 -> forall x, In x l -> x = m.
Proof.
  induction l as [|a l IH]; simpl; intros H x Hin; [contradiction|].
  pose proof (Rle_0_sqr (a - m)) as Ha.
  pose proof (Rsum_sqr_nonneg m l) as Hl.
  destruct Hin as [<-|Hin].
  - assert (Hz : Rsqr (a - m) = 0) by lra.
    apply Rsqr_0_uniq in Hz. lra.
  - apply IH; [lra | exact Hin].
Qed.

Lemma in_dropna (l : list fl) (v : R) : In v (dropna l) <-> In (Some v) l.
Proof.
  unfold dropna. rewrite in_flat_map. split.
  - intros (c & Hc & Hv). destruct c as [w|]; simpl in Hv; [|contradiction].
    destruct Hv as [<-|[]]. exact Hc.
  - intros H. exists (Some v). split; [exact H | left; reflexivity].
Qed.

Lemma in_dict_set {V : Type} (d : list (string * V)) (k : string) (v : V)
  (k' : string) (v' : V) :
  In (k', v') (dict_set d k v) -> (k' = k /\ v' = v) \/ In (k', v') d.
Proof.
  induction d as [|kv d IH]; simpl.
  - intros [H|[]]. injection H as <- <-. left. split; reflexivity.
  - destruct (String.eqb (fst kv) k).
    + intros [H|H]; [injection H as <- <-; left; split; reflexivity|].
      right. right. exact H.
    + intros [H|H]; [right; left; exact H|].
      destruct (IH H) as [Heq|Hin]; [left; exact Heq | right; right; exact Hin].
Qed.

(** ** Grouping *)

Lemma filter_none {A : Type} (f : A -> bool) (l : list A) :
  (forall x, In x l -> f x = false) -> filter f l = [].
Proof.
  induction l as [|a l IH]; simpl; intros H; [reflexivity|].
  rewrite (H a) by (left; reflexivity).
  apply IH. intros x Hx. apply H. right. exact Hx.
Qed.

Lemma opt_eqb_eq (a b : option string) : opt_eqb a b = true <-> a = b.
Proof.
  destruct a as [x|], b as [y|]; simpl; split; intros H;
    try reflexivity; try discriminate.
  - apply String.eqb_eq in H. congruence.
  - injection H as ->. apply String.eqb_refl.
Qed.

Lemma key_eqb_eq (a b : group_key) : key_eqb a b = true <-> a = b.
Proof.
  destruct a as [[f n] t], b as [[f' n'] t']. unfold key_eqb. simpl.
  rewrite !andb_true_iff, !opt_eqb_eq, String.eqb_eq.
  split; [intros [[-> ->] ->]; reflexivity | intros H; injection H as -> -> ->; auto].
Qed.

Lemma key_eqb_refl (a : group_key) : key_eqb a a = true.
Proof. apply key_eqb_eq. reflexivity. Qed.

Lemma key_eqb_neq (a b : group_key) : a <> b -> key_eqb a b = false.
Proof.
  intros H. destruct (key_eqb a b) eqn:E; [|reflexivity].
  apply key_eqb_eq in E. contradiction.
Qed.

Lemma key_eq_dec (a b : group_key) : {a = b} + {a <> b}.
Proof.
  destruct (key_eqb a b) eqn:E.
  - left. apply key_eqb_eq. exact E.
  - right. intros H. apply key_eqb_eq in H. congruence.
Qed.

Lemma groupby_add_new (r : Row) (gs : list (group_key * list Row)) :
  ~ In (key_of r) (map fst gs) ->
  groupby_add r gs = gs ++ [(key_of r, [r])].
Proof.
  induction gs as [|g gs IH]; simpl; intros Hn; [reflexivity|].
  rewrite key_eqb_neq by (intros H; apply Hn; left; exact H).
  rewrite IH by (intros H; apply Hn; right; exact H). reflexivity.
Qed.

Lemma groupby_add_old (r : Row) (gs : list (group_key * list Row)) :
  NoDup (map fst gs) -> In (key_of r) (map fst gs) ->
  groupby_add r gs
  = map (fun g => if key_eqb (fst g) (key_of r) then (fst g, snd g ++ [r]) else g) gs.
Proof.
  induction gs as [|g gs IH]; simpl; intros Hnd Hin; [contradiction|].
  inversion Hnd as [|x xs Hnotin Hnd']; subst.
  destruct (key_eqb (fst g) (key_of r)) eqn:E.
  - f_equal. apply key_eqb_eq in E.
    rewrite <- (map_id gs) at 1. apply map_ext_in. intros g' Hg'.
    rewrite key_eqb_neq; [reflexivity|].
    intros H. apply Hnotin. rewrite E, <- H. apply in_map. exact Hg'.
  - f_equal. apply IH; [exact Hnd'|].
    destruct Hin as [H|H]; [|exact H].
    apply key_eqb_eq in H. congruence.
Qed.

Lemma grouped_step (rows : list Row) (gs : list (group_key * list Row)) (r : Row) :
  grouped rows gs -> grouped (rows ++ [r]) (groupby_add r gs).
Proof.
  intros (Hnd & Hrows & Hcover).
  destruct (in_dec key_eq_dec (key_of r) (map fst gs)) as [Hin|Hnotin].
  - rewrite groupby_add_old by assumption.
    assert (Hkeys : map fst (map (fun g => if key_eqb (fst g) (key_of r)
                                           then (fst g, snd g ++ [r]) else g) gs)
                    = map fst gs).
    { rewrite map_map. apply map_ext. intros g.
      destruct (key_eqb (fst g) (key_of r)); reflexivity. }
    unfold grouped. rewrite Hkeys. split; [exact Hnd|]. split.
    + intros g' Hg'. apply in_map_iff in Hg'. destruct Hg' as (g & <- & Hg).
      rewrite filter_app. simpl.
      destruct (key_eqb (fst g) (key_of r)) eqn:E; simpl; rewrite E.
      * rewrite (Hrows g Hg). reflexivity.
      * rewrite app_nil_r. apply Hrows. exact Hg.
    + intros r' Hr'. apply in_app_or in Hr'.
      destruct Hr' as [Hr'|[<-|[]]]; [apply Hcover; exact Hr' | exact Hin].
  - rewrite groupby_add_new by exact Hnotin.
    unfold grouped. rewrite map_app. simpl. split; [|split].
    + apply NoDup_app; [exact Hnd | constructor; [intros [] | constructor] |].
      intros k Hk [<-|[]]. contradiction.
    + intros g Hg. rewrite filter_app. simpl.
      apply in_app_or in Hg. destruct Hg as [Hg|[<-|[]]].
      * rewrite key_eqb_neq, app_nil_r; [apply Hrows; exact Hg|].
        intros H. apply Hnotin. rewrite <- H. apply in_map. exact Hg.
      * simpl. rewrite key_eqb_refl.
        rewrite filter_none; [reflexivity|].
        intros r' Hr'. apply key_eqb_neq. intros E.
        apply Hnotin. rewrite E. apply Hcover. exact Hr'.
    + intros r' Hr'. apply in_or_app. apply in_app_or in Hr'.
      destruct Hr' as [Hr'|[<-|[]]]; [left; apply Hcover; exact Hr'|].
      right. left. reflexivity.
Qed.

Lemma groupby_grouped (rows : list Row) : grouped rows (groupby rows).
Proof.
  unfold groupby.
  assert (H : forall done todo gs,
             grouped done gs ->
             grouped (done ++ todo) (fold_left (fun gs r => groupby_add r gs) todo gs)).
  { intros done todo. revert done.
    induction todo as [|r todo IH]; intros done gs Hg; simpl.
    - rewrite app_nil_r. exact Hg.
    - replace (done ++ r :: todo) with ((done ++ [r]) ++ todo)
        by (rewrite <- app_assoc; reflexivity).
      apply IH. apply grouped_step. exact Hg. }
  apply (H [] rows []).
  unfold grouped. simpl. split; [constructor|]. split; intros ? [].
Qed.

Section Statistics.

Variable sort_values : forall A : Type, (A -> fl) -> list A -> list A.

Lemma analyze_traits_sound (columns : list string) (group_df : list Row)
  (names : list string) (ts : list (string * TraitAnalysis)) :
  (forall t a, In (t, a) ts -> trait_of_group sort_values group_df t a) ->
  forall t a,
    In (t, a) (fold_left (analyze_trait sort_values columns group_df) names ts) ->
    trait_of_group sort_values group_df t a.
Proof.
  revert ts. induction names as [|n names IH]; intros ts Hts t a; simpl.
  - apply Hts.
  - apply IH. clear t a. intros t a. unfold analyze_trait.
    destruct (negb (has_column columns n)); [apply Hts|].
    destruct (calculate_statistics_for_group group_df n) as [st|] eqn:Hcalc;
      [|apply Hts].
    destruct (Nat.ltb_spec (count st) 2) as [|Hcount]; [apply Hts|].
    intros Hin. apply in_dict_set in Hin.
    destruct Hin as [(-> & ->)|Hin]; [|apply Hts; exact Hin].
    unfold trait_of_group. simpl. split; [exact Hcalc|]. split; [exact Hcount|].
    intros k. destruct k; reflexivity.
Qed.

Lemma analyze_groups_sound (columns names : list string)
  (groups : list (group_key * list Row)) (results : list (string * GroupData)) :
  forall key gd,
    In (key, gd) (fold_left (analyze_group sort_values columns names) groups results) ->
    In (key, gd) results
    \/ exists g, In g groups /\ entry_of_group sort_values g key gd.
Proof.
  revert results. induction groups as [|g groups IH]; intros results key gd; simpl.
  - intros H. left. exact H.
  - intros H. apply IH in H. destruct H as [H|(g' & Hg' & He)].
    + unfold analyze_group in H.
      destruct (Nat.ltb_spec (length (snd g)) 2) as [|Hlen]; [left; exact H|].
      apply in_dict_set in H. destruct H as [(-> & ->)|H]; [|left; exact H].
      right. exists g. split; [left; reflexivity|].
      unfold entry_of_group. simpl. repeat split; try assumption.
      * apply (analyze_traits_sound columns (snd g) names [] ); [|exact H].
        intros t' a' [].
      * apply (analyze_traits_sound columns (snd g) names [] ) in H;
          [apply H | intros t' a' []].
      * apply (analyze_traits_sound columns (snd g) names [] ) in H;
          [apply H | intros t' a' []].
    + right. exists g'. split; [right; exact Hg' | exact He].
Qed.

Lemma std_of_two (a b : R) :
  series_mean [a; b] = (a + b) / 2
  /\ series_std [a; b] = Some (Rabs (a - b) / sqrt 2).
Proof.
  assert (Hm : series_mean [a; b] = (a + b) / 2).
  { unfold series_mean, Rsum. simpl. lra. }
  split; [exact Hm|].
  unfold series_std. simpl length. cbv iota beta.
  change (2 <=? 1)%nat with false. cbv iota.
  rewrite Hm. f_equal.
  replace (Rsum (map (fun x => Rsqr (x - (a + b) / 2)) [a; b]) / INR (2 - 1))
    with (Rsqr (a - b) / 2).
  - rewrite sqrt_div_alt by lra. rewrite sqrt_Rsqr_abs. reflexivity.
  - unfold Rsum, Rsqr. simpl. lra.
Qed.

(** C8: every entry of the analysis comes from a group (the rows of the
    frame that share a key) of at least two rows, every trait in it from a
    column with at least two non-missing values in that group; a group of
    fewer than two rows adds nothing; the reported [std] is the sample standard
    deviation with divisor [n - 1]; for exactly two values [a], [b] the mean
    is [(a+b)/2] and the standard deviation [|a-b|/sqrt 2]. *)
Theorem statistics_need_two_samples (df : DataFrame) (poly_degree : nat) :
  (forall key gd,
     In (key, gd) (analyze_all_traits sort_values df poly_degree) ->
     exists g,
       In g (groupby (df_rows df))
       /\ snd g = filter (fun r => key_eqb (fst g) (key_of r)) (df_rows df)
       /\ key = group_key_string (fst g)
       /\ sample_count gd = length (snd g)
       /\ (2 <= sample_count gd)%nat
       /\ forall t a,
            In (t, a) (traits gd) ->
            let values := dropna (map (fun r => cell r t) (snd g)) in
            calculate_statistics_for_group (snd g) t = Some (statistics a)
            /\ count (statistics a) = length values
            /\ (2 <= length values)%nat
            /\ mean (statistics a) = Rsum values / INR (length values)
            /\ std (statistics a)
               = Some (sqrt (Rsum (map (fun x => Rsqr (x - mean (statistics a))) values)
                             / INR (length values - 1))))
  /\ (forall g, In g (groupby (df_rows df)) ->
        (length (snd g) < 2)%nat ->
        forall results,
          analyze_group sort_values (df_columns df)
            (traits_to_analyze (df_columns df) poly_degree) results g = results)
  /\ (forall group_df col a b,
        dropna (map (fun r => cell r col) group_df) = [a; b] ->
        exists st,
          calculate_statistics_for_group group_df col = Some st
          /\ count st = 2%nat
          /\ mean st = (a + b) / 2
          /\ std st = Some (Rabs (a - b) / sqrt 2)).
Proof.
  split; [|split].
  - intros key gd H. unfold analyze_all_traits in H.
    apply analyze_groups_sound in H. destruct H as [[]|(g & Hg & He)].
    destruct He as (Hkey & _ & _ & _ & Hcount & Hlen & Htraits).
    exists g. split; [exact Hg|].
    split; [apply (groupby_grouped (df_rows df)); exact Hg|].
    split; [exact Hkey|]. split; [exact Hcount|].
    split; [lia|].
    intros t a Hin values. destruct (Htraits t a Hin) as (Hcalc & Hc2 & _).
    destruct (calculate_fields (snd g) t (statistics a) Hcalc)
      as (Hc & Hmean & Hstd & _).
    fold values in Hc, Hmean, Hstd.
    split; [exact Hcalc|]. split; [exact Hc|]. split; [lia|].
    split; [exact Hmean|].
    rewrite Hstd, Hmean. unfold series_std.
    destruct (Nat.leb_spec (length values) 1); [lia | reflexivity].
  - intros g _ Hlen results. unfold analyze_group.
    destruct (Nat.ltb_spec (length (snd g)) 2); [reflexivity | lia].
  - intros group_df col a b Hvals. unfold calculate_statistics_for_group.
    rewrite Hvals. simpl length. change (2 =? 0)%nat with false. cbv iota.
    eexists. split; [reflexivity|]. simpl.
    destruct (std_of_two a b) as (Hm & Hs). repeat split; assumption.
Qed.

End Statistics.

(** ** Outlier experiments *)

Lemma dict_get_set_same {V : Type} (d : list (string * V)) (k : string) (v : V) :
  dict_get (dict_set d k v) k = Some v.
Proof.
  unfold dict_get. induction d as [|kv d IH]; simpl.
  - rewrite String.eqb_refl. reflexivity.
  - destruct (String.eqb (fst kv) k) eqn:E; simpl.
    + rewrite String.eqb_refl. reflexivity.
    + rewrite E. exact IH.
Qed.

Lemma dict_get_set_other {V : Type} (d : list (string * V)) (k k' : string) (v : V) :
  k <> k' -> dict_get (dict_set d k v) k' = dict_get d k'.
Proof.
  intros Hne. unfold dict_get. induction d as [|kv d IH]; simpl.
  - destruct (String.eqb_spec k k'); [contradiction | reflexivity].
  - destruct (String.eqb_spec (fst kv) k) as [Heq|Hneq]; simpl.
    + destruct (String.eqb_spec k k'); [contradiction|].
      destruct (String.eqb_spec (fst kv) k'); [congruence | reflexivity].
    + destruct (String.eqb (fst kv) k'); [reflexivity | exact IH].
Qed.

Lemma dict_get_in {V : Type} (d : list (string * V)) (k : string) (v : V) :
  dict_get d k = Some v -> In (k, v) d.
Proof.
  unfold dict_get. destruct (find _ d) as [kv|] eqn:E; [|discriminate].
  intros H. injection H as <-. apply find_some in E. destruct E as (Hin & Heq).
  apply String.eqb_eq in Heq. subst k. destruct kv. exact Hin.
Qed.

Lemma in_dict_get {V : Type} (d : list (string * V)) (k : string) (v : V) :
  NoDup (map fst d) -> In (k, v) d -> dict_get d k = Some v.
Proof.
  unfold dict_get. induction d as [|kv d IH]; simpl; intros Hnd Hin; [contradiction|].
  inversion Hnd as [|x l Hnotin Hnd']; subst.
  destruct Hin as [->|Hin]; simpl.
  - rewrite String.eqb_refl. reflexivity.
  - destruct (String.eqb_spec (fst kv) k) as [Heq|Hneq].
    + exfalso. apply Hnotin. rewrite Heq.
      apply (in_map fst) in Hin. exact Hin.
    + apply IH; assumption.
Qed.

Lemma dict_set_keys {V : Type} (d : list (string * V)) (k : string) (v : V) (x : string) :
  In x (map fst (dict_set d k v)) <-> x = k \/ In x (map fst d).
Proof.
  induction d as [|kv d IH]; simpl.
  - split; [intros [H|[]]; left; symmetry; exact H | intros [H|[]]; left; symmetry; exact H].
  - destruct (String.eqb_spec (fst kv) k) as [Heq|Hneq]; simpl.
    + rewrite Heq. intuition congruence.
    + rewrite IH. tauto.
Qed.

Lemma dict_set_NoDup {V : Type} (d : list (string * V)) (k : string) (v : V) :
  NoDup (map fst d) -> NoDup (map fst (dict_set d k v)).
Proof.
  induction d as [|kv d IH]; simpl; intros Hnd.
  - constructor; [intros [] | constructor].
  - inversion Hnd as [|x l Hnotin Hnd']; subst.
    destruct (String.eqb_spec (fst kv) k) as [Heq|Hneq]; simpl.
    + constructor; [rewrite <- Heq; exact Hnotin | exact Hnd'].
    + constructor; [|apply IH; exact Hnd'].
      rewrite dict_set_keys. intros [H|H]; [congruence | contradiction].
Qed.

Lemma experiment_outlier_count_rows (k : sigma_level) (g : GroupData) :
  experiment_outlier_count k g
  = fold_left (fun d p => count_row g (fst p) d (snd p)) (flagged_rows k g) [].
Proof.
  unfold experiment_outlier_count, flagged_rows.
  generalize (@nil (string * Entry)) as d.
  induction (traits g) as [|ta l IH]; intros d; simpl; [reflexivity|].
  rewrite fold_left_app, IH. f_equal.
  generalize d. induction (outliers_at k (snd ta)) as [|row rows IHr];
    intros d'; simpl; [reflexivity | apply IHr].
Qed.

Lemma count_row_counted (g : GroupData) (t : string) (d : list (string * Entry))
  (row : OutlierRow) (id : string) :
  counted (count_row g t d row) id
  = (counted d id + if String.eqb (o_experiment_id row) id then 1 else 0)%nat.
Proof.
  unfold counted, count_row.
  destruct (String.eqb_spec (o_experiment_id row) id) as [Heq|Hne].
  - rewrite Heq, dict_get_set_same. simpl.
    destruct (dict_get d id); reflexivity.
  - rewrite dict_get_set_other by exact Hne. lia.
Qed.

Lemma count_row_present (g : GroupData) (t : string) (d : list (string * Entry))
  (row : OutlierRow) (id : string) :
  dict_get (count_row g t d row) id = None
  <-> dict_get d id = None /\ o_experiment_id row <> id.
Proof.
  unfold count_row.
  destruct (String.eqb_spec (o_experiment_id row) id) as [Heq|Hne].
  - rewrite Heq, dict_get_set_same. split; [discriminate | tauto].
  - rewrite dict_get_set_other by exact Hne. tauto.
Qed.

Lemma count_rows_fold (g : GroupData) (ps : list (string * OutlierRow))
  (d : list (string * Entry)) (id : string) :
  let d' := fold_left (fun d p => count_row g (fst p) d (snd p)) ps d in
  counted d' id = (counted d id + occurrences id ps)%nat
  /\ (dict_get d' id = None <-> dict_get d id = None /\ occurrences id ps = 0%nat)
  /\ (NoDup (map fst d) -> NoDup (map fst d')).
Proof.
  revert d. induction ps as [|p ps IH]; intros d; simpl.
  - unfold occurrences. simpl. split; [lia|]. split; tauto.
  - destruct (IH (count_row g (fst p) d (snd p))) as (Hc & Hp & Hn).
    split; [|split].
    + rewrite Hc, count_row_counted. unfold occurrences. simpl.
      destruct (String.eqb (o_experiment_id (snd p)) id); simpl; lia.
    + rewrite Hp, count_row_present. unfold occurrences. simpl.
      destruct (String.eqb_spec (o_experiment_id (snd p)) id); simpl;
        intuition (try congruence; try lia).
    + intros Hnd. apply Hn. unfold count_row. apply dict_set_NoDup. exact Hnd.
Qed.

Lemma occurrences_one_row (id : string) (t : string) (l : list OutlierRow) :
  NoDup (map o_experiment_id l) ->
  occurrences id (map (fun row => (t, row)) l)
  = if listed id l then 1%nat else 0%nat.
Proof.
  unfold occurrences, listed.
  induction l as [|o l IH]; simpl; intros Hnd; [reflexivity|].
  inversion Hnd as [|x xs Hnotin Hnd']; subst.
  destruct (String.eqb_spec (o_experiment_id o) id) as [Heq|Hne]; simpl.
  - rewrite IH by exact Hnd'.
    destruct (existsb (fun o0 => String.eqb (o_experiment_id o0) id) l) eqn:E;
      [|reflexivity].
    exfalso. apply existsb_exists in E. destruct E as (o' & Hin & Ho').
    apply String.eqb_eq in Ho'. apply Hnotin. rewrite Heq, <- Ho'.
    apply in_map. exact Hin.
  - apply IH. exact Hnd'.
Qed.

Lemma occurrences_app (id : string) (a b : list (string * OutlierRow)) :
  occurrences id (a ++ b) = (occurrences id a + occurrences id b)%nat.
Proof. unfold occurrences. rewrite filter_app, length_app. reflexivity. Qed.

Lemma occurrences_flagged_traits (id : string) (k : sigma_level) (g : GroupData) :
  one_row_per_experiment k g ->
  occurrences id (flagged_rows k g) = flagged_traits id k g.
Proof.
  unfold one_row_per_experiment, flagged_rows, flagged_traits.
  induction (traits g) as [|ta l IH]; intros H; simpl; [reflexivity|].
  rewrite occurrences_app, IH by (intros ta' Hin; apply H; right; exact Hin).
  rewrite occurrences_one_row by (apply H; left; reflexivity).
  destruct (listed id (outliers_at k (snd ta))); simpl; lia.
Qed.

Lemma flagged_traits_le_total (id : string) (k : sigma_level) (g : GroupData) :
  (flagged_traits id k g <= length (traits g))%nat.
Proof. unfold flagged_traits. apply filter_length_le. Qed.

Lemma group_reported_iff (threshold : R) (k : sigma_level) (g : GroupData)
  (id : string) :
  one_row_per_experiment k g ->
  (reported id (group_outlier_experiments threshold k g)
   <-> (1 <= flagged_traits id k g)%nat
       /\ threshold <= INR (flagged_traits id k g) / INR (length (traits g))).
Proof.
  intros Hone.
  pose proof (occurrences_flagged_traits id k g Hone) as Hocc.
  pose proof (flagged_traits_le_total id k g) as Hle.
  destruct (count_rows_fold g (flagged_rows k g) [] id) as (Hc & Hp & Hn).
  rewrite <- experiment_outlier_count_rows in Hc, Hp, Hn.
  rewrite Hocc in Hc, Hp. unfold counted in Hc. simpl in Hc, Hp.
  specialize (Hn (NoDup_nil _)).
  unfold reported, group_outlier_experiments. split.
  - intros (oe & Hin & Hid).
    destruct (Nat.eqb_spec (length (traits g)) 0) as [|Hne]; [contradiction|].
    apply in_map_iff in Hin. destruct Hin as ([id' e] & <- & Hin).
    apply filter_In in Hin. destruct Hin as (Hin & Hth).
    simpl in Hid, Hth. subst id'.
    apply (in_dict_get _ _ _ Hn) in Hin. rewrite Hin in Hc, Hp.
    apply Rleb_true in Hth. rewrite Hc in Hth. split; [|exact Hth].
    destruct (flagged_traits id k g); [|lia].
    exfalso. assert (Some e = None) by (apply Hp; tauto). discriminate.
  - intros (Hpos & Hth).
    destruct (Nat.eqb_spec (length (traits g)) 0) as [|Hne]; [lia|].
    destruct (dict_get (experiment_outlier_count k g) id) as [e|] eqn:Hget.
    + exists (outlier_experiment k (length (traits g)) (id, e)).
      split; [|reflexivity].
      apply in_map. apply filter_In. split; [apply dict_get_in; exact Hget|].
      simpl. apply Rleb_true. rewrite Hc. exact Hth.
    + exfalso. assert (flagged_traits id k g = 0%nat) by (apply Hp; reflexivity). lia.
Qed.

Section Identify.

Variable sort_values : forall A : Type, (A -> fl) -> list A -> list A.
Hypothesis sort_ok : sort_contract sort_values.

Lemma identify_reported_iff (threshold : R) (results : list (string * GroupData))
  (k : sigma_level) (id : string) :
  reported id (identify_outlier_experiments sort_values threshold results k)
  <-> exists kg, In kg results
                 /\ reported id (group_outlier_experiments threshold k (snd kg)).
Proof.
  unfold identify_outlier_experiments.
  set (l := flat_map (fun kg => group_outlier_experiments threshold k (snd kg)) results).
  assert (Hl : reported id l
               <-> exists kg, In kg results
                              /\ reported id (group_outlier_experiments threshold k (snd kg))).
  { unfold reported, l. split.
    - intros (oe & Hin & Hid). apply in_flat_map in Hin.
      destruct Hin as (kg & Hkg & Hoe). exists kg. split; [exact Hkg|].
      exists oe. split; assumption.
    - intros (kg & Hkg & oe & Hoe & Hid). exists oe. split; [|exact Hid].
      apply in_flat_map. exists kg. split; assumption. }
  destruct (0 <? length l)%nat; [|exact Hl].
  rewrite <- Hl. unfold reported.
  destruct (sort_ok OutlierExperiment (fun o => Some (outlier_percentage o)) l)
    as (Hperm & _).
  split; intros (oe & Hin & Hid); exists oe; (split; [|exact Hid]).
  - apply (Permutation_in _ Hperm). exact Hin.
  - apply (Permutation_in _ (Permutation_sym Hperm)). exact Hin.
Qed.

Lemma NoDup_map_filter {A B : Type} (f : A -> B) (keep : A -> bool) (l : list A) :
  NoDup (map f l) -> NoDup (map f (filter keep l)).
Proof.
  induction l as [|a l IH]; simpl; intros H; [constructor|].
  inversion H as [|x xs Hnotin Hnd]; subst.
  destruct (keep a); simpl; [|apply IH; exact Hnd].
  constructor; [|apply IH; exact Hnd].
  intros Hin. apply Hnotin. apply in_map_iff in Hin.
  destruct Hin as (x & Hx & Hin). apply filter_In in Hin.
  rewrite <- Hx. apply in_map. tauto.
Qed.

(** The results of [analyze_all_traits] on a frame with one row per
    experiment list an experiment at most once per frame of outliers. *)
Lemma analysis_one_row_per_experiment (df : DataFrame) (poly_degree : nat)
  (k : sigma_level) :
  NoDup (map experiment_id (df_rows df)) ->
  forall kg, In kg (analyze_all_traits sort_values df poly_degree) ->
             one_row_per_experiment k (snd kg).
Proof.
  intros Hids [key gd] Hin [t a] Hta. simpl in Hta |- *.
  unfold analyze_all_traits in Hin.
  apply analyze_groups_sound in Hin. destruct Hin as [[]|(g & Hg & He)].
  destruct He as (_ & _ & _ & _ & _ & _ & Htraits).
  destruct (Htraits t a Hta) as (_ & _ & Hout).
  rewrite Hout.
  apply (Permutation_NoDup
           (Permutation_sym
              (Permutation_map o_experiment_id
                 (find_outliers_perm sort_values sort_ok (snd g) t (statistics a) k)))).
  rewrite map_map. simpl. unfold outlier_mask.
  apply NoDup_map_filter.
  destruct (groupby_grouped (df_rows df)) as (_ & Hrows & _).
  rewrite (Hrows g Hg). apply NoDup_map_filter. exact Hids.
Qed.

(** C4, as amended: an experiment is reported exactly when it is an outlier
    on at least one trait of its group at the chosen sigma level and the
    ratio of those traits to the traits evaluated in the group is at least
    the threshold.  With ten traits and three of them flagged, threshold
    0.30 includes the experiment and 0.31 excludes it. *)
Theorem reported_iff_flagged_and_ratio_reaches_threshold :
  (forall (threshold : R) (results : list (string * GroupData))
          (k : sigma_level) (id : string),
      (forall kg, In kg results -> one_row_per_experiment k (snd kg)) ->
      (reported id (identify_outlier_experiments sort_values threshold results k)
       <-> exists kg,
             In kg results
             /\ (1 <= flagged_traits id k (snd kg))%nat
             /\ threshold <= INR (flagged_traits id k (snd kg))
                             / INR (length (traits (snd kg)))))
  /\ (forall (key : string) (g : GroupData) (k : sigma_level) (id : string),
        one_row_per_experiment k g ->
        length (traits g) = 10%nat ->
        flagged_traits id k g = 3%nat ->
        reported id (identify_outlier_experiments sort_values (3 / 10) [(key, g)] k)
        /\ ~ reported id
               (identify_outlier_experiments sort_values (31 / 100) [(key, g)] k)).
Proof.
  assert (Hgen : forall (threshold : R) (results : list (string * GroupData))
          (k : sigma_level) (id : string),
      (forall kg, In kg results -> one_row_per_experiment k (snd kg)) ->
      (reported id (identify_outlier_experiments sort_values threshold results k)
       <-> exists kg,
             In kg results
             /\ (1 <= flagged_traits id k (snd kg))%nat
             /\ threshold <= INR (flagged_traits id k (snd kg))
                             / INR (length (traits (snd kg))))).
  { intros threshold results k id Hone. rewrite identify_reported_iff.
    split; intros (kg & Hkg & H); exists kg; (split; [exact Hkg|]);
      apply (group_reported_iff threshold k (snd kg) id (Hone kg Hkg)); exact H. }
  split; [exact Hgen|].
  intros key g k id Hone Hlen Hfl.
  assert (Hall : forall kg, In kg [(key, g)] -> one_row_per_experiment k (snd kg)).
  { intros kg [<-|[]]. exact Hone. }
  split.
  - apply (Hgen _ _ _ _ Hall). exists (key, g). simpl.
    rewrite Hfl, Hlen. split; [left; reflexivity|]. split; [lia|].
    simpl. lra.
  - intros H. apply (Hgen _ _ _ _ Hall) in H.
    destruct H as (kg & [<-|[]] & _ & Hth). simpl in Hth.
    rewrite Hfl, Hlen in Hth. simpl in Hth. lra.
Qed.

End Identify.

(** ** The example frames *)

Lemma mean_vals_tie : series_mean vals_tie = 0.
Proof. unfold series_mean, vals_tie, Rsum. simpl. lra. Qed.

Lemma std_vals_tie : series_std vals_tie = Some 1.
Proof.
  unfold series_std. change (length vals_tie <=? 1)%nat with false.
  cbv iota. rewrite mean_vals_tie. f_equal.
  rewrite <- sqrt_1. f_equal.
  unfold vals_tie, Rsum, Rsqr. simpl. lra.
Qed.

Lemma calculate_rows_tie :
  calculate_statistics_for_group rows_tie "c" = Some stats_tie.
Proof.
  unfold calculate_statistics_for_group.
  change (dropna (map (fun r => cell r "c") rows_tie)) with vals_tie.
  change (length vals_tie =? 0)%nat with false. cbv iota.
  rewrite mean_vals_tie, std_vals_tie. unfold stats_tie, band_low, band_high.
  simpl option_map.
  replace (0 - 1 * 1) with (-1) by lra. replace (0 + 1 * 1) with 1 by lra.
  replace (0 - 2 * 1) with (-2) by lra. replace (0 + 2 * 1) with 2 by lra.
  replace (0 - 3 * 1) with (-3) by lra. replace (0 + 3 * 1) with 3 by lra.
  reflexivity.
Qed.

Lemma filter_keep {A : Type} (f : A -> bool) (x : A) (l : list A) :
  f x = true -> filter f (x :: l) = x :: filter f l.
Proof. intros H. simpl. rewrite H. reflexivity. Qed.

Lemma filter_drop {A : Type} (f : A -> bool) (x : A) (l : list A) :
  f x = false -> filter f (x :: l) = filter f l.
Proof. intros H. simpl. rewrite H. reflexivity. Qed.

Lemma is_outlier_row_c (id : string) (v lo hi : R) :
  is_outlier "c" (Some lo) (Some hi) (row_c id (Some v))
  = Rltb v lo || Rltb hi v.
Proof. reflexivity. Qed.

Ltac keep_row :=
  rewrite filter_keep
    by (rewrite is_outlier_row_c; apply orb_true_iff;
        first [left; apply Rltb_true; lra | right; apply Rltb_true; lra]).

Ltac drop_row :=
  rewrite filter_drop
    by (rewrite is_outlier_row_c; apply orb_false_iff;
        split; apply Rltb_false; lra).

Lemma outliers_sorted_by_descending_abs_deviation_witness :
  StronglySorted (fun a b => fl_ge (abs_deviation a) (abs_deviation b))
    (find_outliers_in_group insertion_sort_desc rows_tie "c" (Some stats_tie) sigma1).
Proof.
  apply (outliers_sorted_by_descending_abs_deviation insertion_sort_desc
           insertion_sort_desc_contract rows_tie "c" (Some stats_tie) sigma1).
Defined.

Lemma mean_vals_edge : series_mean vals_edge = 0.
Proof. unfold series_mean, vals_edge, Rsum. simpl. lra. Qed.

Lemma std_vals_edge : series_std vals_edge = Some 1.
Proof.
  unfold series_std. change (length vals_edge <=? 1)%nat with false.
  cbv iota. rewrite mean_vals_edge. f_equal.
  rewrite <- sqrt_1. f_equal.
  unfold vals_edge, Rsum, Rsqr. simpl. lra.
Qed.

Lemma calculate_rows_edge :
  calculate_statistics_for_group rows_edge "c" = Some stats_edge.
Proof.
  unfold calculate_statistics_for_group.
  change (dropna (map (fun r => cell r "c") rows_edge)) with vals_edge.
  change (length vals_edge =? 0)%nat with false. cbv iota.
  rewrite mean_vals_edge, std_vals_edge. unfold stats_edge, band_low, band_high.
  simpl option_map.
  replace (0 - 1 * 1) with (-1) by lra. replace (0 + 1 * 1) with 1 by lra.
  replace (0 - 2 * 1) with (-2) by lra. replace (0 + 2 * 1) with 2 by lra.
  replace (0 - 3 * 1) with (-3) by lra. replace (0 + 3 * 1) with 3 by lra.
  reflexivity.
Qed.

Lemma band_edge_is_not_an_outlier_witness :
  ~ In (outlier_row stats_edge "c" (row_c "c" (Some 1)))
       (find_outliers_in_group insertion_sort_desc rows_edge "c"
          (Some stats_edge) sigma1).
Proof.
  apply (band_edge_is_not_an_outlier insertion_sort_desc
           insertion_sort_desc_contract rows_edge "c" stats_edge (-1) 1 sigma1
           (row_c "c" (Some 1)) 1 eq_refl eq_refl).
  - lra.
  - right. right. left. reflexivity.
  - reflexivity.
  - left. reflexivity.
Defined.

Lemma one_row_group_ten_traits : one_row_per_experiment sigma2 group_ten_traits.
Proof.
  intros ta Hin. simpl in Hin.
  repeat (destruct Hin as [<-|Hin];
          [simpl; repeat constructor; simpl; intuition discriminate|]).
  contradiction.
Qed.

Lemma reported_iff_flagged_and_ratio_reaches_threshold_witness :
  reported "x" (identify_outlier_experiments insertion_sort_desc (3 / 10)
                  [("F_g s_t"%string, group_ten_traits)] sigma2)
  /\ ~ reported "x" (identify_outlier_experiments insertion_sort_desc (31 / 100)
                       [("F_g s_t"%string, group_ten_traits)] sigma2).
Proof.
  apply (reported_iff_flagged_and_ratio_reaches_threshold insertion_sort_desc
           insertion_sort_desc_contract).
  - exact one_row_group_ten_traits.
  - reflexivity.
  - reflexivity.
Defined.

(** C4, as stated, fails at threshold 0: "e1" is listed at one sigma only,
    so at two sigmas its ratio is 0/1 = 0, which reaches the threshold, and
    yet it is not reported. *)
Lemma ratio_zero_reaches_zero_threshold_unreported :
  flagged_traits "e1" sigma2 group_one_trait = 0%nat
  /\ 0 <= INR (flagged_traits "e1" sigma2 group_one_trait)
          / INR (length (traits group_one_trait))
  /\ ~ reported "e1" (identify_outlier_experiments insertion_sort_desc 0
                        [("F_g s_t"%string, group_one_trait)] sigma2).
Proof.
  split; [reflexivity|]. split.
  - simpl. lra.
  - intros (oe & Hin & _). exact Hin.
Qed.

(** The analysis of [df_small] has one entry, for the group of two rows;
    the group of one row is absent. *)
Lemma analysis_of_small_frame :
  map fst (analyze_all_traits insertion_sort_desc df_small 1) = ["F_g s_t"%string]
  /\ map (fun kg => sample_count (snd kg))
         (analyze_all_traits insertion_sort_desc df_small 1) = [2%nat]
  /\ map (fun kg => map fst (traits (snd kg)))
         (analyze_all_traits insertion_sort_desc df_small 1) = [["r_squared"%string]].
Proof.
  repeat split; reflexivity.
Qed.

End OutlierFacts.

(** * More properties of the curve side *)

Section FractureFacts.

Import Curve.
Local Open Scope Q_scope.

Lemma find_seq_some (f : nat -> bool) (a n i : nat) :
  find f (seq a n) = Some i ->
  (a <= i < a + n)%nat /\ f i = true
  /\ forall j, (a <= j < i)%nat -> f j = false.
Proof.
  revert a. induction n as [|n IH]; intros a; simpl; [discriminate|].
  destruct (f a) eqn:E.
  - intros H. injection H as <-.
    split; [lia|]. split; [exact E|]. intros j Hj. lia.
  - intros H. apply IH in H. destruct H as (Hr & Hf & Hfirst).
    split; [lia|]. split; [exact Hf|].
    intros j Hj. destruct (Nat.eq_dec j a) as [->|Hne]; [exact E|].
    apply Hfirst. lia.
Qed.

Lemma find_seq_none (f : nat -> bool) (a n : nat) :
  find f (seq a n) = None <-> forall j, (a <= j < a + n)%nat -> f j = false.
Proof.
  revert a. induction n as [|n IH]; intros a; simpl.
  - split; [intros _ j Hj; lia | reflexivity].
  - destruct (f a) eqn:E.
    + split; [discriminate|]. intros H. rewrite H in E by lia. discriminate.
    + rewrite IH. split; intros H j Hj.
      * destruct (Nat.eq_dec j a) as [->|Hne]; [exact E | apply H; lia].
      * apply H. lia.
Qed.

Lemma is_first_max_unique (l : list Q) (a b : nat) :
  is_first_max l a -> is_first_max l b -> a = b.
Proof.
  intros (Ha & Hamax & Hafirst) (Hb & Hbmax & Hbfirst).
  destruct (Nat.lt_trichotomy a b) as [H|[H|H]]; [|exact H|].
  - exfalso. apply (Qlt_not_le _ _ (Hbfirst a H)). apply Hamax. exact Hb.
  - exfalso. apply (Qlt_not_le _ _ (Hafirst b H)). apply Hbmax. exact Ha.
Qed.

(** The shape of [detect_fracture_point] once the length guard has passed. *)
Lemma detect_long_curve (cfg : Config) (strain stress : list Q) :
  (min_points cfg + 10 <= length stress)%nat ->
  exists m,
    is_first_max stress m
    /\ detect_fracture_point cfg strain stress
       = Ret (if stop_max_stress cfg then Some m
              else find (fun i => Qltb (nth i stress 0)
                                       (drop_level cfg (nth m stress 0)))
                        (range m (length stress - min_points cfg))).
Proof.
  intros Hlen. unfold detect_fracture_point.
  destruct (Nat.ltb_spec (length stress) (min_points cfg + 10)) as [|_]; [lia|].
  destruct stress as [|x r]; [simpl in Hlen; lia|].
  exists (argmax_from 0 x 1 r). split; [apply argmax_first_max|].
  unfold argmax, py_bind, drop_level.
  destruct (stop_max_stress cfg); reflexivity.
Qed.

Lemma detect_short_curve (cfg : Config) (strain stress : list Q) :
  (length stress < min_points cfg + 10)%nat ->
  detect_fracture_point cfg strain stress = Ret None.
Proof.
  intros Hlen. unfold detect_fracture_point.
  destruct (Nat.ltb_spec (length stress) (min_points cfg + 10)); [reflexivity | lia].
Qed.

Lemma drop_mode_index (cfg : Config) (strain stress : list Q) (i m : nat) :
  stop_max_stress cfg = false ->
  is_first_max stress m ->
  detect_fracture_point cfg strain stress = Ret (Some i) ->
  (m <= i)%nat /\ nth i stress 0 < drop_level cfg (nth m stress 0).
Proof.
  intros Hstop Hm H.
  destruct (Nat.lt_ge_cases (length stress) (min_points cfg + 10)) as [Hs|Hl].
  { rewrite detect_short_curve in H by exact Hs. discriminate. }
  destruct (detect_long_curve cfg strain stress Hl) as (m' & Hm' & Hd).
  rewrite (is_first_max_unique stress m' m Hm' Hm) in Hd.
  rewrite Hd, Hstop in H. injection H as H. unfold range in H.
  apply find_seq_some in H. destruct H as (Hr & Hf & _).
  split; [lia | apply Qltb_lt; exact Hf].
Qed.

(** [detect_fracture_point] is the instance at the exact product. *)
Lemma detect_fracture_point_exact_level (cfg : Config) (strain stress : list Q) :
  detect_fracture_point cfg strain stress
  = detect_fracture_point_with (fun m t => m * (1 - t)) cfg strain stress.
Proof. reflexivity. Qed.

Lemma detect_long_curve_with (level_of : Q -> Q -> Q) (cfg : Config)
  (strain stress : list Q) :
  (min_points cfg + 10 <= length stress)%nat ->
  exists m,
    is_first_max stress m
    /\ detect_fracture_point_with level_of cfg strain stress
       = Ret (if stop_max_stress cfg then Some m
              else find (fun i => Qltb (nth i stress 0)
                                       (level_of (nth m stress 0)
                                                 (drop_threshold cfg)))
                        (range m (length stress - min_points cfg))).
Proof.
  intros Hlen. unfold detect_fracture_point_with.
  destruct (Nat.ltb_spec (length stress) (min_points cfg + 10)) as [|_]; [lia|].
  destruct stress as [|x r]; [simpl in Hlen; lia|].
  exists (argmax_from 0 x 1 r). split; [apply argmax_first_max|].
  unfold argmax, py_bind.
  destruct (stop_max_stress cfg); reflexivity.
Qed.

Lemma detect_short_curve_with (level_of : Q -> Q -> Q) (cfg : Config)
  (strain stress : list Q) :
  (length stress < min_points cfg + 10)%nat ->
  detect_fracture_point_with level_of cfg strain stress = Ret None.
Proof.
  intros Hlen. unfold detect_fracture_point_with.
  destruct (Nat.ltb_spec (length stress) (min_points cfg + 10)); [reflexivity | lia].
Qed.

(** X1: whatever value [level] the program computes for
    [max_stress * (1 - drop_threshold)], in drop-threshold mode a returned
    index is never before the index of the largest stress, stays below
    [len - min_points], is the first index from the peak on whose stress is
    under [level], and the curve has at least [min_points + 10] samples. *)
Theorem drop_mode_returns_first_sample_under_level
  (level_of : Q -> Q -> Q) (cfg : Config) (strain stress : list Q) (i : nat) :
  stop_max_stress cfg = false ->
  detect_fracture_point_with level_of cfg strain stress = Ret (Some i) ->
  (min_points cfg + 10 <= length stress)%nat
  /\ exists m,
       let level := level_of (nth m stress 0) (drop_threshold cfg) in
       is_first_max stress m
       /\ (m <= i < length stress - min_points cfg)%nat
       /\ nth i stress 0 < level
       /\ forall j, (m <= j < i)%nat -> level <= nth j stress 0.
Proof.
  intros Hstop H.
  destruct (Nat.lt_ge_cases (length stress) (min_points cfg + 10)) as [Hs|Hl].
  { rewrite detect_short_curve_with in H by exact Hs. discriminate. }
  split; [exact Hl|].
  destruct (detect_long_curve_with level_of cfg strain stress Hl) as (m & Hm & Hd).
  rewrite Hd, Hstop in H. injection H as H. unfold range in H.
  apply find_seq_some in H. destruct H as (Hr & Hf & Hfirst).
  destruct Hm as (Hmlt & Hmax & Hmfirst).
  exists m. cbv zeta. split; [repeat split; assumption|].
  split; [lia|]. split; [apply Qltb_lt; exact Hf|].
  intros j Hj. apply Qltb_ge. apply Hfirst. exact Hj.
Qed.

Lemma drop_mode_returns_first_sample_under_level_witness :
  (min_points cfg_drop_half + 10 <= length stress_e2e)%nat
  /\ exists m,
       let level := nth m stress_e2e 0 * (1 - drop_threshold cfg_drop_half) in
       is_first_max stress_e2e m
       /\ (m <= 5 < length stress_e2e - min_points cfg_drop_half)%nat
       /\ nth 5 stress_e2e 0 < level
       /\ forall j, (m <= j < 5)%nat -> level <= nth j stress_e2e 0.
Proof.
  apply (drop_mode_returns_first_sample_under_level (fun m t => m * (1 - t))
           cfg_drop_half strain_e2e).
  - reflexivity.
  - reflexivity.
Defined.

Lemma detect_never_raises (cfg : Config) (strain stress : list Q) :
  exists o, detect_fracture_point cfg strain stress = Ret o.
Proof.
  destruct (Nat.lt_ge_cases (length stress) (min_points cfg + 10)) as [Hs|Hl].
  - rewrite detect_short_curve by exact Hs. eexists. reflexivity.
  - destruct (detect_long_curve cfg strain stress Hl) as (m & _ & Hd).
    rewrite Hd. eexists. reflexivity.
Qed.

(** X2: whatever value [level] the program computes for
    [max_stress * (1 - drop_threshold)], fracture detection never raises,
    and it answers "no fracture" exactly when the curve has fewer than
    [min_points + 10] samples or, in drop-threshold mode, no sample from the
    peak up to [len - min_points] is under [level]. *)
Theorem no_fracture_iff_short_or_never_under_level
  (level_of : Q -> Q -> Q) (cfg : Config) (strain stress : list Q) :
  (exists o, detect_fracture_point_with level_of cfg strain stress = Ret o)
  /\ (detect_fracture_point_with level_of cfg strain stress = Ret None
      <-> (length stress < min_points cfg + 10)%nat
          \/ (stop_max_stress cfg = false
              /\ exists m,
                   is_first_max stress m
                   /\ forall j, (m <= j < length stress - min_points cfg)%nat ->
                                level_of (nth m stress 0) (drop_threshold cfg)
                                <= nth j stress 0)).
Proof.
  destruct (Nat.lt_ge_cases (length stress) (min_points cfg + 10)) as [Hs|Hl].
  { rewrite detect_short_curve_with by exact Hs. split; [eexists; reflexivity|].
    split; [intros _; left; exact Hs | reflexivity]. }
  destruct (detect_long_curve_with level_of cfg strain stress Hl) as (m & Hm & Hd).
  rewrite Hd. split; [eexists; reflexivity|].
  destruct (stop_max_stress cfg).
  - split; [discriminate|]. intros [H|(H & _)]; [lia | discriminate].
  - unfold range. split.
    + intros H. injection H as H. right. split; [reflexivity|].
      exists m. split; [exact Hm|].
      intros j Hj. apply Qltb_ge.
      apply (proj1 (find_seq_none _ _ _) H). lia.
    + intros [H|(_ & m' & Hm' & H)]; [lia|].
      rewrite (is_first_max_unique stress m' m Hm' Hm) in H.
      f_equal. apply find_seq_none. intros j Hj.
      apply Qltb_ge. apply H. lia.
Qed.

(** X3: with a non-negative peak stress and a non-negative drop threshold,
    a fracture found in drop-threshold mode lies strictly after the peak. *)
Theorem fracture_strictly_after_non_negative_peak
  (cfg : Config) (strain stress : list Q) (i m : nat) :
  stop_max_stress cfg = false ->
  0 <= drop_threshold cfg ->
  is_first_max stress m ->
  0 <= nth m stress 0 ->
  detect_fracture_point cfg strain stress = Ret (Some i) ->
  (m < i)%nat.
Proof.
  intros Hstop Hthr Hm Hpeak H.
  destruct (drop_mode_index cfg strain stress i m Hstop Hm H) as (Hr & Hunder).
  destruct (Nat.eq_dec i m) as [->|Hne]; [|lia].
  exfalso. unfold drop_level in Hunder.
  set (s := nth m stress 0) in *. set (t := drop_threshold cfg) in *.
  assert (0 <= s * t) by (apply Qmult_le_0_compat; assumption).
  Lqa.lra.
Qed.

Lemma fracture_strictly_after_non_negative_peak_witness : (3 < 5)%nat.
Proof.
  apply (fracture_strictly_after_non_negative_peak cfg_drop_half strain_e2e
           stress_e2e 5 3).
  - reflexivity.
  - vm_compute. discriminate.
  - exact (argmax_first_max 0 (tl stress_e2e)).
  - vm_compute. discriminate.
  - reflexivity.
Defined.

End FractureFacts.

Section TrimFacts.

Import Curve.
Local Open Scope Q_scope.

Lemma first_min_snoc_new (pre : list Q) (bi : nat) (a : Q) :
  is_first_min pre bi -> a < nth bi pre 0 ->
  is_first_min (pre ++ [a]) (length pre).
Proof.
  intros (Hlt & Hmin & Hfirst) Ha.
  unfold is_first_min. rewrite length_app, nth_snoc_last. simpl.
  split; [lia | split].
  - intros j Hj. destruct (Nat.eq_dec j (length pre)) as [->|Hne].
    + rewrite nth_snoc_last. apply Qle_refl.
    + rewrite app_nth1 by lia. apply Qlt_le_weak.
      apply Qlt_le_trans with (nth bi pre 0); [exact Ha | apply Hmin; lia].
  - intros j Hj. rewrite app_nth1 by lia.
    apply Qlt_le_trans with (nth bi pre 0); [exact Ha | apply Hmin; lia].
Qed.

Lemma first_min_snoc_keep (pre : list Q) (bi : nat) (a : Q) :
  is_first_min pre bi -> nth bi pre 0 <= a ->
  is_first_min (pre ++ [a]) bi.
Proof.
  intros (Hlt & Hmin & Hfirst) Ha.
  unfold is_first_min. rewrite length_app. simpl.
  rewrite (app_nth1 pre [a] 0 Hlt).
  split; [lia | split].
  - intros j Hj. destruct (Nat.eq_dec j (length pre)) as [->|Hne].
    + rewrite nth_snoc_last. exact Ha.
    + rewrite app_nth1 by lia. apply Hmin. lia.
  - intros j Hj. rewrite app_nth1 by lia. apply Hfirst. exact Hj.
Qed.

Lemma argmin_from_first_min (l pre : list Q) (bi : nat) :
  is_first_min pre bi ->
  is_first_min (pre ++ l) (argmin_from bi (nth bi pre 0) (length pre) l).
Proof.
  revert pre bi. induction l as [|a l IH]; intros pre bi H.
  - simpl. rewrite app_nil_r. exact H.
  - simpl. destruct (Qltb a (nth bi pre 0)) eqn:E.
    + apply Qltb_lt in E.
      pose proof (IH (pre ++ [a]) (length pre) (first_min_snoc_new pre bi a H E)) as IH'.
      rewrite nth_snoc_last, length_app, <- app_assoc in IH'. simpl in IH'.
      rewrite Nat.add_1_r in IH'. exact IH'.
    + apply Qltb_ge in E.
      pose proof (IH (pre ++ [a]) bi (first_min_snoc_keep pre bi a H E)) as IH'.
      destruct H as (Hlt & _).
      rewrite (app_nth1 pre [a] 0 Hlt), length_app, <- app_assoc in IH'.
      simpl in IH'. rewrite Nat.add_1_r in IH'. exact IH'.
Qed.

Lemma argmin_first_min (l : list Q) (z : nat) :
  argmin l = Ret z -> is_first_min l z.
Proof.
  destruct l as [|x r]; simpl; [discriminate|].
  intros H. injection H as <-.
  apply (argmin_from_first_min r [x] 0).
  unfold is_first_min. simpl. split; [lia | split].
  - intros j Hj. assert (j = 0)%nat as -> by lia. apply Qle_refl.
  - intros j Hj. lia.
Qed.

Lemma argmin_returns (l : list Q) :
  l <> [] -> exists z, argmin l = Ret z.
Proof. destruct l; [contradiction|]. intros _. eexists. reflexivity. Qed.

Lemma fold_min_spec (r : list Q) (x : Q) :
  let m := fold_left Qmin' r x in
  (m = x \/ In m r) /\ m <= x /\ forall y, In y r -> m <= y.
Proof.
  revert x. induction r as [|a r IH]; intros x; simpl.
  - split; [left; reflexivity|]. split; [apply Qle_refl | intros y []].
  - destruct (IH (Qmin' x a)) as (Hin & Hle & Hall).
    assert (Hmin : Qmin' x a <= x /\ Qmin' x a <= a /\ (Qmin' x a = x \/ Qmin' x a = a)).
    { unfold Qmin'. destruct (Qltb a x) eqn:E.
      - apply Qltb_lt in E. split; [apply Qlt_le_weak; exact E|].
        split; [apply Qle_refl | right; reflexivity].
      - apply Qltb_ge in E. split; [apply Qle_refl|].
        split; [exact E | left; reflexivity]. }
    destruct Hmin as (Hx & Ha & Hor).
    split; [|split].
    + destruct Hin as [Hin|Hin]; [|right; right; exact Hin].
      rewrite Hin. destruct Hor as [->| ->]; [left; reflexivity | right; left; reflexivity].
    + apply Qle_trans with (Qmin' x a); assumption.
    + intros y [<-|Hy]; [apply Qle_trans with (Qmin' x a); assumption | apply Hall; exact Hy].
Qed.

Lemma fold_max_spec (r : list Q) (x : Q) :
  let m := fold_left Qmax' r x in
  (m = x \/ In m r) /\ x <= m /\ forall y, In y r -> y <= m.
Proof.
  revert x. induction r as [|a r IH]; intros x; simpl.
  - split; [left; reflexivity|]. split; [apply Qle_refl | intros y []].
  - destruct (IH (Qmax' x a)) as (Hin & Hle & Hall).
    assert (Hmax : x <= Qmax' x a /\ a <= Qmax' x a /\ (Qmax' x a = x \/ Qmax' x a = a)).
    { unfold Qmax'. destruct (Qltb x a) eqn:E.
      - apply Qltb_lt in E. split; [apply Qlt_le_weak; exact E|].
        split; [apply Qle_refl | right; reflexivity].
      - apply Qltb_ge in E. split; [apply Qle_refl|].
        split; [exact E | left; reflexivity]. }
    destruct Hmax as (Hx & Ha & Hor).
    split; [|split].
    + destruct Hin as [Hin|Hin]; [|right; right; exact Hin].
      rewrite Hin. destruct Hor as [->| ->]; [left; reflexivity | right; left; reflexivity].
    + apply Qle_trans with (Qmax' x a); assumption.
    + intros y [<-|Hy]; [apply Qle_trans with (Qmax' x a); assumption | apply Hall; exact Hy].
Qed.

Lemma arr_min_max_range (l : list Q) (lo hi : Q) :
  arr_min l = Ret lo -> arr_max l = Ret hi -> is_range l lo hi.
Proof.
  destruct l as [|x r]; simpl; [discriminate|].
  intros Hlo Hhi. injection Hlo as <-. injection Hhi as <-.
  destruct (fold_min_spec r x) as (Hin & Hle & Hall).
  destruct (fold_max_spec r x) as (Hin' & Hle' & Hall').
  unfold is_range. simpl. split; [|split].
  - destruct Hin as [->|H]; [left; reflexivity | right; exact H].
  - destruct Hin' as [->|H]; [left; reflexivity | right; exact H].
  - intros y [<-|Hy]; split; auto.
Qed.

Lemma arr_min_returns (l : list Q) : l <> [] -> exists lo, arr_min l = Ret lo.
Proof. destruct l; [contradiction|]. intros _. eexists. reflexivity. Qed.

Lemma arr_max_returns (l : list Q) : l <> [] -> exists hi, arr_max l = Ret hi.
Proof. destruct l; [contradiction|]. intros _. eexists. reflexivity. Qed.

(** What a successful call of [trim_curve_to_fracture] has computed. *)
Lemma trim_success (cfg : Config) (strain stress ts tt : list Q) (info : TrimInfo) :
  trim_curve_to_fracture cfg strain stress = Ret (Some (ts, tt, info)) ->
  exists z frac lo hi tlo thi,
    argmin (map Qabs strain) = Ret z
    /\ detect_fracture_point cfg strain stress = Ret frac
    /\ ts = slice strain z (match frac with None => length strain | Some i => i end)
    /\ tt = slice stress z (match frac with None => length strain | Some i => i end)
    /\ arr_min ts = Ret lo /\ arr_max ts = Ret hi
    /\ arr_min tt = Ret tlo /\ arr_max tt = Ret thi
    /\ info = {| original_points := length strain;
                 trimmed_points := length ts;
                 zero_strain_idx := z;
                 fracture_idx := frac;
                 fracture_detected := match frac with None => false | Some _ => true end;
                 strain_range := (lo, hi);
                 stress_range := (tlo, thi);
                 max_stress := if (0 <? length tt)%nat then thi else 0 |}.
Proof.
  unfold trim_curve_to_fracture.
  destruct ((length strain =? 0)%nat || (length stress =? 0)%nat); [discriminate|].
  destruct (argmin (map Qabs strain)) as [z|]; simpl; [|discriminate].
  destruct (detect_fracture_point cfg strain stress) as [frac|]; simpl; [|discriminate].
  set (e := match frac with None => length strain | Some i => i end).
  destruct (arr_min (slice strain z e)) as [lo|] eqn:Hlo; simpl; [|discriminate].
  destruct (arr_max (slice strain z e)) as [hi|] eqn:Hhi; simpl; [|discriminate].
  destruct (arr_min (slice stress z e)) as [tlo|] eqn:Htlo; simpl; [|discriminate].
  destruct (arr_max (slice stress z e)) as [thi|] eqn:Hthi; simpl; [|discriminate].
  intros H. injection H as <- <- <-.
  exists z, frac, lo, hi, tlo, thi. repeat split; assumption.
Qed.

Lemma arr_min_nonempty (l : list Q) (lo : Q) :
  arr_min l = Ret lo -> (1 <= length l)%nat.
Proof. destruct l; simpl; [discriminate | lia]. Qed.

(** X4: a successful trim keeps between one point and all points: the
    trimmed arrays are the slices [zero_strain_idx : end] of the inputs with
    [end] the fracture index, or the length when no fracture was found;
    [fracture_detected] says whether an index was found, and a found index
    lies strictly after the zero-strain index. *)
Theorem trim_keeps_a_non_empty_slice
  (cfg : Config) (strain stress ts tt : list Q) (info : TrimInfo) :
  trim_curve_to_fracture cfg strain stress = Ret (Some (ts, tt, info)) ->
  let end_idx := match fracture_idx info with
                 | None => length strain
                 | Some i => i
                 end in
  detect_fracture_point cfg strain stress = Ret (fracture_idx info)
  /\ ts = slice strain (zero_strain_idx info) end_idx
  /\ tt = slice stress (zero_strain_idx info) end_idx
  /\ original_points info = length strain
  /\ trimmed_points info = length ts
  /\ (1 <= trimmed_points info <= original_points info)%nat
  /\ (1 <= length tt)%nat
  /\ (zero_strain_idx info < end_idx)%nat
  /\ (fracture_detected info = true <-> fracture_idx info <> None).
Proof.
  intros H. apply trim_success in H.
  destruct H as (z & frac & lo & hi & tlo & thi & Hz & Hd & Hts & Htt
                 & Hlo & Hhi & Htlo & Hthi & ->).
  simpl. apply arr_min_nonempty in Hlo. apply arr_min_nonempty in Htlo.
  assert (Hlen : length ts
                 = (Nat.min (match frac with None => length strain | Some i => i end)
                            (length strain) - z)%nat)
    by (rewrite Hts; apply length_slice).
  split; [exact Hd|]. split; [exact Hts|]. split; [exact Htt|].
  split; [reflexivity|]. split; [reflexivity|].
  split; [lia|]. split; [exact Htlo|]. split; [lia|].
  destruct frac; split; intros H; try discriminate; try reflexivity.
  contradiction.
Qed.

Lemma trim_keeps_a_non_empty_slice_witness :
  exists info,
    trim_curve_to_fracture cfg_drop_half strain_e2e stress_e2e
    = Ret (Some (firstn 5 strain_e2e, firstn 5 stress_e2e, info))
    /\ (1 <= trimmed_points info <= original_points info)%nat
    /\ (zero_strain_idx info < 5)%nat.
Proof.
  eexists. split; [vm_compute; reflexivity|].
  pose proof (trim_keeps_a_non_empty_slice cfg_drop_half strain_e2e stress_e2e
                _ _ _ eq_refl) as H.
  simpl in H. destruct H as (_ & _ & _ & _ & _ & Hb & _ & Hz & _).
  split; [exact Hb | exact Hz].
Defined.

(** X5: the zero-strain index of a successful trim is the first index at
    which the absolute strain is smallest. *)
Theorem zero_strain_idx_is_first_smallest_abs_strain
  (cfg : Config) (strain stress ts tt : list Q) (info : TrimInfo) :
  trim_curve_to_fracture cfg strain stress = Ret (Some (ts, tt, info)) ->
  is_first_min (map Qabs strain) (zero_strain_idx info).
Proof.
  intros H. apply trim_success in H.
  destruct H as (z & frac & lo & hi & tlo & thi & Hz & _ & _ & _ & _ & _ & _ & _ & ->).
  simpl. apply argmin_first_min. exact Hz.
Qed.

Lemma zero_strain_idx_is_first_smallest_abs_strain_witness :
  is_first_min (map Qabs [3; -1; 1; 2; 5]) 1.
Proof.
  apply (zero_strain_idx_is_first_smallest_abs_strain cfg_drop_half
           [3; -1; 1; 2; 5] [0; 1; 2; 3; 4] [-1; 1; 2; 5] [1; 2; 3; 4]
           {| original_points := 5;
              trimmed_points := 4;
              zero_strain_idx := 1;
              fracture_idx := None;
              fracture_detected := false;
              strain_range := (-1, 5);
              stress_range := (1, 4);
              max_stress := 4 |}).
  vm_compute. reflexivity.
Defined.

(** X6: the ranges reported by a successful trim are the smallest and the
    largest value of the trimmed strain and of the trimmed stress, and
    [max_stress] is that largest trimmed stress. *)
Theorem trim_ranges_are_min_and_max
  (cfg : Config) (strain stress ts tt : list Q) (info : TrimInfo) :
  trim_curve_to_fracture cfg strain stress = Ret (Some (ts, tt, info)) ->
  is_range ts (fst (strain_range info)) (snd (strain_range info))
  /\ is_range tt (fst (stress_range info)) (snd (stress_range info))
  /\ max_stress info = snd (stress_range info).
Proof.
  intros H. apply trim_success in H.
  destruct H as (z & frac & lo & hi & tlo & thi & _ & _ & _ & _
                 & Hlo & Hhi & Htlo & Hthi & ->).
  simpl. split; [apply arr_min_max_range; assumption|].
  split; [apply arr_min_max_range; assumption|].
  apply arr_min_nonempty in Htlo.
  destruct (Nat.ltb_spec 0 (length tt)); [reflexivity | lia].
Qed.

Lemma trim_ranges_are_min_and_max_witness :
  is_range (firstn 5 stress_e2e) 0 30.
Proof.
  pose proof (trim_ranges_are_min_and_max cfg_drop_half strain_e2e stress_e2e
                _ _ _ eq_refl) as (_ & H & _).
  exact H.
Defined.

Lemma slice_not_nil {A : Type} (l : list A) (a b : nat) :
  (a < Nat.min b (length l))%nat -> slice l a b <> [].
Proof.
  intros H Hnil. apply (f_equal (@length A)) in Hnil.
  rewrite length_slice in Hnil. simpl in Hnil. lia.
Qed.

Lemma slice_nil {A : Type} (l : list A) (a b : nat) :
  (Nat.min b (length l) <= a)%nat -> slice l a b = [].
Proof.
  intros H. apply length_zero_iff_nil. rewrite length_slice. lia.
Qed.

(** The two ways a trim of a non-empty curve ends. *)
Lemma trim_cases (cfg : Config) (strain stress : list Q) :
  length strain = length stress -> strain <> [] ->
  exists z frac,
    is_first_min (map Qabs strain) z
    /\ detect_fracture_point cfg strain stress = Ret frac
    /\ let end_idx := match frac with None => length strain | Some i => i end in
       ((z < end_idx)%nat ->
        exists info,
          trim_curve_to_fracture cfg strain stress
          = Ret (Some (slice strain z end_idx, slice stress z end_idx, info)))
       /\ ((end_idx <= z)%nat ->
           trim_curve_to_fracture cfg strain stress = Raise ValueError).
Proof.
  intros Hlen Hne.
  destruct (argmin_returns (map Qabs strain)) as (z & Hz).
  { destruct strain; [contradiction | discriminate]. }
  pose proof (argmin_first_min _ _ Hz) as Hfirst.
  destruct (detect_never_raises cfg strain stress) as (frac & Hd).
  exists z, frac. split; [exact Hfirst|]. split; [exact Hd|].
  destruct Hfirst as (Hzlt & _). rewrite length_map in Hzlt.
  assert (Hguard : ((length strain =? 0)%nat || (length stress =? 0)%nat) = false).
  { rewrite <- Hlen. destruct strain; [contradiction | reflexivity]. }
  unfold trim_curve_to_fracture. rewrite Hguard, Hz, Hd.
  cbn [py_bind].
  set (e := match frac with None => length strain | Some i => i end).
  split; intros He.
  - destruct (arr_min_returns (slice strain z e)) as (lo & Hlo);
      [apply slice_not_nil; lia|].
    destruct (arr_max_returns (slice strain z e)) as (hi & Hhi);
      [apply slice_not_nil; lia|].
    destruct (arr_min_returns (slice stress z e)) as (tlo & Htlo);
      [apply slice_not_nil; lia|].
    destruct (arr_max_returns (slice stress z e)) as (thi & Hthi);
      [apply slice_not_nil; lia|].
    rewrite Hlo, Hhi, Htlo, Hthi. cbn [py_bind]. eexists. reflexivity.
  - rewrite (slice_nil strain z e) by lia. reflexivity.
Qed.

(** X7: extraction returns nothing in exactly two cases: no index holds
    both a strain and a stress value, or a fracture index was found and it
    is not after the zero-strain index (the trimmed slice is then empty and
    the [ValueError] of its [min()] is swallowed). *)
Theorem extraction_fails_iff_no_pair_or_fracture_not_after_zero
  (cfg : Config) (experiment : Experiment) :
  let strain_clean := fst (clean_pairs (EngineeringStrain experiment)
                                       (EngineeringStress experiment)) in
  let stress_clean := snd (clean_pairs (EngineeringStrain experiment)
                                       (EngineeringStress experiment)) in
  extract_stress_strain_data cfg experiment = None
  <-> strain_clean = []
      \/ exists f z,
           detect_fracture_point cfg strain_clean stress_clean = Ret (Some f)
           /\ is_first_min (map Qabs strain_clean) z
           /\ (f <= z)%nat.
Proof.
  intros strain_clean stress_clean.
  pose proof (clean_pairs_same_length (EngineeringStrain experiment)
                                      (EngineeringStress experiment)) as Hsame.
  fold strain_clean stress_clean in Hsame.
  unfold extract_stress_strain_data.
  destruct (clean_pairs (EngineeringStrain experiment) (EngineeringStress experiment))
    as [sc tc] eqn:Hclean.
  simpl in strain_clean, stress_clean. subst strain_clean stress_clean.
  destruct sc as [|x sc'].
  { simpl. split; [intros _; left; reflexivity | reflexivity]. }
  set (sc := x :: sc') in *.
  assert (Hguard : ((length sc =? 0)%nat || (length tc =? 0)%nat) = false).
  { rewrite <- Hsame. reflexivity. }
  rewrite Hguard.
  destruct (trim_cases cfg sc tc Hsame) as (z & frac & Hz & Hd & Hok & Hbad);
    [discriminate|].
  destruct (Nat.lt_ge_cases z (match frac with None => length sc | Some i => i end))
    as [Hlt|Hge].
  - destruct (Hok Hlt) as (info & ->). split; [discriminate|].
    intros [H|(f & z' & Hd' & Hz' & Hle)]; [discriminate|].
    exfalso. rewrite Hd in Hd'. injection Hd' as ->.
    assert (z' = z).
    { destruct Hz as (Ha & Hamin & Hafirst). destruct Hz' as (Hb & Hbmin & Hbfirst).
      destruct (Nat.lt_trichotomy z' z) as [H|[H|H]]; [|exact H|].
      - exfalso. apply (Qlt_not_le _ _ (Hafirst z' H)). apply Hbmin. exact Ha.
      - exfalso. apply (Qlt_not_le _ _ (Hbfirst z H)). apply Hamin. exact Hb. }
    subst z'. lia.
  - rewrite (Hbad Hge). split; [|reflexivity]. intros _. right.
    destruct frac as [f|].
    + exists f, z. split; [exact Hd|]. split; [exact Hz | exact Hge].
    + exfalso. destruct Hz as (Hzlt & _). rewrite length_map in Hzlt. lia.
Qed.

(** X8: the redundant fields of a record agree with its trim
    information: [data_points] is [trimmed_points], the two ranges are the
    trim ranges, [max_stress] is the upper end of the stress range and
    [fracture_detected] is the trim flag; the record carries the id it was
    asked for. *)
Theorem record_agrees_with_trim_info
  (cfg : Config) (experiments : list (string * Experiment)) (id : string)
  (r : ExperimentRecord) :
  fit_polynomial_to_experiment cfg experiments id = Some r ->
  experiment_id r = id
  /\ data_points r = trimmed_points (trim_info r)
  /\ rec_strain_range r = strain_range (trim_info r)
  /\ rec_stress_range r = stress_range (trim_info r)
  /\ rec_max_stress r = snd (rec_stress_range r)
  /\ rec_fracture_detected r = fracture_detected (trim_info r)
  /\ (10 <= data_points r <= original_points (trim_info r))%nat.
Proof.
  unfold fit_polynomial_to_experiment, fit_polynomial_to_experiment_outcome.
  destruct (dict_get experiments id) as [experiment|]; [|discriminate].
  unfold extract_stress_strain_data.
  destruct (clean_pairs (EngineeringStrain experiment) (EngineeringStress experiment))
    as [sc tc].
  destruct ((length sc =? 0)%nat || (length tc =? 0)%nat); [discriminate|].
  destruct (trim_curve_to_fracture cfg sc tc) as [[[[ts tt] info]|]|] eqn:Htrim;
    try discriminate.
  destruct (Nat.ltb_spec (length ts) 10) as [|Hten]; [discriminate|].
  apply trim_success in Htrim.
  destruct Htrim as (z & frac & lo & hi & tlo & thi & _ & _ & Hts & _
                     & Hlo & Hhi & Htlo & Hthi & Hinfo).
  assert (Hb : (length ts <= length sc)%nat)
    by (rewrite Hts, length_slice; lia).
  unfold build_record.
  destruct (fit ts tt (polynomial_degree cfg)) as [cr|]; cbn [py_bind]; [|discriminate].
  rewrite Hlo, Hhi, Htlo, Hthi. cbn [py_bind].
  intros H. injection H as <-. cbn.
  rewrite Hinfo. cbn.
  apply arr_min_nonempty in Htlo.
  repeat split; try reflexivity; try lia.
  destruct (length tt); [lia | reflexivity].
Qed.

Lemma record_agrees_with_trim_info_witness :
  exists r,
    fit_polynomial_to_experiment cfg_drop_half
      [("flat"%string, experiment_flat)] "flat" = Some r
    /\ experiment_id r = "flat"%string
    /\ data_points r = trimmed_points (trim_info r).
Proof.
  eexists. split; [vm_compute; reflexivity|].
  pose proof (record_agrees_with_trim_info cfg_drop_half
                [("flat"%string, experiment_flat)] "flat" _ eq_refl)
    as (Hid & Hdp & _).
  split; [exact Hid | exact Hdp].
Defined.

End TrimFacts.

Section BatchFacts.

Import Curve.

Lemma process_fold (cfg : Config) (experiments : list (string * Experiment))
  (ids : list string) (acc : Batch) :
  let b := fold_left (process_one cfg experiments) ids acc in
  results b = results acc ++ records_of cfg experiments ids
  /\ processed b = (processed acc + length (records_of cfg experiments ids))%nat
  /\ (processed b + failed b = processed acc + failed acc + length ids)%nat.
Proof.
  revert acc. induction ids as [|id ids IH]; intros acc; simpl.
  - rewrite app_nil_r. repeat split; lia.
  - destruct (IH (process_one cfg experiments acc id)) as (Hr & Hp & Hf).
    unfold process_one in Hr, Hp, Hf |- *. unfold records_of in *. simpl.
    destruct (fit_polynomial_to_experiment cfg experiments id) as [r|];
      simpl in Hr, Hp, Hf |- *.
    + split; [rewrite Hr, <- app_assoc; reflexivity|]. split; lia.
    + split; [exact Hr|]. split; lia.
Qed.

Lemma record_has_id (cfg : Config) (experiments : list (string * Experiment))
  (id : string) (r : ExperimentRecord) :
  fit_polynomial_to_experiment cfg experiments id = Some r -> experiment_id r = id.
Proof.
  unfold fit_polynomial_to_experiment, fit_polynomial_to_experiment_outcome.
  destruct (dict_get experiments id) as [experiment|]; [|discriminate].
  destruct (extract_stress_strain_data cfg experiment)
    as [[[[strain stress] name] info]|]; [|discriminate].
  destruct (length strain <? 10)%nat; [discriminate|].
  unfold build_record.
  destruct (fit strain stress (polynomial_degree cfg)); cbn [py_bind]; [|discriminate].
  destruct (arr_min strain); cbn [py_bind]; [|discriminate].
  destruct (arr_max strain); cbn [py_bind]; [|discriminate].
  destruct (arr_min stress); cbn [py_bind]; [|discriminate].
  destruct (arr_max stress); cbn [py_bind]; [|discriminate].
  intros H. injection H as <-. reflexivity.
Qed.

Lemma records_of_ids (cfg : Config) (experiments : list (string * Experiment))
  (ids : list string) :
  map experiment_id (records_of cfg experiments ids)
  = filter (has_record cfg experiments) ids.
Proof.
  unfold records_of, has_record.
  induction ids as [|id ids IH]; simpl; [reflexivity|].
  destruct (fit_polynomial_to_experiment cfg experiments id) as [r|] eqn:E; simpl.
  - rewrite IH, (record_has_id cfg experiments id r E). reflexivity.
  - exact IH.
Qed.

Lemma in_records_of (cfg : Config) (experiments : list (string * Experiment))
  (ids : list string) (r : ExperimentRecord) :
  In r (records_of cfg experiments ids)
  <-> exists id, In id ids /\ fit_polynomial_to_experiment cfg experiments id = Some r.
Proof.
  unfold records_of. rewrite in_flat_map. split; intros (id & Hid & H); exists id;
    (split; [exact Hid|]).
  - destruct (fit_polynomial_to_experiment cfg experiments id) as [r'|];
      simpl in H; [|contradiction].
    destruct H as [->|[]]. reflexivity.
  - rewrite H. left. reflexivity.
Qed.

Lemma process_all_spec (cfg : Config) (max_experiments : option Z)
  (experiments : list (string * Experiment)) :
  let ids := capped_ids max_experiments (map fst experiments) in
  let b := process_all_experiments cfg max_experiments experiments in
  results b = records_of cfg experiments ids
  /\ processed b = length (records_of cfg experiments ids)
  /\ (processed b + failed b = length ids)%nat.
Proof.
  intros ids b. unfold b, process_all_experiments. fold ids.
  destruct (process_fold cfg experiments ids
              {| results := []; processed := 0; failed := 0 |}) as (Hr & Hp & Hf).
  simpl in Hr, Hp, Hf. repeat split; assumption.
Qed.

Lemma firstn_length_self {A : Type} (n : nat) (l : list A) :
  firstn n l = firstn (length (firstn n l)) l.
Proof.
  rewrite length_firstn.
  destruct (Nat.le_ge_cases n (length l)) as [H|H].
  - rewrite Nat.min_l by exact H. reflexivity.
  - rewrite Nat.min_r by exact H. rewrite firstn_all.
    apply firstn_all2. exact H.
Qed.

(** X10: the batch loop tries a prefix of the ids: the first
    [max_experiments] of them for a positive cap, all of them when the cap is
    absent or zero, and all but the last [-max_experiments] for a negative
    cap; successes and failures add up to the number tried; the returned list
    holds, in id order, exactly the records of the tried ids that gave
    one. *)
Theorem batch_counts_add_up
  (cfg : Config) (max_experiments : option Z)
  (experiments : list (string * Experiment)) :
  let b := process_all_experiments cfg max_experiments experiments in
  let ids := capped_ids max_experiments (map fst experiments) in
  ids = firstn (length ids) (map fst experiments)
  /\ length ids = match max_experiments with
                  | Some (Zpos p) => Nat.min (Pos.to_nat p) (length experiments)
                  | Some (Zneg p) => (length experiments - Pos.to_nat p)%nat
                  | _ => length experiments
                  end
  /\ (processed b + failed b = length ids)%nat
  /\ length (results b) = processed b
  /\ map experiment_id (results b) = filter (has_record cfg experiments) ids
  /\ forall r, In r (results b)
               <-> exists id, In id ids
                              /\ fit_polynomial_to_experiment cfg experiments id = Some r.
Proof.
  intros b ids.
  destruct (process_all_spec cfg max_experiments experiments) as (Hr & Hp & Hf).
  fold b ids in Hr, Hp, Hf.
  assert (Hlen : length ids
                 = match max_experiments with
                   | Some (Zpos p) => Nat.min (Pos.to_nat p) (length experiments)
                   | Some (Zneg p) => (length experiments - Pos.to_nat p)%nat
                   | _ => length experiments
                   end).
  { unfold ids, capped_ids. destruct max_experiments as [[|p|p]|];
      rewrite ?length_firstn, length_map; try reflexivity.
    apply Nat.min_l. lia. }
  split; [|split; [exact Hlen|split; [|split; [|split]]]].
  - unfold ids, capped_ids.
    destruct max_experiments as [[|p|p]|];
      first [apply firstn_length_self | symmetry; apply firstn_all].
  - exact Hf.
  - rewrite Hr, Hp. reflexivity.
  - rewrite Hr. apply records_of_ids.
  - intros r. rewrite Hr. apply in_records_of.
Qed.

Lemma dict_set_fresh {V : Type} (d : list (string * V)) (k : string) (v : V) :
  ~ In k (map fst d) -> dict_set d k v = d ++ [(k, v)].
Proof.
  induction d as [|kv d IH]; simpl; intros H; [reflexivity|].
  destruct (String.eqb_spec (fst kv) k) as [Heq|Hne]; [exfalso; apply H; left; exact Heq|].
  rewrite IH by (intros Hin; apply H; right; exact Hin). reflexivity.
Qed.

Lemma fold_dict_set_distinct {V : Type} (key : V -> string) (rs : list V)
  (d : list (string * V)) :
  NoDup (map fst d ++ map key rs) ->
  fold_left (fun d r => dict_set d (key r) r) rs d
  = d ++ map (fun r => (key r, r)) rs.
Proof.
  revert d. induction rs as [|r rs IH]; intros d Hnd; simpl.
  - rewrite app_nil_r. reflexivity.
  - rewrite dict_set_fresh.
    + rewrite IH; [rewrite <- app_assoc; reflexivity|].
      rewrite map_app. simpl. rewrite <- app_assoc. exact Hnd.
    + intros Hin. simpl in Hnd. apply NoDup_remove_2 in Hnd.
      apply Hnd. apply in_or_app. left. exact Hin.
Qed.

Lemma fold_dict_set_length {V : Type} (key : V -> string) (rs : list V)
  (d : list (string * V)) :
  (length (fold_left (fun d r => dict_set d (key r) r) rs d)
   <= length d + length rs)%nat.
Proof.
  revert d. induction rs as [|r rs IH]; intros d; simpl; [lia|].
  specialize (IH (dict_set d (key r) r)).
  assert (length (dict_set d (key r) r) <= S (length d))%nat.
  { clear IH. induction d as [|kv d IHd]; simpl; [lia|].
    destruct (String.eqb (fst kv) (key r)); simpl; lia. }
  lia.
Qed.

Lemma save_results_distinct (cfg : Config) (rs : list ExperimentRecord) :
  NoDup (map experiment_id rs) ->
  out_experiments (save_results cfg rs) = map (fun r => (experiment_id r, r)) rs
  /\ forall id r,
       dict_get (out_experiments (save_results cfg rs)) id = Some r
       <-> In r rs /\ experiment_id r = id.
Proof.
  intros Hnd.
  assert (Hout : out_experiments (save_results cfg rs)
                 = map (fun r => (experiment_id r, r)) rs).
  { apply (fold_dict_set_distinct experiment_id rs []). exact Hnd. }
  split; [exact Hout|].
  intros id r. rewrite Hout. split.
  - intros H. apply dict_get_in in H. apply in_map_iff in H.
    destruct H as (r' & Heq & Hin). injection Heq as <- <-.
    split; [exact Hin | reflexivity].
  - intros (Hin & <-). apply in_dict_get.
    + rewrite map_map. simpl. exact Hnd.
    + apply (in_map (fun r => (experiment_id r, r))). exact Hin.
Qed.

(** X11: the saved data never holds more entries than [total_experiments]
    says; when the records have pairwise different ids it holds them all, in
    order, each under its own id, and looking an id up gives back the record
    that was saved. *)
Theorem saved_records_are_found_under_their_id
  (cfg : Config) (rs : list ExperimentRecord) :
  let out := save_results cfg rs in
  total_experiments out = length rs
  /\ (length (out_experiments out) <= total_experiments out)%nat
  /\ (NoDup (map experiment_id rs) ->
      out_experiments out = map (fun r => (experiment_id r, r)) rs
      /\ forall id r,
           dict_get (out_experiments out) id = Some r
           <-> In r rs /\ experiment_id r = id).
Proof.
  intros out. split; [reflexivity|]. split.
  - apply (fold_dict_set_length experiment_id rs []).
  - apply save_results_distinct.
Qed.

Lemma NoDup_firstn {A : Type} (n : nat) (l : list A) :
  NoDup l -> NoDup (firstn n l).
Proof.
  intros H. rewrite <- (firstn_skipn n l) in H.
  apply NoDup_app_remove_r in H. exact H.
Qed.

(** X12: run on experiments with pairwise different keys, the batch
    followed by [save_results] reports as [total_experiments] the number of
    successes, and the saved dictionary binds an id to a record exactly when
    the id was tried and gave that record. *)
Theorem batch_then_save
  (cfg : Config) (max_experiments : option Z)
  (experiments : list (string * Experiment)) :
  NoDup (map fst experiments) ->
  let b := process_all_experiments cfg max_experiments experiments in
  let out := save_results cfg (results b) in
  total_experiments out = processed b
  /\ length (out_experiments out) = processed b
  /\ forall id r,
       dict_get (out_experiments out) id = Some r
       <-> In id (capped_ids max_experiments (map fst experiments))
           /\ fit_polynomial_to_experiment cfg experiments id = Some r.
Proof.
  intros Hkeys b out.
  destruct (process_all_spec cfg max_experiments experiments) as (Hr & Hp & _).
  fold b in Hr, Hp.
  set (ids := capped_ids max_experiments (map fst experiments)) in *.
  assert (Hnd : NoDup (map experiment_id (results b))).
  { rewrite Hr, records_of_ids. apply NoDup_filter. unfold ids, capped_ids.
    destruct max_experiments as [[|p|p]|]; try exact Hkeys;
      apply NoDup_firstn; exact Hkeys. }
  destruct (save_results_distinct cfg (results b) Hnd) as (Hout & Hget).
  fold out in Hout, Hget.
  split; [unfold out; simpl; rewrite Hr, Hp; reflexivity|].
  split; [rewrite Hout, length_map, Hr, Hp; reflexivity|].
  intros id r. rewrite Hget, Hr, in_records_of. split.
  - intros ((id' & Hid' & Hfit) & Heq).
    rewrite (record_has_id cfg experiments id' r Hfit) in Heq. subst id'.
    split; assumption.
  - intros (Hid & Hfit). split; [exists id; split; assumption|].
    apply (record_has_id cfg experiments id r Hfit).
Qed.

Lemma batch_then_save_witness :
  let experiments := [("flat"%string, experiment_flat);
                      ("e2e"%string, experiment_e2e)] in
  let b := process_all_experiments cfg_drop_half None experiments in
  total_experiments (save_results cfg_drop_half (results b)) = processed b
  /\ processed b = 1%nat /\ failed b = 1%nat.
Proof.
  intros experiments b.
  destruct (batch_then_save cfg_drop_half None experiments) as (Htot & _).
  - simpl. repeat constructor; simpl; intuition discriminate.
  - split; [exact Htot|]. split; vm_compute; reflexivity.
Defined.

End BatchFacts.

(** * Properties of the configuration merge *)

Section ConfigurationFacts.

Import Configuration.

Lemma dict_get_cons {V : Type} (k : string) (v : V) (d : list (string * V)) (k' : string) :
  dict_get ((k, v) :: d) k' = if String.eqb k k' then Some v else dict_get d k'.
Proof. unfold dict_get. simpl. destruct (String.eqb k k'); reflexivity. Qed.

Lemma dict_get_absent {V : Type} (d : list (string * V)) (k : string) :
  ~ In k (map fst d) -> dict_get d k = None.
Proof.
  intros H. destruct (dict_get d k) as [v|] eqn:E; [|reflexivity].
  exfalso. apply H. apply dict_get_in in E.
  apply (in_map fst) in E. exact E.
Qed.

Lemma merged_value_dicts (s d : list (string * json)) :
  merged_value (JDict s) (Some (JDict d)) = JDict (_merge_configs d s).
Proof. reflexivity. Qed.

Lemma merge_lookup (saved default : list (string * json)) (k : string) :
  NoDup (map fst saved) ->
  dict_get (_merge_configs default saved) k
  = match dict_get saved k with
    | None => dict_get default k
    | Some v => Some (merged_value v (dict_get default k))
    end.
Proof.
  unfold _merge_configs.
  revert default. induction saved as [|[key value] rest IH]; intros default Hnd.
  - reflexivity.
  - inversion Hnd as [|x xs Hnotin Hnd']; subst. simpl.
    rewrite IH by exact Hnd'. rewrite dict_get_cons.
    destruct (String.eqb_spec key k) as [<-|Hne].
    + rewrite (dict_get_absent rest key Hnotin). apply dict_get_set_same.
    + rewrite dict_get_set_other by exact Hne. reflexivity.
Qed.

(** X13: on a saved file without repeated keys, the merged configuration
    binds a key of the saved file to the saved value, or to the recursive
    merge when both sides hold a dictionary under it, and every other key
    to what the defaults bind it to. *)
Theorem merged_config_lookup (default saved : list (string * json)) (k : string) :
  NoDup (map fst saved) ->
  dict_get (_merge_configs default saved) k
  = match dict_get saved k with
    | None => dict_get default k
    | Some (JDict s) =>
        match dict_get default k with
        | Some (JDict d) => Some (JDict (_merge_configs d s))
        | _ => Some (JDict s)
        end
    | Some v => Some v
    end.
Proof.
  intros Hnd. rewrite merge_lookup by exact Hnd.
  destruct (dict_get saved k) as [v|]; [|reflexivity].
  destruct v; try reflexivity.
  destruct (dict_get default k) as [[| | | | |d0]|]; reflexivity.
Qed.

Lemma merged_config_lookup_witness :
  dict_get (_merge_configs DEFAULT_CONFIG saved_example) "output"
  = dict_get DEFAULT_CONFIG "output".
Proof.
  rewrite (merged_config_lookup DEFAULT_CONFIG saved_example "output").
  - reflexivity.
  - repeat constructor. simpl. intuition discriminate.
Defined.

(** X14: an option [config[section][key]] of the defaults is still there
    after the merge when the saved file has no such section (default value)
    or a dictionary under it (saved value if it sets the key, else default
    value); when the saved file binds the section to anything but a
    dictionary, the subscript fails. *)
Theorem default_option_after_merge
  (default saved d : list (string * json)) (section key : string) (v : json) :
  NoDup (map fst saved) ->
  dict_get default section = Some (JDict d) ->
  dict_get d key = Some v ->
  match dict_get saved section with
  | None => subscript2 (_merge_configs default saved) section key = Some v
  | Some (JDict s) =>
      NoDup (map fst s) ->
      subscript2 (_merge_configs default saved) section key
      = match dict_get s key with
        | None => Some v
        | Some v' => Some (merged_value v' (Some v))
        end
  | Some _ => subscript2 (_merge_configs default saved) section key = None
  end.
Proof.
  intros Hnd Hsec Hkey. unfold subscript2.
  rewrite merge_lookup by exact Hnd. rewrite Hsec.
  destruct (dict_get saved section) as [[| | | | |s]|]; try reflexivity.
  - intros Hnds. rewrite merged_value_dicts.
    rewrite merge_lookup by exact Hnds. rewrite Hkey.
    destruct (dict_get s key); reflexivity.
  - exact Hkey.
Qed.

Lemma default_option_after_merge_witness :
  subscript2 (_merge_configs DEFAULT_CONFIG saved_example)
             "fracture_detection" "min_points" = Some (JNumber 1)
  /\ subscript2 (_merge_configs DEFAULT_CONFIG saved_example)
                "fracture_detection" "drop_threshold" = Some (JNumber 0.5).
Proof.
  assert (Hnd : NoDup (map fst saved_example))
    by (repeat constructor; simpl; intuition discriminate).
  assert (Hnds : NoDup (map fst [("drop_threshold"%string, JNumber 0.5)]))
    by (repeat constructor; simpl; intuition discriminate).
  split.
  - exact (default_option_after_merge DEFAULT_CONFIG saved_example _
             "fracture_detection" "min_points" (JNumber 1) Hnd eq_refl eq_refl Hnds).
  - exact (default_option_after_merge DEFAULT_CONFIG saved_example _
             "fracture_detection" "drop_threshold" (JNumber 0.9) Hnd eq_refl eq_refl Hnds).
Defined.

End ConfigurationFacts.

(** * More properties of the outlier analysis *)

Section StatisticsMore.

Import Outliers.
Local Open Scope R_scope.

Lemma dropna_nil_iff (l : list fl) :
  dropna l = [] <-> forall c, In c l -> c = None.
Proof.
  induction l as [|c l IH]; simpl.
  - split; [intros _ c [] | reflexivity].
  - destruct c as [v|]; simpl.
    + split; [discriminate|]. intros H.
      specialize (H (Some v) (or_introl eq_refl)). discriminate.
    + rewrite IH. split; intros H.
      * intros c [<-|Hc]; [reflexivity | apply H; exact Hc].
      * intros c Hc. apply H. right. exact Hc.
Qed.

Lemma calculate_none_iff (group_df : list Row) (col : string) :
  calculate_statistics_for_group group_df col = None
  <-> forall r, In r group_df -> cell r col = None.
Proof.
  unfold calculate_statistics_for_group.
  destruct (Nat.eqb_spec (length (dropna (map (fun r => cell r col) group_df))) 0)
    as [Hz|Hnz].
  - apply length_zero_iff_nil in Hz. rewrite dropna_nil_iff in Hz.
    split; [|reflexivity]. intros _ r Hr.
    apply Hz. apply (in_map (fun r => cell r col)). exact Hr.
  - split; [discriminate|]. intros H. exfalso. apply Hnz.
    apply length_zero_iff_nil. apply dropna_nil_iff.
    intros c Hc. apply in_map_iff in Hc. destruct Hc as (r & <- & Hr).
    apply H. exact Hr.
Qed.

Section AnySortMore.

Variable sort_values : forall A : Type, (A -> fl) -> list A -> list A.
Hypothesis sort_ok : sort_contract sort_values.

(** X15: statistics are refused exactly when no row of the group has a
    value in the column; a column with a single value gets statistics with
    [count = 1] whose standard deviation and six band edges are all missing,
    and no row is then an outlier at any level. *)
Theorem statistics_of_empty_and_single_columns
  (group_df : list Row) (col : string) :
  (calculate_statistics_for_group group_df col = None
   <-> forall r, In r group_df -> cell r col = None)
  /\ (forall v, column_values group_df col = [v] ->
        exists st,
          calculate_statistics_for_group group_df col = Some st
          /\ count st = 1%nat /\ mean st = v /\ std st = None
          /\ (forall k, sigma_low st k = None /\ sigma_high st k = None)
          /\ forall k, find_outliers_in_group sort_values group_df col (Some st) k = []).
Proof.
  split; [apply calculate_none_iff|].
  intros v Hv. unfold column_values in Hv.
  assert (Hcalc : exists st, calculate_statistics_for_group group_df col = Some st).
  { destruct (calculate_statistics_for_group group_df col) as [st|] eqn:E;
      [exists st; reflexivity|].
    exfalso. unfold calculate_statistics_for_group in E. rewrite Hv in E.
    discriminate E. }
  destruct Hcalc as (st & Hcalc). exists st. split; [exact Hcalc|].
  destruct (calculate_fields group_df col st Hcalc) as (Hc & Hm & Hs & _).
  rewrite Hv in Hc, Hm, Hs.
  assert (Hstd : std st = None) by (rewrite Hs; reflexivity).
  assert (Hbands : forall k, sigma_low st k = None /\ sigma_high st k = None).
  { intros k. destruct (calculate_bands group_df col st k Hcalc) as (Hl & Hh).
    rewrite Hstd in Hl, Hh. split; assumption. }
  split; [exact Hc|]. split.
  { rewrite Hm. unfold series_mean, Rsum. simpl. field. }
  split; [exact Hstd|]. split; [exact Hbands|].
  intros k. destruct (Hbands k) as (Hl & Hh).
  unfold find_outliers_in_group, outlier_mask. rewrite Hl, Hh.
  rewrite filter_none; [reflexivity|].
  intros r _. unfold is_outlier, fl_lt.
  destruct (cell r col); reflexivity.
Qed.

End AnySortMore.

End StatisticsMore.

Section StatisticsBounds.

Import Outliers.
Local Open Scope R_scope.

Lemma fold_Rmin_spec (r : list R) (x : R) :
  let m := fold_left Rmin r x in
  In m (x :: r) /\ forall y, In y (x :: r) -> m <= y.
Proof.
  revert x. induction r as [|a r IH]; intros x; simpl.
  - split; [left; reflexivity|]. intros y [<-|[]]. lra.
  - destruct (IH (Rmin x a)) as (Hin & Hall). simpl in Hin, Hall.
    pose proof (Rmin_l x a). pose proof (Rmin_r x a).
    split.
    + destruct Hin as [Hin|Hin]; [|right; right; exact Hin].
      rewrite <- Hin. unfold Rmin. destruct (Rle_dec x a); [left | right; left]; reflexivity.
    + intros y [<-|[<-|Hy]].
      * apply Rle_trans with (Rmin x a); [apply Hall; left; reflexivity | assumption].
      * apply Rle_trans with (Rmin x a); [apply Hall; left; reflexivity | assumption].
      * apply Hall. right. exact Hy.
Qed.

Lemma fold_Rmax_spec (r : list R) (x : R) :
  let m := fold_left Rmax r x in
  In m (x :: r) /\ forall y, In y (x :: r) -> y <= m.
Proof.
  revert x. induction r as [|a r IH]; intros x; simpl.
  - split; [left; reflexivity|]. intros y [<-|[]]. lra.
  - destruct (IH (Rmax x a)) as (Hin & Hall). simpl in Hin, Hall.
    pose proof (Rmax_l x a). pose proof (Rmax_r x a).
    split.
    + destruct Hin as [Hin|Hin]; [|right; right; exact Hin].
      rewrite <- Hin. unfold Rmax. destruct (Rle_dec x a); [right; left | left]; reflexivity.
    + intros y [<-|[<-|Hy]].
      * apply Rle_trans with (Rmax x a); [assumption | apply Hall; left; reflexivity].
      * apply Rle_trans with (Rmax x a); [assumption | apply Hall; left; reflexivity].
      * apply Hall. right. exact Hy.
Qed.

Lemma Rinsert_perm (x : R) (l : list R) : Permutation (Rinsert x l) (x :: l).
Proof.
  induction l as [|y l IH]; simpl; [apply Permutation_refl|].
  destruct (Rle_dec x y); [apply Permutation_refl|].
  apply Permutation_trans with (y :: x :: l); [apply perm_skip; exact IH | apply perm_swap].
Qed.

Lemma Rsort_perm (l : list R) : Permutation (Rsort l) l.
Proof.
  unfold Rsort. induction l as [|x l IH]; simpl; [constructor|].
  apply Permutation_trans with (x :: fold_right Rinsert [] l);
    [apply Rinsert_perm | apply perm_skip; exact IH].
Qed.

Lemma nth_Rsort_in (l : list R) (i : nat) :
  (i < length l)%nat -> In (nth i (Rsort l) 0) l.
Proof.
  intros Hi. apply (Permutation_in _ (Rsort_perm l)).
  apply nth_In. rewrite (Permutation_length (Rsort_perm l)). exact Hi.
Qed.

(** X16: the reported [min] and [max] are values of the column and every
    value of the column lies between them; so does the reported [median],
    which for an odd number of values is itself a value of the column. *)
Theorem min_and_max_bound_the_column_and_its_median
  (group_df : list Row) (col : string) (st : Stats) :
  calculate_statistics_for_group group_df col = Some st ->
  exists lo hi med,
    min st = Some lo /\ max st = Some hi /\ median st = Some med
    /\ In lo (column_values group_df col)
    /\ In hi (column_values group_df col)
    /\ (forall v, In v (column_values group_df col) -> lo <= v <= hi)
    /\ lo <= med <= hi
    /\ (Nat.even (count st) = false -> In med (column_values group_df col)).
Proof.
  unfold calculate_statistics_for_group, column_values.
  set (values := dropna (map (fun r => cell r col) group_df)).
  destruct (Nat.eqb_spec (length values) 0) as [|Hn]; [discriminate|].
  intros H. injection H as <-. simpl.
  destruct values as [|x r] eqn:Hvals; [contradiction|].
  rewrite <- Hvals in *.
  destruct (fold_Rmin_spec r x) as (Hlo_in & Hlo).
  destruct (fold_Rmax_spec r x) as (Hhi_in & Hhi).
  set (lo := fold_left Rmin r x) in *. set (hi := fold_left Rmax r x) in *.
  assert (Hall : forall v, In v values -> lo <= v <= hi).
  { intros v Hv. rewrite Hvals in Hv. split; [apply Hlo | apply Hhi]; exact Hv. }
  assert (Hmed : exists med, series_median values = Some med /\ lo <= med <= hi
                             /\ (Nat.even (length values) = false -> In med values)).
  { unfold series_median.
    destruct (Nat.eqb_spec (length values) 0) as [|_]; [contradiction|].
    assert (Hhalf : (length values / 2 < length values)%nat)
      by (apply Nat.div_lt; lia).
    destruct (Nat.even (length values)).
    - eexists. split; [reflexivity|]. split; [|discriminate].
      pose proof (Hall _ (nth_Rsort_in values (length values / 2) Hhalf)).
      assert (Hprev : (length values / 2 - 1 < length values)%nat) by lia.
      pose proof (Hall _ (nth_Rsort_in values (length values / 2 - 1) Hprev)).
      lra.
    - eexists. split; [reflexivity|].
      split; [apply Hall|intros _]; apply nth_Rsort_in; exact Hhalf. }
  destruct Hmed as (med & Hmed & Hmb & Hodd).
  exists lo, hi, med.
  split; [rewrite Hvals; reflexivity|]. split; [rewrite Hvals; reflexivity|].
  split; [exact Hmed|].
  split; [rewrite Hvals; exact Hlo_in|]. split; [rewrite Hvals; exact Hhi_in|].
  split; [exact Hall|]. split; [exact Hmb | exact Hodd].
Qed.

Lemma min_and_max_bound_the_column_and_its_median_witness :
  exists lo hi med,
    min stats_edge = Some lo /\ max stats_edge = Some hi
    /\ median stats_edge = Some med
    /\ lo <= med <= hi /\ In med (column_values rows_edge "c").
Proof.
  destruct (min_and_max_bound_the_column_and_its_median rows_edge "c" stats_edge)
    as (lo & hi & med & Hlo & Hhi & Hmed & _ & _ & _ & Hd & Hodd).
  - exact calculate_rows_edge.
  - exists lo, hi, med. repeat split; try assumption; try lra.
    apply Hodd. reflexivity.
Defined.

End StatisticsBounds.

Section OutlierDeviation.

Import Outliers.
Local Open Scope R_scope.

Lemma sigma_mult_nat (k : sigma_level) : sigma_mult k = INR (sigma_nat k).
Proof. destruct k; simpl; lra. Qed.

(** A row of the mask has a value, and the value is under the stored low
    edge or over the stored high edge. *)
Lemma masked_row_stored (group_df : list Row) (col : string) (st : Stats)
  (k : sigma_level) (r : Row) :
  In r (outlier_mask group_df col st k) ->
  In r group_df
  /\ exists v,
       cell r col = Some v
       /\ ((exists lo, sigma_low st k = Some lo /\ v < lo)
           \/ (exists hi, sigma_high st k = Some hi /\ hi < v)).
Proof.
  intros Hr. unfold outlier_mask in Hr. apply filter_In in Hr.
  destruct Hr as (Hin & Hout). split; [exact Hin|].
  unfold is_outlier in Hout.
  destruct (cell r col) as [v|]; simpl in Hout; [|discriminate].
  exists v. split; [reflexivity|].
  apply orb_true_iff in Hout. destruct Hout as [H|H].
  - left. destruct (sigma_low st k) as [lo|]; [|discriminate].
    exists lo. split; [reflexivity | apply Rltb_true; exact H].
  - right. destruct (sigma_high st k) as [hi|]; [|discriminate].
    exists hi. split; [reflexivity | apply Rltb_true; exact H].
Qed.

Lemma mask_nests (group_df : list Row) (col : string) (st : Stats)
  (k1 k2 : sigma_level) (r : Row) :
  calculate_statistics_for_group group_df col = Some st ->
  (sigma_nat k1 <= sigma_nat k2)%nat ->
  is_outlier col (sigma_low st k2) (sigma_high st k2) r = true ->
  is_outlier col (sigma_low st k1) (sigma_high st k1) r = true.
Proof.
  intros Hcalc Hle.
  destruct (calculate_bands group_df col st k1 Hcalc) as (Hlo1 & Hhi1).
  destruct (calculate_bands group_df col st k2 Hcalc) as (Hlo2 & Hhi2).
  rewrite Hlo1, Hhi1, Hlo2, Hhi2. unfold is_outlier.
  destruct (cell r col) as [v|]; simpl; [|discriminate].
  destruct (std st) as [s|] eqn:Hstd; simpl; [|discriminate].
  pose proof (calculate_std_nonneg group_df col st s Hcalc Hstd) as Hs.
  assert (Hk : sigma_mult k1 <= sigma_mult k2).
  { rewrite !sigma_mult_nat. apply le_INR. exact Hle. }
  assert (Hks : sigma_mult k1 * s <= sigma_mult k2 * s)
    by (apply Rmult_le_compat_r; assumption).
  rewrite !orb_true_iff. intros [H|H]; apply Rltb_true in H;
    [left | right]; apply Rltb_true; lra.
Qed.

Lemma filter_length_mono {A : Type} (f g : A -> bool) (l : list A) :
  (forall x, In x l -> f x = true -> g x = true) ->
  (length (filter f l) <= length (filter g l))%nat.
Proof.
  induction l as [|a l IH]; intros H; simpl; [lia|].
  assert (IH' : (length (filter f l) <= length (filter g l))%nat)
    by (apply IH; intros x Hx; apply H; right; exact Hx).
  destruct (f a) eqn:Hf.
  - rewrite (H a (or_introl eq_refl) Hf). simpl. lia.
  - destruct (g a); simpl; lia.
Qed.

Section AnySortDeviation.

Variable sort_values : forall A : Type, (A -> fl) -> list A -> list A.
Hypothesis sort_ok : sort_contract sort_values.

(** X18: the frames of outliers are nested: a row returned at a sigma level
    is returned at every lower level, so the frames do not grow with the
    level; what differs between the levels is only the band. *)
Theorem outliers_nest_across_levels
  (group_df : list Row) (col : string) (st : Stats) (k1 k2 : sigma_level) :
  calculate_statistics_for_group group_df col = Some st ->
  (sigma_nat k1 <= sigma_nat k2)%nat ->
  let out1 := find_outliers_in_group sort_values group_df col (Some st) k1 in
  let out2 := find_outliers_in_group sort_values group_df col (Some st) k2 in
  (forall o, In o out2 -> In o out1)
  /\ (length out2 <= length out1)%nat.
Proof.
  intros Hcalc Hle out1 out2. split.
  - intros o Ho. unfold out2 in Ho.
    apply (in_find_outliers sort_values sort_ok) in Ho.
    destruct Ho as (r & Hin & Hout & ->).
    apply (in_find_outliers sort_values sort_ok).
    exists r. split; [exact Hin|]. split; [|reflexivity].
    apply (mask_nests group_df col st k1 k2 r Hcalc Hle Hout).
  - unfold out1, out2.
    rewrite (Permutation_length (find_outliers_perm sort_values sort_ok group_df col st k1)).
    rewrite (Permutation_length (find_outliers_perm sort_values sort_ok group_df col st k2)).
    rewrite !length_map. unfold outlier_mask. apply filter_length_mono.
    intros r _. apply (mask_nests group_df col st k1 k2 r Hcalc Hle).
Qed.

End AnySortDeviation.

Lemma outliers_nest_across_levels_witness :
  (length (find_outliers_in_group insertion_sort_desc rows_tie "c"
             (Some stats_tie) sigma3)
   <= length (find_outliers_in_group insertion_sort_desc rows_tie "c"
                (Some stats_tie) sigma1))%nat.
Proof.
  apply (outliers_nest_across_levels insertion_sort_desc
           insertion_sort_desc_contract rows_tie "c" stats_tie sigma1 sigma3
           calculate_rows_tie).
  simpl. lia.
Defined.

End OutlierDeviation.

Section OutlierExperimentRows.

Import Outliers.
Local Open Scope R_scope.

(** The trait names collected for an experiment are the traits of the rows
    counted for it, in the order of the loop. *)
Lemma count_rows_names (g : GroupData) (ps : list (string * OutlierRow))
  (d : list (string * Entry)) (id : string) (e : Entry) :
  dict_get (fold_left (fun d p => count_row g (fst p) d (snd p)) ps d) id = Some e ->
  e_outlier_trait_list e
  = match dict_get d id with
    | Some e0 => e_outlier_trait_list e0
    | None => []
    end ++ map fst (filter (fun p => String.eqb (o_experiment_id (snd p)) id) ps).
Proof.
  revert d. induction ps as [|p ps IH]; intros d; simpl.
  - intros ->. rewrite app_nil_r. reflexivity.
  - intros H. rewrite (IH _ H). unfold count_row.
    destruct (String.eqb_spec (o_experiment_id (snd p)) id) as [Heq|Hne].
    + rewrite Heq, dict_get_set_same. simpl.
      destruct (dict_get d id); simpl; [rewrite <- app_assoc|]; reflexivity.
    + rewrite dict_get_set_other by exact Hne. reflexivity.
Qed.

(** Every entry of the counting dictionary carries the key of the group. *)
Lemma count_rows_group (g : GroupData) (ps : list (string * OutlierRow))
  (d : list (string * Entry)) :
  (forall id e, In (id, e) d ->
     e_family e = g_family g /\ e_name e = g_name g
     /\ e_subsampletype e = g_subsampletype g) ->
  forall id e,
    In (id, e) (fold_left (fun d p => count_row g (fst p) d (snd p)) ps d) ->
    e_family e = g_family g /\ e_name e = g_name g
    /\ e_subsampletype e = g_subsampletype g.
Proof.
  revert d. induction ps as [|p ps IH]; intros d Hd id e; simpl; [apply Hd|].
  apply IH. clear id e. intros id e Hin. unfold count_row in Hin.
  apply in_dict_set in Hin. destruct Hin as [(_ & ->)|Hin]; [|apply (Hd id e Hin)].
  simpl. destruct (dict_get d (o_experiment_id (snd p))) as [e0|] eqn:Hget.
  - apply (Hd (o_experiment_id (snd p)) e0). apply dict_get_in. exact Hget.
  - simpl. repeat split.
Qed.

Lemma names_one_row (id : string) (t : string) (l : list OutlierRow) :
  NoDup (map o_experiment_id l) ->
  map fst (filter (fun p : string * OutlierRow =>
                     String.eqb (o_experiment_id (snd p)) id)
                  (map (fun row => (t, row)) l))
  = if listed id l then [t] else [].
Proof.
  unfold listed.
  induction l as [|o l IH]; simpl; intros Hnd; [reflexivity|].
  inversion Hnd as [|x xs Hnotin Hnd']; subst.
  destruct (String.eqb_spec (o_experiment_id o) id) as [Heq|Hne]; simpl.
  - rewrite IH by exact Hnd'.
    destruct (existsb (fun o0 => String.eqb (o_experiment_id o0) id) l) eqn:E;
      [|reflexivity].
    exfalso. apply existsb_exists in E. destruct E as (o' & Hin & Ho').
    apply String.eqb_eq in Ho'. apply Hnotin. rewrite Heq, <- Ho'.
    apply in_map. exact Hin.
  - apply IH. exact Hnd'.
Qed.

Lemma names_flagged_traits (id : string) (k : sigma_level) (g : GroupData) :
  one_row_per_experiment k g ->
  map fst (filter (fun p : string * OutlierRow =>
                     String.eqb (o_experiment_id (snd p)) id)
                  (flagged_rows k g))
  = map fst (filter (fun ta => listed id (outliers_at k (snd ta))) (traits g)).
Proof.
  unfold one_row_per_experiment, flagged_rows.
  induction (traits g) as [|ta l IH]; intros H; simpl; [reflexivity|].
  rewrite filter_app, map_app, IH by (intros ta' Hin; apply H; right; exact Hin).
  rewrite names_one_row by (apply H; left; reflexivity).
  destruct (listed id (outliers_at k (snd ta))); reflexivity.
Qed.

Lemma group_rows (threshold : R) (k : sigma_level) (g : GroupData)
  (oe : OutlierExperiment) :
  one_row_per_experiment k g ->
  In oe (group_outlier_experiments threshold k g) ->
  let id := oe_experiment_id oe in
  oe_family oe = g_family g /\ oe_name oe = g_name g
  /\ oe_subsampletype oe = g_subsampletype g
  /\ total_traits oe = length (traits g)
  /\ outlier_traits oe = flagged_traits id k g
  /\ (1 <= outlier_traits oe <= total_traits oe)%nat
  /\ outlier_percentage oe = INR (outlier_traits oe) / INR (total_traits oe)
  /\ threshold <= outlier_percentage oe <= 1
  /\ oe_sigma_level oe = k
  /\ outlier_trait_list oe
     = String.concat ", "
         (map fst (filter (fun ta => listed id (outliers_at k (snd ta))) (traits g))).
Proof.
  intros Hone Hin id. unfold group_outlier_experiments in Hin.
  destruct (Nat.eqb_spec (length (traits g)) 0) as [|Hne]; [contradiction|].
  apply in_map_iff in Hin. destruct Hin as ([id' e] & <- & Hin).
  apply filter_In in Hin. destruct Hin as (Hin & Hth).
  simpl in id, Hth |- *. subst id. apply Rleb_true in Hth.
  destruct (count_rows_fold g (flagged_rows k g) [] id') as (Hc & Hp & Hn).
  rewrite <- experiment_outlier_count_rows in Hc, Hp, Hn.
  rewrite (occurrences_flagged_traits id' k g Hone) in Hc, Hp.
  specialize (Hn (NoDup_nil _)).
  pose proof (in_dict_get _ _ _ Hn Hin) as Hget.
  unfold counted in Hc. rewrite Hget in Hc, Hp. simpl in Hc, Hp.
  pose proof (flagged_traits_le_total id' k g) as Hle.
  assert (Hpos : (1 <= flagged_traits id' k g)%nat).
  { destruct (flagged_traits id' k g); [|lia].
    exfalso. assert (Some e = None) by (apply Hp; tauto). discriminate. }
  destruct (count_rows_group g (flagged_rows k g) [] (fun _ _ H => match H with end)
              id' e) as (Hf & Hna & Hsub).
  { rewrite <- experiment_outlier_count_rows. exact Hin. }
  assert (Htot : 0 < INR (length (traits g))) by (apply lt_0_INR; lia).
  split; [exact Hf|]. split; [exact Hna|]. split; [exact Hsub|].
  split; [reflexivity|]. split; [exact Hc|]. split; [lia|].
  split; [reflexivity|]. split; [split; [exact Hth|]|split; [reflexivity|]].
  - apply Rmult_le_reg_r with (INR (length (traits g))); [exact Htot|].
    unfold Rdiv. rewrite Rmult_assoc, Rinv_l, Rmult_1_r, Rmult_1_l by lra.
    apply le_INR. lia.
  - f_equal. rewrite <- (names_flagged_traits id' k g Hone).
    rewrite experiment_outlier_count_rows in Hget.
    rewrite (count_rows_names g (flagged_rows k g) [] id' e Hget). reflexivity.
Qed.

Section AnySortRows.

Variable sort_values : forall A : Type, (A -> fl) -> list A -> list A.
Hypothesis sort_ok : sort_contract sort_values.

(** X20: on results that list an experiment at most once per frame of
    outliers, the returned frame is in descending order of
    [outlier_percentage], and every row of it describes an experiment of one
    group of the results: it carries the key of that group, [total_traits]
    is the number of traits of the group, [outlier_traits] the number of
    them that list the experiment, between 1 and [total_traits], the
    percentage is their quotient, between the threshold and 1, and
    [outlier_trait_list] joins the names of the listing traits in the order
    of the group. *)
Theorem outlier_experiment_rows_describe_their_group
  (threshold : R) (results : list (string * GroupData)) (k : sigma_level) :
  (forall kg, In kg results -> one_row_per_experiment k (snd kg)) ->
  let out := identify_outlier_experiments sort_values threshold results k in
  StronglySorted (fun a b => outlier_percentage b <= outlier_percentage a) out
  /\ forall oe, In oe out ->
       exists kg,
         In kg results
         /\ oe_family oe = g_family (snd kg) /\ oe_name oe = g_name (snd kg)
         /\ oe_subsampletype oe = g_subsampletype (snd kg)
         /\ total_traits oe = length (traits (snd kg))
         /\ outlier_traits oe = flagged_traits (oe_experiment_id oe) k (snd kg)
         /\ (1 <= outlier_traits oe <= total_traits oe)%nat
         /\ outlier_percentage oe = INR (outlier_traits oe) / INR (total_traits oe)
         /\ threshold <= outlier_percentage oe <= 1
         /\ oe_sigma_level oe = k
         /\ outlier_trait_list oe
            = String.concat ", "
                (map fst (filter (fun ta => listed (oe_experiment_id oe)
                                              (outliers_at k (snd ta)))
                                 (traits (snd kg)))).
Proof.
  intros Hone out. unfold out, identify_outlier_experiments.
  set (l := flat_map (fun kg => group_outlier_experiments threshold k (snd kg)) results).
  destruct (sort_ok OutlierExperiment (fun o => Some (outlier_percentage o)) l)
    as (Hperm & Hsorted).
  assert (Hl : forall oe, In oe l ->
       exists kg,
         In kg results
         /\ oe_family oe = g_family (snd kg) /\ oe_name oe = g_name (snd kg)
         /\ oe_subsampletype oe = g_subsampletype (snd kg)
         /\ total_traits oe = length (traits (snd kg))
         /\ outlier_traits oe = flagged_traits (oe_experiment_id oe) k (snd kg)
         /\ (1 <= outlier_traits oe <= total_traits oe)%nat
         /\ outlier_percentage oe = INR (outlier_traits oe) / INR (total_traits oe)
         /\ threshold <= outlier_percentage oe <= 1
         /\ oe_sigma_level oe = k
         /\ outlier_trait_list oe
            = String.concat ", "
                (map fst (filter (fun ta => listed (oe_experiment_id oe)
                                              (outliers_at k (snd ta)))
                                 (traits (snd kg))))).
  { intros oe Hin. apply in_flat_map in Hin. destruct Hin as (kg & Hkg & Hoe).
    exists kg. split; [exact Hkg|].
    apply (group_rows threshold k (snd kg) oe (Hone kg Hkg) Hoe). }
  destruct (Nat.ltb_spec 0 (length l)) as [Hpos|Hzero].
  - split; [exact Hsorted|].
    intros oe Hin. apply Hl. apply (Permutation_in _ Hperm). exact Hin.
  - split; [|exact Hl].
    destruct l; [constructor | simpl in Hzero; lia].
Qed.

End AnySortRows.

Lemma outlier_experiment_rows_describe_their_group_witness :
  StronglySorted (fun a b => outlier_percentage b <= outlier_percentage a)
    (identify_outlier_experiments insertion_sort_desc (3 / 10)
       [("F_g s_t"%string, group_ten_traits)] sigma2).
Proof.
  apply (outlier_experiment_rows_describe_their_group insertion_sort_desc
           insertion_sort_desc_contract (3 / 10)
           [("F_g s_t"%string, group_ten_traits)] sigma2).
  intros kg [<-|[]]. exact one_row_group_ten_traits.
Defined.

End OutlierExperimentRows.

Section AnalysisFacts.

Import Outliers.
Local Open Scope R_scope.

Lemma has_column_in (columns : list string) (c : string) :
  has_column columns c = true <-> In c columns.
Proof.
  unfold has_column. rewrite existsb_exists. split.
  - intros (x & Hx & Heq). apply String.eqb_eq in Heq. subst x. exact Hx.
  - intros H. exists c. split; [exact H | apply String.eqb_refl].
Qed.

Lemma in_traits_to_analyze (columns : list string) (poly_degree : nat) (t : string) :
  In t (traits_to_analyze columns poly_degree) ->
  In t columns
  /\ (t = "r_squared"%string
      \/ (exists i, (i <= poly_degree)%nat /\ t = coeff_name i)
      \/ String.prefix "trait_" t = true).
Proof.
  unfold traits_to_analyze. rewrite !in_app_iff. intros [H|[H|H]].
  - destruct (has_column columns "r_squared") eqn:E; [|contradiction].
    destruct H as [<-|[]]. split; [apply has_column_in; exact E | left; reflexivity].
  - apply filter_In in H. destruct H as (Hin & Hcol).
    split; [apply has_column_in; exact Hcol|]. right. left.
    apply in_map_iff in Hin. destruct Hin as (i & <- & Hi).
    unfold range in Hi. apply in_seq in Hi. exists i. split; [lia | reflexivity].
  - apply filter_In in H. destruct H as (Hin & Hpre).
    split; [exact Hin|]. right. right. exact Hpre.
Qed.

Lemma length_dict_set {V : Type} (d : list (string * V)) (k : string) (v : V) :
  (length (dict_set d k v) <= S (length d))%nat.
Proof.
  induction d as [|kv d IH]; simpl; [lia|].
  destruct (String.eqb (fst kv) k); simpl; lia.
Qed.

Lemma total_samples_dict_set (d : list (string * GroupData)) (k : string)
  (v : GroupData) :
  (total_samples (dict_set d k v) <= total_samples d + sample_count v)%nat.
Proof.
  induction d as [|kv d IH]; simpl; [lia|].
  destruct (String.eqb (fst kv) k); simpl; lia.
Qed.

Lemma groupby_add_total (r : Row) (gs : list (group_key * list Row)) :
  length (concat (map snd (groupby_add r gs)))
  = S (length (concat (map snd gs))).
Proof.
  induction gs as [|g gs IH]; simpl; [reflexivity|].
  destruct (key_eqb (fst g) (key_of r)); simpl.
  - rewrite !length_app. simpl. lia.
  - rewrite !length_app, IH. lia.
Qed.

Lemma groupby_total (rows : list Row) :
  length (concat (map snd (groupby rows))) = length rows.
Proof.
  unfold groupby.
  assert (H : forall gs,
             length (concat (map snd (fold_left (fun gs r => groupby_add r gs) rows gs)))
             = (length (concat (map snd gs)) + length rows)%nat).
  { induction rows as [|r rows IH]; intros gs; simpl; [lia|].
    rewrite IH, groupby_add_total. lia. }
  apply (H []).
Qed.

Section AnySortAnalysis.

Variable sort_values : forall A : Type, (A -> fl) -> list A -> list A.

Lemma analyze_traits_names (columns : list string) (group_df : list Row)
  (names : list string) (ts : list (string * TraitAnalysis)) :
  let ts' := fold_left (analyze_trait sort_values columns group_df) names ts in
  (forall t a, In (t, a) ts' -> In (t, a) ts \/ In t names)
  /\ (NoDup (map fst ts) -> NoDup (map fst ts'))
  /\ (length ts' <= length ts + length names)%nat.
Proof.
  revert ts. induction names as [|n names IH]; intros ts; simpl.
  - split; [intros t a H; left; exact H|]. split; [tauto | lia].
  - destruct (IH (analyze_trait sort_values columns group_df ts n))
      as (Hin & Hnd & Hlen).
    assert (Hstep : (forall t a,
                       In (t, a) (analyze_trait sort_values columns group_df ts n) ->
                       In (t, a) ts \/ t = n)
                    /\ (NoDup (map fst ts) ->
                        NoDup (map fst (analyze_trait sort_values columns group_df ts n)))
                    /\ (length (analyze_trait sort_values columns group_df ts n)
                        <= S (length ts))%nat).
    { unfold analyze_trait.
      destruct (negb (has_column columns n));
        [split; [tauto | split; [tauto | lia]]|].
      destruct (calculate_statistics_for_group group_df n) as [st|];
        [|split; [tauto | split; [tauto | lia]]].
      destruct (count st <? 2)%nat; [split; [tauto | split; [tauto | lia]]|].
      split; [|split].
      - intros t a H. apply in_dict_set in H. destruct H as [(-> & _)|H]; tauto.
      - apply dict_set_NoDup.
      - apply length_dict_set. }
    destruct Hstep as (Hsin & Hsnd & Hslen).
    split; [|split].
    + intros t a H. destruct (Hin t a H) as [H'|H']; [|right; right; exact H'].
      destruct (Hsin t a H') as [H''| ->]; [left; exact H'' | right; left; reflexivity].
    + intros H. apply Hnd, Hsnd, H.
    + lia.
Qed.

Lemma analyze_groups_entry (columns names : list string)
  (groups : list (group_key * list Row)) (results : list (string * GroupData)) :
  forall key gd,
    In (key, gd) (fold_left (analyze_group sort_values columns names) groups results) ->
    In (key, gd) results
    \/ exists g, In g groups
                 /\ entry_of_group sort_values g key gd
                 /\ traits gd
                    = fold_left (analyze_trait sort_values columns (snd g)) names [].
Proof.
  revert results. induction groups as [|g groups IH]; intros results key gd; simpl.
  - intros H. left. exact H.
  - intros H. apply IH in H. destruct H as [H|(g' & Hg' & He)].
    + assert (Hone : In (key, gd) (fold_left (analyze_group sort_values columns names)
                                             [g] results)) by exact H.
      apply analyze_groups_sound in Hone. unfold analyze_group in H.
      destruct (Nat.ltb_spec (length (snd g)) 2) as [|Hlen]; [left; exact H|].
      apply in_dict_set in H. destruct H as [(-> & ->)|H]; [|left; exact H].
      right. exists g. split; [left; reflexivity|]. split; [|reflexivity].
      unfold entry_of_group. simpl. repeat split; try assumption.
      * apply (analyze_traits_sound sort_values columns (snd g) names []);
          [intros t' a' [] | exact H].
      * apply (analyze_traits_sound sort_values columns (snd g) names []) in H;
          [apply H | intros t' a' []].
      * apply (analyze_traits_sound sort_values columns (snd g) names []) in H;
          [apply H | intros t' a' []].
    + right. exists g'. split; [right; exact Hg' | exact He].
Qed.

Lemma analyze_groups_totals (columns names : list string)
  (groups : list (group_key * list Row)) (results : list (string * GroupData)) :
  let results' := fold_left (analyze_group sort_values columns names) groups results in
  (length results' <= length results + length groups)%nat
  /\ (total_samples results'
      <= total_samples results + length (concat (map snd groups)))%nat
  /\ (NoDup (map fst results) -> NoDup (map fst results')).
Proof.
  revert results. induction groups as [|g groups IH]; intros results; simpl.
  - split; [lia|]. split; [lia | tauto].
  - destruct (IH (analyze_group sort_values columns names results g))
      as (Hlen & Htot & Hnd).
    rewrite length_app.
    unfold analyze_group in *.
    destruct (length (snd g) <? 2)%nat.
    + split; [lia|]. split; [lia | exact Hnd].
    + match type of Hlen with
      | context [dict_set results ?k ?v] =>
          pose proof (length_dict_set results k v) as Hds;
          pose proof (total_samples_dict_set results k v) as Hts;
          pose proof (dict_set_NoDup results k v) as Hdn
      end.
      simpl in Hts. split; [lia|]. split; [lia|].
      intros H. apply Hnd, Hdn, H.
Qed.

(** X21: every group of the analysis has pairwise different trait names,
    at most as many as there are traits to analyse, and each of them is a
    column of the frame that is ["r_squared"], a coefficient column
    [coeff_i] with [i] up to the polynomial degree of the metadata, or a
    column whose name starts with ["trait_"]: identity columns and
    coefficients of higher order are never analysed. *)
Theorem analysed_traits_are_selected_columns
  (df : DataFrame) (poly_degree : nat) (key : string) (gd : GroupData) :
  In (key, gd) (analyze_all_traits sort_values df poly_degree) ->
  NoDup (map fst (traits gd))
  /\ (length (traits gd)
      <= length (traits_to_analyze (df_columns df) poly_degree))%nat
  /\ forall t a,
       In (t, a) (traits gd) ->
       In t (df_columns df)
       /\ (t = "r_squared"%string
           \/ (exists i, (i <= poly_degree)%nat /\ t = coeff_name i)
           \/ String.prefix "trait_" t = true).
Proof.
  intros H. unfold analyze_all_traits in H.
  apply analyze_groups_entry in H. destruct H as [[]|(g & _ & _ & Htraits)].
  destruct (analyze_traits_names (df_columns df) (snd g)
              (traits_to_analyze (df_columns df) poly_degree) [])
    as (Hin & Hnd & Hlen).
  rewrite <- Htraits in Hin, Hnd, Hlen.
  split; [apply Hnd; constructor|]. split; [exact Hlen|].
  intros t a Hta. destruct (Hin t a Hta) as [[]|Ht].
  apply in_traits_to_analyze. exact Ht.
Qed.

Hypothesis sort_ok : sort_contract sort_values.

Lemma has_outliers_nest (g : group_key * list Row) (key : string) (gd : GroupData)
  (k1 k2 : sigma_level) :
  entry_of_group sort_values g key gd ->
  (sigma_nat k1 <= sigma_nat k2)%nat ->
  has_outliers k2 gd = true -> has_outliers k1 gd = true.
Proof.
  intros He Hle H. unfold has_outliers in *.
  apply existsb_exists in H. destruct H as ([t a] & Hta & Hlen).
  apply existsb_exists. exists (t, a). split; [exact Hta|].
  destruct He as (_ & _ & _ & _ & _ & _ & Htraits).
  destruct (Htraits t a Hta) as (Hcalc & _ & Hout).
  simpl in Hlen |- *. rewrite Hout in Hlen |- *.
  apply Nat.ltb_lt in Hlen. apply Nat.ltb_lt.
  destruct (find_outliers_in_group sort_values (snd g) t (Some (statistics a)) k2)
    as [|o os] eqn:E; [simpl in Hlen; lia|].
  assert (Ho : In o (find_outliers_in_group sort_values (snd g) t
                       (Some (statistics a)) k2)) by (rewrite E; left; reflexivity).
  apply (in_find_outliers sort_values sort_ok) in Ho.
  destruct Ho as (r & Hin & Hmask & ->).
  assert (Ho1 : In (outlier_row (statistics a) t r)
                   (find_outliers_in_group sort_values (snd g) t
                      (Some (statistics a)) k1)).
  { apply (in_find_outliers sort_values sort_ok). exists r.
    split; [exact Hin|]. split; [|reflexivity].
    apply (mask_nests (snd g) t (statistics a) k1 k2 r Hcalc Hle Hmask). }
  destruct (find_outliers_in_group sort_values (snd g) t (Some (statistics a)) k1);
    [contradiction | simpl; lia].
Qed.

(** X22: the summary of a run is consistent: the groups with an outlier
    at three sigmas are among those with one at two sigmas, and these among
    those with one at one sigma; no more groups are reported than the frame
    has, under pairwise different keys; every reported group has at least
    two samples, and the total of samples does not exceed the rows of the
    frame. *)
Theorem summary_counts_are_ordered (df : DataFrame) (poly_degree : nat) :
  let results := analyze_all_traits sort_values df poly_degree in
  let total_groups := length results in
  (groups_with_outliers sigma3 results <= groups_with_outliers sigma2 results)%nat
  /\ (groups_with_outliers sigma2 results <= groups_with_outliers sigma1 results)%nat
  /\ (groups_with_outliers sigma1 results <= total_groups)%nat
  /\ (total_groups <= length (groupby (df_rows df)))%nat
  /\ NoDup (map fst results)
  /\ (2 * total_groups <= total_samples results)%nat
  /\ (total_samples results <= length (df_rows df))%nat.
Proof.
  intros results total_groups.
  assert (Hentry : forall kg, In kg results ->
            exists g, entry_of_group sort_values g (fst kg) (snd kg)).
  { intros [key gd] H. unfold results, analyze_all_traits in H.
    apply analyze_groups_sound in H. destruct H as [[]|(g & _ & He)].
    exists g. exact He. }
  assert (Hnest : forall k1 k2, (sigma_nat k1 <= sigma_nat k2)%nat ->
            (groups_with_outliers k2 results <= groups_with_outliers k1 results)%nat).
  { intros k1 k2 Hle. unfold groups_with_outliers. apply filter_length_mono.
    intros kg Hkg. destruct (Hentry kg Hkg) as (g & He).
    apply (has_outliers_nest g (fst kg) (snd kg) k1 k2 He Hle). }
  destruct (analyze_groups_totals (df_columns df)
              (traits_to_analyze (df_columns df) poly_degree)
              (groupby (df_rows df)) []) as (Hlen & Htot & Hnd).
  fold (analyze_all_traits sort_values df poly_degree) in Hlen, Htot, Hnd.
  fold results in Hlen, Htot, Hnd. rewrite groupby_total in Htot.
  simpl in Hlen, Htot.
  split; [apply Hnest; simpl; lia|]. split; [apply Hnest; simpl; lia|].
  split; [apply filter_length_le|]. split; [exact Hlen|].
  split; [apply Hnd; constructor|]. split; [|exact Htot].
  unfold total_groups. clear Hnest Hlen Htot Hnd.
  induction results as [|kg results IH]; simpl; [lia|].
  destruct (Hentry kg (or_introl eq_refl)) as (g & He).
  destruct He as (_ & _ & _ & _ & Hcount & Hlen & _).
  assert (IH' : (2 * length results <= total_samples results)%nat)
    by (apply IH; intros kg' Hkg'; apply Hentry; right; exact Hkg').
  lia.
Qed.

(** A reported experiment is a row of a group of the frame, outside the
    stored band of a trait of that group. *)
Lemma reported_in_group
  (df : DataFrame) (poly_degree : nat) (threshold : R) (k : sigma_level)
  (id : string) :
  NoDup (map experiment_id (df_rows df)) ->
  reported id (identify_outlier_experiments sort_values threshold
                 (analyze_all_traits sort_values df poly_degree) k) ->
  exists key gd g r t a v,
    In (key, gd) (analyze_all_traits sort_values df poly_degree)
    /\ In g (groupby (df_rows df))
    /\ entry_of_group sort_values g key gd
    /\ In r (snd g) /\ experiment_id r = id
    /\ In (t, a) (traits gd)
    /\ In t (traits_to_analyze (df_columns df) poly_degree)
    /\ count (statistics a) = length (column_values (snd g) t)
    /\ (2 <= count (statistics a))%nat
    /\ cell r t = Some v
    /\ ((exists lo, sigma_low (statistics a) k = Some lo /\ v < lo)
        \/ (exists hi, sigma_high (statistics a) k = Some hi /\ hi < v)).
Proof.
  intros Hids Hrep.
  apply (identify_reported_iff sort_values sort_ok) in Hrep.
  destruct Hrep as ([key gd] & Hkg & Hrep). simpl in Hrep.
  pose proof (analysis_one_row_per_experiment sort_values sort_ok df poly_degree k
                Hids (key, gd) Hkg) as Hone.
  simpl in Hone.
  apply (group_reported_iff threshold k gd id Hone) in Hrep.
  destruct Hrep as (Hpos & _).
  unfold flagged_traits in Hpos.
  destruct (filter (fun ta => listed id (outliers_at k (snd ta))) (traits gd))
    as [|[t a] rest] eqn:E; [simpl in Hpos; lia|].
  assert (Hta : In (t, a) (filter (fun ta => listed id (outliers_at k (snd ta)))
                                  (traits gd))) by (rewrite E; left; reflexivity).
  apply filter_In in Hta. destruct Hta as (Hta & Hlisted). simpl in Hlisted.
  unfold listed in Hlisted. apply existsb_exists in Hlisted.
  destruct Hlisted as (o & Ho & Hid). apply String.eqb_eq in Hid.
  pose proof Hkg as Hkg'.
  unfold analyze_all_traits in Hkg. apply analyze_groups_entry in Hkg.
  destruct Hkg as [[]|(g & Hg & He & Htraits)].
  pose proof He as (_ & _ & _ & _ & _ & _ & Htr).
  destruct (Htr t a Hta) as (Hcalc & Hcount & Hout).
  rewrite Hout in Ho. apply (in_find_outliers sort_values sort_ok) in Ho.
  destruct Ho as (r & Hin & Hmask & ->). simpl in Hid.
  destruct (masked_row_stored (snd g) t (statistics a) k r)
    as (_ & v & Hcell & Hside); [apply filter_In; split; assumption|].
  destruct (calculate_fields (snd g) t (statistics a) Hcalc) as (Hc & _).
  destruct (analyze_traits_names (df_columns df) (snd g)
              (traits_to_analyze (df_columns df) poly_degree) [])
    as (Hnames & _ & _).
  rewrite <- Htraits in Hnames.
  exists key, gd, g, r, t, a, v.
  split; [exact Hkg'|]. split; [exact Hg|]. split; [exact He|].
  split; [exact Hin|]. split; [exact Hid|]. split; [exact Hta|].
  split; [destruct (Hnames t a Hta) as [[]|H]; exact H|].
  split; [exact Hc|]. split; [exact Hcount|]. split; [exact Hcell | exact Hside].
Qed.

(** X23: the whole run, on a frame with one row per experiment: an
    experiment is reported only if it has a row in the frame whose group
    (the rows with the same family, name and subsample type) has at least
    two rows and is an entry of the results, and that entry has an analysed
    trait, with at least two values in the group, for which the value of
    the experiment is strictly under the stored low edge or strictly over
    the stored high edge of the band of the chosen sigma level. *)
Theorem reported_experiment_has_an_outlying_value
  (df : DataFrame) (poly_degree : nat) (threshold : R) (k : sigma_level)
  (id : string) :
  NoDup (map experiment_id (df_rows df)) ->
  reported id (snd (run_analysis sort_values df poly_degree threshold k)) ->
  exists r key gd t a v,
    In r (df_rows df) /\ experiment_id r = id
    /\ In (key, gd) (fst (run_analysis sort_values df poly_degree threshold k))
    /\ key = group_key_string (key_of r)
    /\ let group_df := filter (fun r' => key_eqb (key_of r) (key_of r')) (df_rows df) in
       sample_count gd = length group_df
       /\ (2 <= length group_df)%nat
       /\ In (t, a) (traits gd)
       /\ In t (traits_to_analyze (df_columns df) poly_degree)
       /\ count (statistics a) = length (column_values group_df t)
       /\ (2 <= count (statistics a))%nat
       /\ cell r t = Some v
       /\ ((exists lo, sigma_low (statistics a) k = Some lo /\ v < lo)
           \/ (exists hi, sigma_high (statistics a) k = Some hi /\ hi < v)).
Proof.
  intros Hids Hrep. unfold run_analysis in Hrep |- *. cbn [fst snd] in Hrep |- *.
  destruct (reported_in_group df poly_degree threshold k id Hids Hrep)
    as (key & gd & g & r & t & a & v & Hkg & Hg & He & Hin & Hid & Hta & Ht
        & Hc & Hcount & Hcell & Hside).
  destruct He as (Hkey & _ & _ & _ & Hsample & Hlen & _).
  destruct (groupby_grouped (df_rows df)) as (_ & Hrows & _).
  pose proof (Hrows g Hg) as Hsnd.
  assert (Hr : In r (df_rows df) /\ key_eqb (fst g) (key_of r) = true).
  { rewrite Hsnd in Hin. apply filter_In in Hin. exact Hin. }
  destruct Hr as (Hr & Hk). apply key_eqb_eq in Hk.
  rewrite Hk in Hsnd, Hkey.
  exists r, key, gd, t, a, v.
  split; [exact Hr|]. split; [exact Hid|]. split; [exact Hkg|].
  split; [exact Hkey|]. cbv zeta. rewrite <- Hsnd.
  split; [exact Hsample|]. split; [exact Hlen|]. split; [exact Hta|].
  split; [exact Ht|]. split; [exact Hc|]. split; [exact Hcount|].
  split; [exact Hcell | exact Hside].
Qed.

End AnySortAnalysis.

Lemma analysed_traits_are_selected_columns_witness :
  exists gd,
    In ("F_g s_t"%string, gd) (analyze_all_traits insertion_sort_desc df_small 1)
    /\ NoDup (map fst (traits gd)).
Proof.
  assert (Hkeys : map fst (analyze_all_traits insertion_sort_desc df_small 1)
                  = ["F_g s_t"%string]) by reflexivity.
  destruct (analyze_all_traits insertion_sort_desc df_small 1)
    as [|[key gd] rest] eqn:E; [discriminate Hkeys|].
  simpl in Hkeys. injection Hkeys as -> _.
  exists gd. split; [left; reflexivity|].
  apply (analysed_traits_are_selected_columns insertion_sort_desc df_small 1
           "F_g s_t" gd).
  rewrite E. left. reflexivity.
Defined.

Lemma summary_counts_are_ordered_witness :
  (2 * length (analyze_all_traits insertion_sort_desc df_small 1)
   <= total_samples (analyze_all_traits insertion_sort_desc df_small 1))%nat
  /\ (total_samples (analyze_all_traits insertion_sort_desc df_small 1)
      <= length (df_rows df_small))%nat.
Proof.
  apply (summary_counts_are_ordered insertion_sort_desc
           insertion_sort_desc_contract df_small 1).
Defined.

Lemma calculate_rows_r2_tie :
  calculate_statistics_for_group rows_r2_tie "r_squared" = Some stats_r2_tie.
Proof.
  unfold calculate_statistics_for_group.
  change (dropna (map (fun r => cell r "r_squared") rows_r2_tie)) with vals_tie.
  change (length vals_tie =? 0)%nat with false. cbv iota.
  rewrite mean_vals_tie, std_vals_tie. unfold stats_r2_tie, band_low, band_high.
  simpl option_map.
  replace (0 - 1 * 1) with (-1) by lra. replace (0 + 1 * 1) with 1 by lra.
  replace (0 - 2 * 1) with (-2) by lra. replace (0 + 2 * 1) with 2 by lra.
  replace (0 - 3 * 1) with (-3) by lra. replace (0 + 3 * 1) with 3 by lra.
  reflexivity.
Qed.

Lemma ids_rows_r2_tie : NoDup (map experiment_id (df_rows df_tie)).
Proof.
  simpl. repeat (constructor; [simpl; intuition discriminate|]). constructor.
Qed.

(** In a frame with the rows of [rows_r2_tie] and the fit quality as its
    only trait, the experiment "e1" is reported at one sigma under the
    threshold 1/2: it is an outlier on the one analysed trait. *)
Lemma e1_reported_in_tie_frame (df : DataFrame) :
  df_rows df = rows_r2_tie ->
  traits_to_analyze (df_columns df) 1 = ["r_squared"%string] ->
  has_column (df_columns df) "r_squared" = true ->
  reported "e1" (identify_outlier_experiments insertion_sort_desc (1 / 2)
                   (analyze_all_traits insertion_sort_desc df 1) sigma1).
Proof.
  intros Hrows Hnames Hcol.
  assert (Hids : NoDup (map experiment_id (df_rows df)))
    by (rewrite Hrows; exact ids_rows_r2_tie).
  apply (identify_reported_iff insertion_sort_desc insertion_sort_desc_contract).
  destruct (analyze_all_traits insertion_sort_desc df 1) as [|[key gd] rest] eqn:E.
  { exfalso. unfold analyze_all_traits in E. rewrite Hrows in E.
    change (groupby rows_r2_tie)
      with [((Some "F"%string, "g s"%string, Some "t"%string), rows_r2_tie)] in E.
    cbn [fold_left] in E. unfold analyze_group in E. cbn [fst snd] in E.
    change (length rows_r2_tie <? 2)%nat with false in E. cbv iota in E.
    discriminate E. }
  exists (key, gd). split; [left; reflexivity|]. cbn [snd].
  assert (Hin : In (key, gd) (analyze_all_traits insertion_sort_desc df 1))
    by (rewrite E; left; reflexivity).
  pose proof (analysis_one_row_per_experiment insertion_sort_desc
                insertion_sort_desc_contract df 1 sigma1 Hids (key, gd) Hin) as Hone.
  cbn [snd] in Hone.
  apply (group_reported_iff (1 / 2) sigma1 gd "e1" Hone).
  unfold analyze_all_traits in Hin.
  apply (analyze_groups_entry insertion_sort_desc) in Hin.
  destruct Hin as [[]|(g & Hg & _ & Htraits)].
  rewrite Hrows in Hg.
  change (groupby rows_r2_tie)
    with [((Some "F"%string, "g s"%string, Some "t"%string), rows_r2_tie)] in Hg.
  destruct Hg as [<-|[]]. cbn [snd] in Htraits. rewrite Hnames in Htraits.
  cbn [fold_left] in Htraits. unfold analyze_trait in Htraits.
  rewrite Hcol in Htraits. cbn [negb] in Htraits.
  rewrite calculate_rows_r2_tie in Htraits.
  change (count stats_r2_tie <? 2)%nat with false in Htraits.
  cbv iota in Htraits. cbn [dict_set] in Htraits.
  assert (Hlisted : listed "e1"
            (find_outliers_in_group insertion_sort_desc rows_r2_tie "r_squared"
               (Some stats_r2_tie) sigma1) = true).
  { unfold listed. apply existsb_exists.
    exists (outlier_row stats_r2_tie "r_squared"
              (row_r2 "e1" (Some "F"%string) (Some 2))).
    split; [|reflexivity].
    apply (in_find_outliers insertion_sort_desc insertion_sort_desc_contract).
    exists (row_r2 "e1" (Some "F"%string) (Some 2)).
    split; [left; reflexivity|]. split; [|reflexivity].
    change (is_outlier "r_squared" (sigma_low stats_r2_tie sigma1)
              (sigma_high stats_r2_tie sigma1)
              (row_r2 "e1" (Some "F"%string) (Some 2)))
      with (Rltb 2 (-1) || Rltb 1 2).
    apply orb_true_iff. right. apply Rltb_true. lra. }
  assert (Hfl : flagged_traits "e1" sigma1 gd = 1%nat).
  { unfold flagged_traits. rewrite Htraits. cbn [filter snd outliers_at outliers_1sigma].
    rewrite Hlisted. reflexivity. }
  rewrite Hfl, Htraits. split; [lia|]. simpl. lra.
Qed.

Lemma e1_reported_in_df_tie :
  reported "e1" (snd (run_analysis insertion_sort_desc df_tie 1 (1 / 2) sigma1)).
Proof.
  unfold run_analysis. cbn [snd].
  apply e1_reported_in_tie_frame; reflexivity.
Qed.

Lemma reported_experiment_has_an_outlying_value_witness :
  exists r t v,
    In r (df_rows df_tie) /\ experiment_id r = "e1"%string
    /\ In t (traits_to_analyze (df_columns df_tie) 1)
    /\ cell r t = Some v.
Proof.
  destruct (reported_experiment_has_an_outlying_value insertion_sort_desc
              insertion_sort_desc_contract df_tie 1 (1 / 2) sigma1 "e1"
              ids_rows_r2_tie e1_reported_in_df_tie)
    as (r & key & gd & t & a & v & Hr & Hid & _ & _ & _ & _ & _ & Ht & _ & _
        & Hcell & _).
  exists r, t, v. repeat split; assumption.
Defined.

End AnalysisFacts.

(** * The experiments frame *)

Section PrepareFacts.

Import Outliers.
Local Open Scope R_scope.

Lemma trait_name_inj (a b : string) :
  ("trait_" ++ a)%string = ("trait_" ++ b)%string -> a = b.
Proof. simpl. intros H. injection H as H. exact H. Qed.

Lemma coeff_name_inj (i j : nat) : coeff_name i = coeff_name j -> i = j.
Proof.
  unfold coeff_name. simpl. intros H. injection H as H.
  apply (f_equal NilEmpty.uint_of_string) in H.
  rewrite !NilEmpty.usu in H. injection H as H.
  apply (f_equal Nat.of_uint) in H.
  rewrite !DecimalNat.Unsigned.of_to in H. exact H.
Qed.

Lemma combine_snoc {A B : Type} (l : list A) (l' : list B) (a : A) (b : B) :
  length l = length l' ->
  combine (l ++ [a]) (l' ++ [b]) = combine l l' ++ [(a, b)].
Proof.
  revert l'. induction l as [|x l IH]; intros [|y l'] H; simpl in *;
    try discriminate; [reflexivity|].
  rewrite IH by (injection H as H; exact H). reflexivity.
Qed.

Lemma enumerate_snoc {A : Type} (l : list A) (a : A) :
  enumerate (l ++ [a]) = enumerate l ++ [(length l, a)].
Proof.
  unfold enumerate. rewrite length_app. simpl length.
  rewrite seq_app. simpl seq.
  apply combine_snoc. apply length_seq.
Qed.

Lemma coeff_cells (coeffs : list fl) (i : nat) :
  dict_get (fold_left store_coeff (enumerate coeffs) []) (coeff_name i)
  = nth_error coeffs i.
Proof.
  induction coeffs as [|a coeffs IH] using rev_ind.
  - destruct i; reflexivity.
  - rewrite enumerate_snoc, fold_left_app. simpl. unfold store_coeff at 1. simpl.
    destruct (Nat.eq_dec i (length coeffs)) as [->|Hne].
    + rewrite dict_get_set_same.
      rewrite nth_error_app2 by lia. rewrite Nat.sub_diag. reflexivity.
    + rewrite dict_get_set_other
        by (intros H; apply coeff_name_inj in H; congruence).
      rewrite IH. destruct (Nat.lt_ge_cases i (length coeffs)) as [Hlt|Hge].
      * rewrite nth_error_app1 by exact Hlt. reflexivity.
      * assert (H1 : nth_error coeffs i = None) by (apply nth_error_None; lia).
        assert (H2 : nth_error (coeffs ++ [a]) i = None).
        { apply nth_error_None. rewrite length_app. simpl. lia. }
        rewrite H1, H2. reflexivity.
Qed.

Lemma coeff_keys (coeffs : list fl) (c : string) :
  In c (map fst (fold_left store_coeff (enumerate coeffs) []))
  <-> exists i, (i < length coeffs)%nat /\ c = coeff_name i.
Proof.
  induction coeffs as [|a coeffs IH] using rev_ind.
  - simpl. split; [intros [] | intros (i & Hi & _); lia].
  - rewrite enumerate_snoc, fold_left_app. simpl. unfold store_coeff at 1. simpl.
    rewrite dict_set_keys, IH, length_app. simpl. split.
    + intros [->|(i & Hi & ->)].
      * exists (length coeffs). split; [lia | reflexivity].
      * exists i. split; [lia | reflexivity].
    + intros (i & Hi & ->).
      destruct (Nat.eq_dec i (length coeffs)) as [->|Hne];
        [left; reflexivity | right; exists i; split; [lia | reflexivity]].
Qed.

Section AnyFloat.

Variable float : string -> option fl.

Lemma collect_trait_get (d : list (string * list fl)) (t : Trait) (ty : string) :
  let got d := match dict_get d ty with Some l => l | None => [] end in
  got (collect_trait float d t)
  = got d ++ (if collected ty t then [numeric_val float (trait_measurement t)] else [])
  /\ (dict_get (collect_trait float d t) ty = None
      <-> dict_get d ty = None /\ collected ty t = false).
Proof.
  unfold collect_trait, collected.
  destruct (trait_type t) as [ty'|];
    [|rewrite app_nil_r; split; [reflexivity | tauto]].
  destruct (String.eqb_spec ty' ty) as [->|Hne]; cbn [andb].
  - destruct (negb (String.eqb ty "") && negb (is_null (trait_measurement t)))%bool;
      [|rewrite app_nil_r; split; [reflexivity | tauto]].
    rewrite dict_get_set_same. split; [reflexivity|].
    split; [discriminate | intros (_ & H); discriminate H].
  - destruct (negb (String.eqb ty' "") && negb (is_null (trait_measurement t)))%bool;
      [rewrite dict_get_set_other by exact Hne|];
      rewrite app_nil_r; split; try reflexivity; tauto.
Qed.

Lemma collect_traits_get (traits : list Trait) (d : list (string * list fl))
  (ty : string) :
  let got d := match dict_get d ty with Some l => l | None => [] end in
  let d' := fold_left (collect_trait float) traits d in
  got d' = got d ++ measurements_of float ty traits
  /\ (dict_get d' ty = None
      <-> dict_get d ty = None /\ measurements_of float ty traits = [])
  /\ (NoDup (map fst d) -> NoDup (map fst d')).
Proof.
  revert d. induction traits as [|t traits IH]; intros d; cbv zeta.
  - simpl. unfold measurements_of. simpl. rewrite app_nil_r.
    split; [reflexivity|]. split; tauto.
  - cbn [fold_left].
    destruct (IH (collect_trait float d t)) as (Hgot & Hnone & Hnd).
    destruct (collect_trait_get d t ty) as (Hgot1 & Hnone1).
    cbv zeta in Hgot, Hnone, Hgot1, Hnone1.
    unfold measurements_of in *. cbn [filter].
    split; [|split].
    + rewrite Hgot, Hgot1, <- app_assoc. f_equal.
      destruct (collected ty t); reflexivity.
    + rewrite Hnone, Hnone1.
      destruct (collected ty t); simpl; intuition discriminate.
    + intros H. apply Hnd. unfold collect_trait.
      destruct (trait_type t) as [ty'|]; [|exact H].
      destruct (negb (String.eqb ty' "") && negb (is_null (trait_measurement t)))%bool;
        [apply dict_set_NoDup; exact H | exact H].
Qed.

Lemma store_traits_get (td : list (string * list fl)) (record : list (string * fl))
  (ty : string) :
  NoDup (map fst td) ->
  dict_get (fold_left store_trait td record) ("trait_" ++ ty)
  = match dict_get td ty with
    | Some ms => Some (valid_mean ms)
    | None => dict_get record ("trait_" ++ ty)
    end.
Proof.
  revert record. induction td as [|[k ms] td IH]; intros record Hnd;
    [reflexivity|].
  inversion Hnd as [|x xs Hnotin Hnd']; subst.
  cbn [fold_left]. rewrite IH by exact Hnd'.
  unfold store_trait at 1. cbn [fst snd]. rewrite dict_get_cons.
  destruct (String.eqb_spec k ty) as [->|Hne].
  - destruct (dict_get td ty) as [ms'|] eqn:Hget.
    + exfalso. apply Hnotin. apply dict_get_in in Hget.
      apply (in_map fst) in Hget. exact Hget.
    + apply dict_get_set_same.
  - destruct (dict_get td ty); [reflexivity|].
    apply dict_get_set_other. intros H. apply trait_name_inj in H. contradiction.
Qed.

Lemma store_traits_other (td : list (string * list fl)) (record : list (string * fl))
  (c : string) :
  String.prefix "trait_" c = false ->
  dict_get (fold_left store_trait td record) c = dict_get record c.
Proof.
  intros Hc. revert record. induction td as [|[k ms] td IH]; intros record;
    [reflexivity|].
  cbn [fold_left]. rewrite IH. unfold store_trait. cbn [fst snd].
  apply dict_get_set_other. intros <-. simpl in Hc.
  destruct k; discriminate Hc.
Qed.

Lemma store_traits_keys (td : list (string * list fl)) (record : list (string * fl))
  (c : string) :
  In c (map fst (fold_left store_trait td record))
  <-> In c (map fst record) \/ exists k, In k (map fst td) /\ c = ("trait_" ++ k)%string.
Proof.
  revert record. induction td as [|[k ms] td IH]; intros record; cbn [fold_left].
  - simpl. split; [tauto | intros [H|(k & [] & _)]; exact H].
  - rewrite IH. unfold store_trait at 1. cbn [fst snd map].
    rewrite dict_set_keys. split.
    + intros [[->|H]|(k' & Hk' & ->)].
      * right. exists k. split; [left; reflexivity | reflexivity].
      * left. exact H.
      * right. exists k'. split; [right; exact Hk' | reflexivity].
    + intros [H|(k' & [<-|Hk'] & ->)].
      * left. right. exact H.
      * left. left. reflexivity.
      * right. exists k'. split; [exact Hk' | reflexivity].
Qed.

Lemma dict_get_none_keys {V : Type} (d : list (string * V)) (k : string) :
  dict_get d k = None <-> ~ In k (map fst d).
Proof.
  induction d as [|[k' v] d IH]; [simpl; tauto|].
  rewrite dict_get_cons. simpl.
  destruct (String.eqb_spec k' k) as [Heq|Hne].
  - split; [discriminate | intros H; exfalso; apply H; left; exact Heq].
  - rewrite IH. tauto.
Qed.

(** The cell of a trait column is the mean of the valid measurements
    collected for the type. *)
Lemma record_trait_cell (exp_id : string) (exp_data : ExperimentData) (ty : string) :
  cell (prepare_record float exp_id exp_data) ("trait_" ++ ty)
  = valid_mean (measurements_of float ty (x_associatedTraits exp_data)).
Proof.
  unfold cell, prepare_record. cbn [cells].
  destruct (collect_traits_get (x_associatedTraits exp_data) [] ty)
    as (Hgot & Hnone & Hnd).
  cbv zeta in Hgot, Hnone. cbn [dict_get app] in Hgot, Hnone.
  rewrite store_traits_get by (apply Hnd; constructor).
  destruct (dict_get (fold_left (collect_trait float) (x_associatedTraits exp_data) []) ty)
    as [ms|] eqn:Hget.
  - rewrite Hgot. reflexivity.
  - assert (Hm : measurements_of float ty (x_associatedTraits exp_data) = [])
      by (apply Hnone; reflexivity).
    rewrite Hm.
    rewrite dict_get_set_other by (simpl; discriminate).
    replace (dict_get (fold_left store_coeff
                         (enumerate (x_polynomial_coefficients exp_data)) [])
                      ("trait_" ++ ty))
      with (@None fl); [reflexivity|].
    symmetry. apply dict_get_none_keys. rewrite coeff_keys.
    intros (i & _ & H). unfold coeff_name in H. simpl in H. discriminate H.
Qed.

Lemma record_r_squared_cell (exp_id : string) (exp_data : ExperimentData) :
  cell (prepare_record float exp_id exp_data) "r_squared" = x_r_squared exp_data.
Proof.
  unfold cell, prepare_record. cbn [cells].
  rewrite store_traits_other by reflexivity.
  rewrite dict_get_set_same. reflexivity.
Qed.

Lemma record_coeff_cell (exp_id : string) (exp_data : ExperimentData) (i : nat) :
  cell (prepare_record float exp_id exp_data) (coeff_name i)
  = nth i (x_polynomial_coefficients exp_data) None.
Proof.
  unfold cell, prepare_record. cbn [cells].
  rewrite store_traits_other by reflexivity.
  rewrite dict_get_set_other by (unfold coeff_name; simpl; discriminate).
  rewrite coeff_cells.
  destruct (nth_error (x_polynomial_coefficients exp_data) i) as [v|] eqn:E.
  - symmetry. apply nth_error_nth. exact E.
  - symmetry. apply nth_overflow. apply nth_error_None. exact E.
Qed.

Lemma record_trait_key (exp_id : string) (exp_data : ExperimentData) (ty : string) :
  In ("trait_" ++ ty)%string (map fst (cells (prepare_record float exp_id exp_data)))
  <-> measurements_of float ty (x_associatedTraits exp_data) <> [].
Proof.
  unfold prepare_record. cbn [cells].
  destruct (collect_traits_get (x_associatedTraits exp_data) [] ty)
    as (_ & Hnone & _).
  cbv zeta in Hnone. cbn [dict_get] in Hnone.
  rewrite store_traits_keys, dict_set_keys, coeff_keys. split.
  - intros [[H|(i & _ & H)]|(k & Hk & H)].
    + simpl in H. discriminate H.
    + unfold coeff_name in H. simpl in H. discriminate H.
    + apply trait_name_inj in H. subst k. intros Hm.
      assert (Hget : dict_get (fold_left (collect_trait float)
                                 (x_associatedTraits exp_data) []) ty = None)
        by (apply Hnone; split; [reflexivity | exact Hm]).
      apply dict_get_none_keys in Hget. contradiction.
  - intros Hm. right. exists ty. split; [|reflexivity].
    destruct (in_dec string_dec ty
                (map fst (fold_left (collect_trait float)
                            (x_associatedTraits exp_data) []))) as [Hin|Hnot];
      [exact Hin|].
    exfalso. apply Hm. apply Hnone. apply dict_get_none_keys. exact Hnot.
Qed.

(** X24: the numeric columns of a record do not disturb each other.  The
    record of an experiment carries its id; the cell ["r_squared"] is its fit
    quality, the cell [coeff_i] its [i]-th coefficient (missing beyond the
    last one), and the cell ["trait_T"] the arithmetic mean of the
    measurements of the entries of type [T] that are numbers ([NaN] when
    there is none: strings that are no numbers, lists and objects count as
    [NaN], entries without type or without measurement are skipped).  The
    record has the key ["trait_T"] exactly when some entry of non-empty type
    [T] has a measurement. *)
Theorem record_cells_are_the_experiment_values
  (exp_id : string) (exp_data : ExperimentData) :
  let r := prepare_record float exp_id exp_data in
  experiment_id r = exp_id
  /\ cell r "r_squared" = x_r_squared exp_data
  /\ (forall i, cell r (coeff_name i) = nth i (x_polynomial_coefficients exp_data) None)
  /\ (forall ty, cell r ("trait_" ++ ty)
                 = valid_mean (measurements_of float ty (x_associatedTraits exp_data)))
  /\ (forall ty, In ("trait_" ++ ty)%string (map fst (cells r))
                 <-> measurements_of float ty (x_associatedTraits exp_data) <> []).
Proof.
  intros r. split; [reflexivity|]. split; [|split; [|split]].
  - apply record_r_squared_cell.
  - intros i. apply record_coeff_cell.
  - intros ty. apply record_trait_cell.
  - intros ty. apply record_trait_key.
Qed.

Lemma filter_perm {A : Type} (f : A -> bool) (l l' : list A) :
  Permutation l l' -> Permutation (filter f l) (filter f l').
Proof.
  induction 1 as [|x l l' _ IH|x y l|l l' l'' _ IH1 _ IH2]; simpl.
  - constructor.
  - destruct (f x); [apply perm_skip|]; exact IH.
  - destruct (f x), (f y); try apply Permutation_refl. apply perm_swap.
  - apply (Permutation_trans IH1 IH2).
Qed.

Lemma valid_mean_none (ms : list fl) :
  valid_mean ms = None <-> forall m, In m ms -> m = None.
Proof.
  unfold valid_mean.
  destruct (Nat.eqb_spec (length (dropna ms)) 0) as [Hz|Hnz].
  - split; [intros _|reflexivity].
    apply dropna_nil_iff. apply length_zero_iff_nil. exact Hz.
  - split; [discriminate|]. intros H. exfalso. apply Hnz.
    apply length_zero_iff_nil. apply dropna_nil_iff. exact H.
Qed.

(** X25: which measurements are collected for a trait type does not depend
    on the order of the trait entries of the experiment: reordering the
    entries reorders the collected measurements and nothing else.  The
    value of the trait column is missing exactly when none of them is a
    number, before and after the reordering. *)
Theorem trait_value_is_missing_iff_no_number
  (exp_id : string) (exp_data : ExperimentData) (traits' : list Trait)
  (ty : string) :
  Permutation (x_associatedTraits exp_data) traits' ->
  let value := cell (prepare_record float exp_id exp_data) ("trait_" ++ ty) in
  let value' := cell (prepare_record float exp_id (with_traits exp_data traits'))
                     ("trait_" ++ ty) in
  let ms := measurements_of float ty (x_associatedTraits exp_data) in
  Permutation ms (measurements_of float ty traits')
  /\ (value = None <-> forall m, In m ms -> m = None)
  /\ (value' = None <-> value = None).
Proof.
  intros Hperm value value' ms. unfold value, value'.
  rewrite !record_trait_cell. fold ms. cbn [with_traits x_associatedTraits].
  assert (Hms : Permutation ms (measurements_of float ty traits')).
  { unfold ms, measurements_of. apply Permutation_map. apply filter_perm.
    exact Hperm. }
  split; [exact Hms|]. split; [apply valid_mean_none|].
  rewrite !valid_mean_none. split; intros H m Hm; apply H.
  - apply (Permutation_in _ Hms). exact Hm.
  - apply (Permutation_in _ (Permutation_sym Hms)). exact Hm.
Qed.

Lemma add_columns_spec (columns keys : list string) :
  (forall c, In c (add_columns columns keys) <-> In c columns \/ In c keys)
  /\ (NoDup columns -> NoDup (add_columns columns keys)).
Proof.
  unfold add_columns. revert columns.
  induction keys as [|k keys IH]; intros columns; simpl.
  - split; [intros c; tauto | tauto].
  - destruct (has_column columns k) eqn:E.
    + apply has_column_in in E. destruct (IH columns) as (Hin & Hnd).
      split; [|exact Hnd]. intros c. rewrite Hin.
      split; [tauto | intros [H|[<-|H]]; tauto].
    + destruct (IH (columns ++ [k])) as (Hin & Hnd).
      split.
      * intros c. rewrite Hin, in_app_iff. simpl. tauto.
      * intros H. apply Hnd. apply NoDup_app; [exact H | repeat constructor; intros [] |].
        intros c Hc [<-|[]]. apply has_column_in in Hc. congruence.
Qed.

Lemma frame_columns_spec (keys : list (list string)) (columns : list string) :
  (forall c, In c (fold_left add_columns keys columns)
             <-> In c columns \/ exists ks, In ks keys /\ In c ks)
  /\ (NoDup columns -> NoDup (fold_left add_columns keys columns)).
Proof.
  revert columns. induction keys as [|ks keys IH]; intros columns; simpl.
  - split; [|tauto]. intros c. split; [tauto | intros [H|(ks & [] & _)]; exact H].
  - destruct (IH (add_columns columns ks)) as (Hin & Hnd).
    destruct (add_columns_spec columns ks) as (Hin1 & Hnd1).
    split; [|intros H; apply Hnd, Hnd1, H].
    intros c. rewrite Hin, Hin1. split.
    + intros [[H|H]|(ks' & Hks' & Hc)].
      * left. exact H.
      * right. exists ks. split; [left; reflexivity | exact H].
      * right. exists ks'. split; [right; exact Hks' | exact Hc].
    + intros [H|(ks' & [<-|Hks'] & Hc)].
      * left. left. exact H.
      * left. right. exact Hc.
      * right. exists ks'. split; assumption.
Qed.

(** X26: the frame built from a dictionary of experiments has one row per
    experiment, in the order of the dictionary and under pairwise different
    ids; its columns are pairwise different and are the keys of its records;
    a trait column ["trait_T"] is among the traits to analyse exactly when
    some experiment has an entry of non-empty type [T] with a measurement,
    and the fit quality is among them whenever there is an experiment. *)
Theorem frame_has_one_row_per_experiment
  (experiments : list (string * ExperimentData)) :
  NoDup (map fst experiments) ->
  let df := prepare_dataframe float experiments in
  map experiment_id (df_rows df) = map fst experiments
  /\ NoDup (map experiment_id (df_rows df))
  /\ NoDup (df_columns df)
  /\ (forall c, In c (df_columns df)
                <-> exists r, In r (df_rows df) /\ In c (record_keys r))
  /\ (forall ty poly_degree,
        In ("trait_" ++ ty)%string (traits_to_analyze (df_columns df) poly_degree)
        <-> exists kv, In kv experiments
                       /\ measurements_of float ty (x_associatedTraits (snd kv)) <> [])
  /\ (experiments <> [] ->
      forall poly_degree, In "r_squared"%string
                             (traits_to_analyze (df_columns df) poly_degree)).
Proof.
  intros Hnd df.
  assert (Hids : map experiment_id (df_rows df) = map fst experiments).
  { unfold df, prepare_dataframe. cbn [df_rows]. rewrite map_map. reflexivity. }
  destruct (frame_columns_spec
              (map record_keys
                 (map (fun kv => prepare_record float (fst kv) (snd kv)) experiments)) [])
    as (Hcols & Hcnd).
  assert (Hin : forall c, In c (df_columns df)
                <-> exists r, In r (df_rows df) /\ In c (record_keys r)).
  { intros c. unfold df, prepare_dataframe. cbn [df_columns df_rows].
    rewrite Hcols. split.
    - intros [[]|(ks & Hks & Hc)]. apply in_map_iff in Hks.
      destruct Hks as (r & <- & Hr). exists r. split; assumption.
    - intros (r & Hr & Hc). right. exists (record_keys r).
      split; [apply in_map; exact Hr | exact Hc]. }
  split; [exact Hids|]. split; [rewrite Hids; exact Hnd|].
  split; [apply Hcnd; constructor|]. split; [exact Hin|]. split.
  - intros ty poly_degree. unfold traits_to_analyze. rewrite !in_app_iff.
    rewrite !filter_In, Hin. split.
    + intros [H|[(H & _)|((r & Hr & Hc) & _)]].
      * destruct (has_column (df_columns df) "r_squared"); [|contradiction].
        destruct H as [H|[]]. discriminate H.
      * apply in_map_iff in H. destruct H as (i & H & _).
        unfold coeff_name in H. simpl in H. discriminate H.
      * unfold df, prepare_dataframe in Hr. cbn [df_rows] in Hr.
        apply in_map_iff in Hr. destruct Hr as (kv & <- & Hkv).
        exists kv. split; [exact Hkv|].
        apply (record_trait_key (fst kv) (snd kv) ty).
        unfold record_keys in Hc. apply in_app_iff in Hc.
        destruct Hc as [Hc|Hc]; [|exact Hc].
        simpl in Hc. exfalso. intuition discriminate.
    + intros (kv & Hkv & Hm). right. right. split; [|destruct ty; reflexivity].
      exists (prepare_record float (fst kv) (snd kv)).
      split; [unfold df, prepare_dataframe; cbn [df_rows];
              apply (in_map (fun kv => prepare_record float (fst kv) (snd kv)));
              exact Hkv|].
      unfold record_keys. apply in_app_iff. right.
      apply (record_trait_key (fst kv) (snd kv) ty). exact Hm.
  - intros Hne poly_degree. unfold traits_to_analyze. apply in_app_iff. left.
    assert (Hr2 : In "r_squared"%string (df_columns df)).
    { apply Hin. destruct experiments as [|kv rest]; [contradiction|].
      exists (prepare_record float (fst kv) (snd kv)).
      split; [left; reflexivity|].
      unfold record_keys. apply in_app_iff. right.
      unfold prepare_record. cbn [cells].
      rewrite store_traits_keys. left. rewrite dict_set_keys. left. reflexivity. }
    apply has_column_in in Hr2. rewrite Hr2. left. reflexivity.
Qed.

End AnyFloat.

Lemma trait_value_is_missing_iff_no_number_witness :
  cell (prepare_record float_example "x"
          (with_traits experiment_data_example (rev traits_example)))
       "trait_mass" = None
  <-> cell (prepare_record float_example "x" experiment_data_example)
           "trait_mass" = None.
Proof.
  destruct (trait_value_is_missing_iff_no_number float_example "x"
              experiment_data_example (rev traits_example) "mass"
              (Permutation_rev traits_example)) as (_ & _ & H).
  exact H.
Defined.

Lemma frame_has_one_row_per_experiment_witness :
  NoDup (map experiment_id
           (df_rows (prepare_dataframe float_example
                       [("x"%string, experiment_data_example);
                        ("y"%string, experiment_data_example)]))).
Proof.
  assert (Hkeys : NoDup (map fst [("x"%string, experiment_data_example);
                                  ("y"%string, experiment_data_example)])).
  { simpl. repeat (constructor; [simpl; intuition discriminate|]). constructor. }
  destruct (frame_has_one_row_per_experiment float_example
              [("x"%string, experiment_data_example);
               ("y"%string, experiment_data_example)] Hkeys) as (_ & H & _).
  exact H.
Defined.

End PrepareFacts.

(** * The shape of the stored fit *)

Section FitShape.

Import Curve.
Local Open Scope Q_scope.

Lemma length_lstsq_poly (xs ys : list Q) (deg : nat) :
  length (lstsq_poly xs ys deg) = S deg.
Proof. unfold lstsq_poly, solve. rewrite length_map, length_seq. reflexivity. Qed.

(** X27: the coefficients of a record are those of the series that
    [Polynomial.fit] returns for the trimmed curve of the experiment and the
    configured degree: one more than the degree, in the scaled variable of
    that series, whose window is [[-1, 1]] and whose domain is the strain
    range of the record, from the smallest to the largest trimmed strain
    (widened by one on both sides when the two are equal). *)
Theorem record_coefficients_belong_to_a_scaled_series
  (cfg : Config) (experiments : list (string * Experiment)) (id : string)
  (r : ExperimentRecord) :
  fit_polynomial_to_experiment cfg experiments id = Some r ->
  exists experiment strain stress name info p,
    dict_get experiments id = Some experiment
    /\ extract_stress_strain_data cfg experiment = Some (strain, stress, name, info)
    /\ Polynomial_fit strain stress (polynomial_degree cfg) = Ret p
    /\ polynomial_coefficients r = coef p
    /\ length (coef p) = (polynomial_degree cfg + 1)%nat
    /\ window p = (-(1), 1)
    /\ is_range strain (fst (rec_strain_range r)) (snd (rec_strain_range r))
    /\ domain p
       = (if Qeq_bool (fst (rec_strain_range r)) (snd (rec_strain_range r))
          then (fst (rec_strain_range r) - 1, snd (rec_strain_range r) + 1)
          else rec_strain_range r).
Proof.
  unfold fit_polynomial_to_experiment, fit_polynomial_to_experiment_outcome.
  destruct (dict_get experiments id) as [experiment|]; [|discriminate].
  destruct (extract_stress_strain_data cfg experiment)
    as [[[[strain stress] name] info]|] eqn:Hex; [|discriminate].
  destruct (Nat.ltb_spec (length strain) 10) as [|Hlen]; [discriminate|].
  unfold build_record, fit.
  destruct (Polynomial_fit strain stress (polynomial_degree cfg)) as [p|] eqn:Hp;
    cbn [py_bind]; [|discriminate].
  destruct (arr_min strain) as [lo|] eqn:Hlo; cbn [py_bind]; [|discriminate].
  destruct (arr_max strain) as [hi|] eqn:Hhi; cbn [py_bind]; [|discriminate].
  destruct (arr_min stress); cbn [py_bind]; [|discriminate].
  destruct (arr_max stress); cbn [py_bind]; [|discriminate].
  intros H. injection H as <-.
  cbn [polynomial_coefficients rec_strain_range fst snd].
  exists experiment, strain, stress, name, info, p.
  split; [reflexivity|]. split; [exact Hex|]. split; [exact Hp|].
  split; [reflexivity|].
  unfold Polynomial_fit in Hp.
  destruct (length strain =? 0)%nat; [discriminate|].
  destruct (negb (length strain =? length stress)%nat); [discriminate|].
  rewrite Hlo, Hhi in Hp. cbn [py_bind] in Hp. injection Hp as <-.
  cbn [coef window domain].
  split; [rewrite length_lstsq_poly; lia|]. split; [reflexivity|].
  split; [apply arr_min_max_range; assumption|].
  destruct (Qeq_bool lo hi); reflexivity.
Qed.

Lemma record_coefficients_belong_to_a_scaled_series_witness :
  exists r p,
    fit_polynomial_to_experiment cfg_drop_half
      [("line"%string, experiment_line10)] "line" = Some r
    /\ polynomial_coefficients r = coef p
    /\ length (coef p) = 2%nat /\ window p = (-(1), 1).
Proof.
  destruct (fit_polynomial_to_experiment cfg_drop_half
              [("line"%string, experiment_line10)] "line") as [r|] eqn:Hr.
  - destruct (record_coefficients_belong_to_a_scaled_series cfg_drop_half
                [("line"%string, experiment_line10)] "line" r Hr)
      as (experiment & strain & stress & name & info & p & _ & _ & _ & Hc & Hl
          & Hw & _).
    exists r, p. split; [reflexivity|]. split; [exact Hc|].
    split; [exact Hl | exact Hw].
  - vm_compute in Hr. discriminate Hr.
Defined.

End FitShape.

(** * Saving and loading a configuration again *)

Section ConfigurationRoundTrip.

Import Configuration.

Lemma json_nested_ind (P : json -> Prop) :
  P JNull -> (forall b, P (JBool b)) -> (forall q, P (JNumber q)) ->
  (forall s, P (JString s)) -> (forall l, P (JList l)) ->
  (forall d, Forall (fun kv => P (snd kv)) d -> P (JDict d)) ->
  forall j, P j.
Proof.
  intros HN HB HQ HS HL HD. fix IH 1. intros [|b|q|s|l|d].
  - exact HN.
  - apply HB.
  - apply HQ.
  - apply HS.
  - apply HL.
  - apply HD. induction d as [|kv d IHd]; constructor; [apply IH | exact IHd].
Qed.

Lemma no_repeated_keys_dict (d : list (string * json)) :
  no_repeated_keys (JDict d)
  <-> NoDup (map fst d) /\ Forall (fun kv => no_repeated_keys (snd kv)) d.
Proof.
  simpl. split; intros (Hnd & H); (split; [exact Hnd|]).
  - clear Hnd. induction d as [|kv d IH]; constructor; simpl in H; [apply H|].
    apply IH. apply H.
  - clear Hnd. induction H as [|kv d Hkv _ IH]; simpl; [exact I | split; assumption].
Qed.

Lemma dict_set_key_order {V : Type} (d : list (string * V)) (k : string) (v : V) :
  map fst (dict_set d k v)
  = if existsb (String.eqb k) (map fst d) then map fst d else map fst d ++ [k].
Proof.
  induction d as [|kv d IH]; simpl; [reflexivity|].
  rewrite (String.eqb_sym k (fst kv)).
  destruct (String.eqb_spec (fst kv) k) as [Heq|Hne]; simpl.
  - rewrite Heq. reflexivity.
  - rewrite IH. destruct (existsb (String.eqb k) (map fst d)); reflexivity.
Qed.

(** The keys of a merge: those of the defaults in their order, then the
    new keys of the saved file in theirs. *)
Lemma merge_key_order (saved default : list (string * json)) :
  NoDup (map fst saved) ->
  map fst (_merge_configs default saved)
  = map fst default
    ++ filter (fun k => negb (existsb (String.eqb k) (map fst default)))
              (map fst saved).
Proof.
  unfold _merge_configs. revert default.
  induction saved as [|[key value] rest IH]; intros default Hnd; simpl.
  - rewrite app_nil_r. reflexivity.
  - inversion Hnd as [|x xs Hnotin Hnd']; subst.
    rewrite IH by exact Hnd'. rewrite dict_set_key_order.
    destruct (existsb (String.eqb key) (map fst default)) eqn:E; simpl.
    + reflexivity.
    + rewrite <- app_assoc. simpl. f_equal. f_equal.
      apply filter_ext_in. intros k Hk. rewrite existsb_app. simpl.
      destruct (String.eqb_spec k key) as [->|Hne]; [contradiction|].
      rewrite !orb_false_r. reflexivity.
Qed.

Lemma merge_keys_NoDup (saved default : list (string * json)) :
  NoDup (map fst default) -> NoDup (map fst (_merge_configs default saved)).
Proof.
  unfold _merge_configs. revert default.
  induction saved as [|kv rest IH]; intros default Hnd; simpl; [exact Hnd|].
  apply IH. apply dict_set_NoDup. exact Hnd.
Qed.

Lemma dict_ext {V : Type} (l l' : list (string * V)) :
  NoDup (map fst l) ->
  map fst l = map fst l' ->
  (forall k, dict_get l k = dict_get l' k) ->
  l = l'.
Proof.
  revert l'. induction l as [|[k v] l IH]; intros [|[k' v'] l'] Hnd Hkeys Hget;
    try discriminate; [reflexivity|].
  simpl in Hkeys. injection Hkeys as <- Hkeys.
  inversion Hnd as [|x xs Hnotin Hnd']; subst.
  pose proof (Hget k) as Hk. rewrite !dict_get_cons, String.eqb_refl in Hk.
  injection Hk as <-. f_equal. apply IH; [exact Hnd' | exact Hkeys|].
  intros k0. specialize (Hget k0). rewrite !dict_get_cons in Hget.
  destruct (String.eqb_spec k k0) as [Heq|Hne]; [|exact Hget].
  rewrite <- Heq. rewrite (dict_get_absent l k Hnotin).
  rewrite Hkeys in Hnotin. rewrite (dict_get_absent l' k Hnotin). reflexivity.
Qed.

Lemma filter_absent_keys (keys extra : list string) :
  filter (fun k => negb (existsb (String.eqb k) keys))
         (keys ++ filter (fun k => negb (existsb (String.eqb k) keys)) extra)
  = filter (fun k => negb (existsb (String.eqb k) keys)) extra.
Proof.
  rewrite filter_app.
  replace (filter (fun k => negb (existsb (String.eqb k) keys)) keys) with (@nil string).
  - simpl. induction extra as [|x extra IH]; simpl; [reflexivity|].
    destruct (negb (existsb (String.eqb x) keys)) eqn:E; simpl; [rewrite E|];
      rewrite IH; reflexivity.
  - symmetry. apply filter_none. intros k Hk.
    apply negb_false_iff. apply existsb_exists. exists k.
    split; [exact Hk | apply String.eqb_refl].
Qed.

(** Merging a merge over the same defaults changes nothing, as soon as the
    values stored under the common keys are stable. *)
Lemma merge_merge (default saved : list (string * json)) :
  NoDup (map fst default) -> NoDup (map fst saved) ->
  (forall k dv, dict_get default k = Some dv -> merged_value dv (Some dv) = dv) ->
  (forall k sv dv, dict_get saved k = Some sv -> dict_get default k = Some dv ->
     merged_value (merged_value sv (Some dv)) (Some dv) = merged_value sv (Some dv)) ->
  _merge_configs default (_merge_configs default saved) = _merge_configs default saved.
Proof.
  intros Hd Hs Hself Hidem.
  pose proof (merge_keys_NoDup saved default Hd) as Hm.
  apply dict_ext.
  - apply merge_keys_NoDup. exact Hd.
  - rewrite (merge_key_order (_merge_configs default saved) default Hm).
    rewrite !(merge_key_order saved default Hs).
    rewrite filter_absent_keys. reflexivity.
  - intros k. rewrite (merge_lookup (_merge_configs default saved) default k Hm).
    rewrite (merge_lookup saved default k Hs).
    destruct (dict_get saved k) as [sv|] eqn:Hsk.
    + destruct (dict_get default k) as [dv|] eqn:Hdk.
      * rewrite (Hidem k sv dv Hsk Hdk). reflexivity.
      * destruct sv; reflexivity.
    + destruct (dict_get default k) as [dv|] eqn:Hdk; [|reflexivity].
      rewrite (Hself k dv Hdk). reflexivity.
Qed.

Lemma merge_self (d : list (string * json)) :
  NoDup (map fst d) ->
  (forall k dv, dict_get d k = Some dv -> merged_value dv (Some dv) = dv) ->
  _merge_configs d d = d.
Proof.
  intros Hd Hself. apply dict_ext.
  - apply merge_keys_NoDup. exact Hd.
  - rewrite (merge_key_order d d Hd).
    replace (filter (fun k => negb (existsb (String.eqb k) (map fst d))) (map fst d))
      with (@nil string); [apply app_nil_r|].
    symmetry. apply filter_none. intros k Hk.
    apply negb_false_iff. apply existsb_exists. exists k.
    split; [exact Hk | apply String.eqb_refl].
  - intros k. rewrite (merge_lookup d d k Hd).
    destruct (dict_get d k) as [dv|] eqn:Hdk; [|reflexivity].
    rewrite (Hself k dv Hdk). reflexivity.
Qed.

Lemma dict_get_Forall {V : Type} (P : string * V -> Prop) (d : list (string * V))
  (k : string) (v : V) :
  Forall P d -> dict_get d k = Some v -> P (k, v).
Proof.
  intros H Hget. apply dict_get_in in Hget.
  rewrite Forall_forall in H. apply (H _ Hget).
Qed.

Lemma merged_value_self (v : json) :
  no_repeated_keys v -> merged_value v (Some v) = v.
Proof.
  induction v as [|b|q|s|l|d IH] using json_nested_ind; intros Hwf;
    try reflexivity.
  apply no_repeated_keys_dict in Hwf. destruct Hwf as (Hnd & Hall).
  rewrite merged_value_dicts. f_equal. apply merge_self; [exact Hnd|].
  intros k dv Hget.
  apply (dict_get_Forall _ d k dv IH Hget).
  apply (dict_get_Forall _ d k dv Hall Hget).
Qed.

Lemma merged_value_idempotent (sv : json) :
  no_repeated_keys sv ->
  forall dv, no_repeated_keys dv ->
    merged_value (merged_value sv (Some dv)) (Some dv) = merged_value sv (Some dv).
Proof.
  induction sv as [|b|q|s|l|s IH] using json_nested_ind; intros Hwf dv Hdv;
    try reflexivity.
  destruct dv as [|b|q|s0|l|d]; try reflexivity.
  apply no_repeated_keys_dict in Hwf. destruct Hwf as (Hs & Hsall).
  apply no_repeated_keys_dict in Hdv. destruct Hdv as (Hd & Hdall).
  rewrite !merged_value_dicts. f_equal.
  apply merge_merge; [exact Hd | exact Hs | |].
  - intros k dv Hget. apply merged_value_self.
    apply (dict_get_Forall _ d k dv Hdall Hget).
  - intros k sv dv Hsk Hdk.
    apply (dict_get_Forall _ s k sv IH Hsk).
    + apply (dict_get_Forall _ s k sv Hsall Hsk).
    + apply (dict_get_Forall _ d k dv Hdall Hdk).
Qed.

Lemma merged_value_no_repeated_keys (sv : json) :
  no_repeated_keys sv ->
  forall old, match old with Some dv => no_repeated_keys dv | None => True end ->
    no_repeated_keys (merged_value sv old).
Proof.
  induction sv as [|b|q|s|l|s IH] using json_nested_ind; intros Hwf old Hold;
    try exact I.
  destruct old as [[|b|q|s0|l|d]|]; try exact Hwf.
  rewrite merged_value_dicts.
  apply no_repeated_keys_dict in Hwf. destruct Hwf as (Hs & Hsall).
  apply no_repeated_keys_dict in Hold. destruct Hold as (Hd & Hdall).
  pose proof (merge_keys_NoDup s d Hd) as Hm.
  apply no_repeated_keys_dict. split; [exact Hm|].
  apply Forall_forall. intros [k v] Hin. simpl.
  apply (in_dict_get _ _ _ Hm) in Hin.
  rewrite (merge_lookup s d k Hs) in Hin.
  destruct (dict_get s k) as [sv|] eqn:Hsk.
  - injection Hin as <-.
    apply (dict_get_Forall _ s k sv IH Hsk).
    + apply (dict_get_Forall _ s k sv Hsall Hsk).
    + destruct (dict_get d k) as [dv|] eqn:Hdk; [|exact I].
      apply (dict_get_Forall _ d k dv Hdall Hdk).
  - apply (dict_get_Forall _ d k v Hdall Hin).
Qed.

(** X28: saving a loaded configuration and loading it again gives the same
    configuration: on dictionaries as [json.load] returns them (no key bound
    twice), merging the merge of a saved file over the defaults once more
    over the defaults changes nothing, and a saved file equal to the
    defaults gives the defaults.  The merged configuration lists the keys
    of the defaults first, in their order, then the new keys of the saved
    file, and again binds no key twice at any depth. *)
Theorem merging_again_changes_nothing (default saved : list (string * json)) :
  no_repeated_keys (JDict default) ->
  no_repeated_keys (JDict saved) ->
  _merge_configs default (_merge_configs default saved)
  = _merge_configs default saved
  /\ _merge_configs default default = default
  /\ map fst (_merge_configs default saved)
     = map fst default
       ++ filter (fun k => negb (existsb (String.eqb k) (map fst default)))
                 (map fst saved)
  /\ no_repeated_keys (JDict (_merge_configs default saved)).
Proof.
  intros Hd Hs.
  pose proof (merged_value_idempotent (JDict saved) Hs (JDict default) Hd) as Hidem.
  pose proof (merged_value_self (JDict default) Hd) as Hself.
  rewrite !merged_value_dicts in Hidem. rewrite merged_value_dicts in Hself.
  injection Hidem as Hidem. injection Hself as Hself.
  pose proof (merged_value_no_repeated_keys (JDict saved) Hs
                (Some (JDict default)) Hd) as Hwf.
  rewrite merged_value_dicts in Hwf.
  apply no_repeated_keys_dict in Hs. destruct Hs as (Hsnd & _).
  split; [exact Hidem|]. split; [exact Hself|].
  split; [apply merge_key_order; exact Hsnd | exact Hwf].
Qed.

Lemma merging_again_changes_nothing_witness :
  _merge_configs DEFAULT_CONFIG (_merge_configs DEFAULT_CONFIG saved_example)
  = _merge_configs DEFAULT_CONFIG saved_example.
Proof.
  apply (merging_again_changes_nothing DEFAULT_CONFIG saved_example).
  - simpl. repeat split; repeat constructor; simpl; intuition discriminate.
  - simpl. repeat split; repeat constructor; simpl; intuition discriminate.
Defined.

End ConfigurationRoundTrip.

(** * From the dictionary of experiments to the outlier experiments *)

Section PipelineFacts.

Import Outliers.
Local Open Scope R_scope.

Lemma trait_column_name (t : string) :
  String.prefix "trait_" t = true -> exists ty, t = ("trait_" ++ ty)%string.
Proof.
  generalize "trait_"%string as p. intros p. revert t.
  induction p as [|a p IH]; intros t H.
  - exists t. reflexivity.
  - destruct t as [|c t]; [discriminate H|]. simpl in H.
    destruct (Ascii.ascii_dec a c) as [<-|]; [|discriminate H].
    destruct (IH t H) as (ty & ->). exists ty. reflexivity.
Qed.

Section AnyPipeline.

Variable sort_values : forall A : Type, (A -> fl) -> list A -> list A.
Hypothesis sort_ok : sort_contract sort_values.
Variable float : string -> option fl.

(** X29: the analysis script from end to end, on a dictionary of
    experiments: an experiment is reported only if it is in the dictionary
    and the group of its record is an entry of the results with at least two
    samples, and that entry has a trait (the fit quality, a coefficient the
    experiment has, up to the polynomial degree of the metadata, or a trait
    type of which the experiment has a measurement that is a number), with
    at least two values in the group, for which the value in the record of
    the experiment is strictly under the stored low edge or strictly over
    the stored high edge of the band of the chosen sigma level. *)
Theorem pipeline_reports_only_outlying_experiments
  (experiments : list (string * ExperimentData)) (poly_degree : nat)
  (threshold : R) (k : sigma_level) (id : string) :
  NoDup (map fst experiments) ->
  let df := prepare_dataframe float experiments in
  reported id (snd (run_analysis sort_values df poly_degree threshold k)) ->
  exists exp_data key gd t a v,
    In (id, exp_data) experiments
    /\ In (key, gd) (fst (run_analysis sort_values df poly_degree threshold k))
    /\ key = group_key_string (key_of (prepare_record float id exp_data))
    /\ (2 <= sample_count gd)%nat
    /\ In (t, a) (traits gd)
    /\ (t = "r_squared"%string
        \/ (exists i, (i <= poly_degree)%nat /\ t = coeff_name i
                      /\ (i < length (x_polynomial_coefficients exp_data))%nat)
        \/ (exists ty m, t = ("trait_" ++ ty)%string
                         /\ In (Some m) (measurements_of float ty
                                           (x_associatedTraits exp_data))))
    /\ (2 <= count (statistics a))%nat
    /\ cell (prepare_record float id exp_data) t = Some v
    /\ ((exists lo, sigma_low (statistics a) k = Some lo /\ v < lo)
        \/ (exists hi, sigma_high (statistics a) k = Some hi /\ hi < v)).
Proof.
  intros Hkeys df Hrep. unfold run_analysis in Hrep |- *. cbn [fst snd] in Hrep |- *.
  assert (Hids : NoDup (map experiment_id (df_rows df))).
  { unfold df, prepare_dataframe. cbn [df_rows]. rewrite map_map. exact Hkeys. }
  destruct (reported_in_group sort_values sort_ok df poly_degree threshold k id
              Hids Hrep)
    as (key & gd & g & r & t & a & v & Hkg & Hg & He & Hin & Hid & Hta & Ht
        & _ & Hcount & Hcell & Hside).
  destruct He as (Hkey & _ & _ & _ & Hsample & Hlen & _).
  destruct (groupby_grouped (df_rows df)) as (_ & Hrows & _).
  pose proof (Hrows g Hg) as Hsnd.
  assert (Hr : In r (df_rows df) /\ key_eqb (fst g) (key_of r) = true).
  { rewrite Hsnd in Hin. apply filter_In in Hin. exact Hin. }
  destruct Hr as (Hr & Hk). apply key_eqb_eq in Hk. rewrite Hk in Hkey.
  unfold df, prepare_dataframe in Hr. cbn [df_rows] in Hr.
  apply in_map_iff in Hr. destruct Hr as ([id' exp_data] & Hrec & Hkv).
  cbn [fst snd] in Hrec. subst r. cbn [prepare_record experiment_id] in Hid.
  subst id'.
  exists exp_data, key, gd, t, a, v.
  split; [exact Hkv|]. split; [exact Hkg|]. split; [exact Hkey|].
  split; [rewrite Hsample; exact Hlen|]. split; [exact Hta|].
  split; [|split; [exact Hcount|split; [exact Hcell | exact Hside]]].
  apply in_traits_to_analyze in Ht. destruct Ht as (_ & [->|[(i & Hi & ->)|Hpre]]).
  - left. reflexivity.
  - right. left. exists i. split; [exact Hi|]. split; [reflexivity|].
    rewrite (record_coeff_cell float id exp_data i) in Hcell.
    destruct (Nat.lt_ge_cases i (length (x_polynomial_coefficients exp_data)))
      as [Hlt|Hge]; [exact Hlt|].
    rewrite nth_overflow in Hcell by exact Hge. discriminate Hcell.
  - right. right. destruct (trait_column_name t Hpre) as (ty & ->).
    rewrite (record_trait_cell float id exp_data ty) in Hcell.
    unfold valid_mean in Hcell.
    destruct (dropna (measurements_of float ty (x_associatedTraits exp_data)))
      as [|m ms] eqn:E; [discriminate Hcell|].
    exists ty, m. split; [reflexivity|]. apply in_dropna. rewrite E.
    left. reflexivity.
Qed.

End AnyPipeline.

Lemma pipeline_reports_only_outlying_experiments_witness :
  exists exp_data t v,
    In ("e1"%string, exp_data) experiments_tie
    /\ cell (prepare_record float_example "e1" exp_data) t = Some v.
Proof.
  assert (Hkeys : NoDup (map fst experiments_tie)).
  { simpl. repeat (constructor; [simpl; intuition discriminate|]). constructor. }
  assert (Hrep : reported "e1"
            (snd (run_analysis insertion_sort_desc
                    (prepare_dataframe float_example experiments_tie) 1 (1 / 2)
                    sigma1))).
  { unfold run_analysis. cbn [snd]. apply e1_reported_in_tie_frame; reflexivity. }
  destruct (pipeline_reports_only_outlying_experiments insertion_sort_desc
              insertion_sort_desc_contract float_example experiments_tie 1 (1 / 2)
              sigma1 "e1" Hkeys Hrep)
    as (exp_data & key & gd & t & a & v & Hin & _ & _ & _ & _ & _ & _ & Hcell & _).
  exists exp_data, t, v. split; [exact Hin | exact Hcell].
Defined.

End PipelineFacts.
